(** * Ki_Qihe: the QIHE pick-and-place exporter (qihe.py, functions.py)

    A shallow embedding of the mapping-file loader, the footprint
    classifier and the CSV row emitter of [QiHeProcess], with the
    properties of the exporter proved over it.

    Conventions of the embedding:
    - a Python [str] is a [string]; its characters are the code points
      below 256;
    - a Python [int] is a [Z], a Python [float] is an IEEE 754 binary64
      value ([spec_float] at precision 53, maximal exponent 1024);
    - the file system is a finite map from paths to file contents, the
      activity log is the list of the messages passed to [log_activity];
    - an exception is a value of [exn]; a computation returns either an
      exception or a result, together with the world it leaves behind. *)

From Stdlib Require Import ZArith NArith Ascii String List Bool Lia.
From Stdlib Require Import Sorting.Sorted Sorting.Permutation.
From Stdlib Require Import Numbers.DecimalString Floats.SpecFloat.
From stdpp Require Import gmap strings.

(* ===================================================================== *)
(** * Python strings *)
(* ===================================================================== *)

Module PyStr.

(** Line feed, carriage return and the double quote as characters. *)
Definition LF : ascii := "010"%char.
Definition CR : ascii := "013"%char.
Definition DQUOTE : ascii := "034"%char.

Definition nl : string := String LF "".

(** [str.isspace] on one character: the code points 9-13, 28-32, 133
    and 160 are the white space of [str.split()] and [str.strip()]
    below 256. *)
Definition isspace (c : ascii) : bool :=
  let n := N_of_ascii c in
  ((9 <=? n) && (n <=? 13) || (28 <=? n) && (n <=? 32)
   || (n =? 133) || (n =? 160))%N.

Fixpoint chars (s : string) : list ascii :=
  match s with
  | EmptyString => []
  | String c s' => c :: chars s'
  end.

(** The value is empty or made of white space only. *)
Definition blank (s : string) : bool := forallb isspace (chars s).

Fixpoint lstrip (s : string) : string :=
  match s with
  | EmptyString => EmptyString
  | String c s' => if isspace c then lstrip s' else s
  end.

Fixpoint rstrip (s : string) : string :=
  match s with
  | EmptyString => EmptyString
  | String c s' =>
      match rstrip s' with
      | EmptyString => if isspace c then EmptyString else String c EmptyString
      | r => String c r
      end
  end.

(** [s.strip()] *)
Definition strip (s : string) : string := lstrip (rstrip s).

(** [s.split(sep)] for a one-character separator: never empty. *)
Fixpoint split (sep : ascii) (s : string) : list string :=
  match s with
  | EmptyString => [EmptyString]
  | String c s' =>
      if Ascii.eqb c sep then EmptyString :: split sep s'
      else match split sep s' with
           | w :: ws => String c w :: ws
           | [] => [String c EmptyString]
           end
  end.

(** [s.split()]: the maximal runs of non-space characters. *)
Fixpoint split_ws (s : string) : list string :=
  match s with
  | EmptyString => []
  | String c s' =>
      if isspace c then split_ws s'
      else match s' with
           | EmptyString => [String c EmptyString]
           | String c' _ =>
               if isspace c' then String c EmptyString :: split_ws s'
               else match split_ws s' with
                    | w :: ws => String c w :: ws
                    | [] => [String c EmptyString]
                    end
           end
  end.

(** [s.startswith(c)] for a one-character prefix. *)
Definition startswith (c : ascii) (s : string) : bool :=
  match s with
  | String c' _ => Ascii.eqb c' c
  | EmptyString => false
  end.

(** [sep.join(l)] *)
Fixpoint join (sep : string) (l : list string) : string :=
  match l with
  | [] => ""
  | [x] => x
  | x :: l' => x +:+ sep +:+ join sep l'
  end.

(** The lines a text file opened for reading yields, with universal
    newlines: a line ends at LF, at CR LF or at a lone CR, and keeps
    its end as one LF; a last line without an end is yielded as it is. *)
Fixpoint readlines_go (cur : string) (s : string) : list string :=
  match s with
  | EmptyString =>
      match cur with EmptyString => [] | _ => [cur] end
  | String c s' =>
      if Ascii.eqb c LF then (cur +:+ nl) :: readlines_go "" s'
      else if Ascii.eqb c CR then
        match s' with
        | String c' s'' =>
            if Ascii.eqb c' LF then (cur +:+ nl) :: readlines_go "" s''
            else (cur +:+ nl) :: readlines_go "" s'
        | EmptyString => [cur +:+ nl]
        end
      else readlines_go (cur +:+ String c "") s'
  end.

Definition readlines (s : string) : list string := readlines_go "" s.

(** [str(n)] for an integer. *)
Definition of_Z (z : Z) : string := NilZero.string_of_int (Z.to_int z).
Definition of_nat (n : nat) : string := of_Z (Z.of_nat n).

End PyStr.

(* ===================================================================== *)
(** * Python floats *)
(* ===================================================================== *)

Module PyFloat.

Definition float := spec_float.
Definition prec : Z := 53.
Definition emax : Z := 1024.

(** [float(n)] for an integer: the nearest binary64 value.  The only
    integers converted are the literals of qihe.py and the coordinates
    of a footprint, which pcbnew holds in a C [int]. *)
Definition of_Z (z : Z) : float := binary_normalize prec emax z 0 false.

Definition add : float -> float -> float := SFadd prec emax.
Definition div : float -> float -> float := SFdiv prec emax.
Definition ltb : float -> float -> bool := SFltb.

Definition sign (x : float) : bool :=
  match x with
  | S754_zero s | S754_infinity s | S754_finite s _ _ => s
  | S754_nan => false
  end.

(** C's [fmod]: the exact remainder of the truncated division, with
    the sign of the dividend. *)
Definition fmod (x y : float) : float :=
  match x, y with
  | S754_nan, _ | _, S754_nan => S754_nan
  | S754_infinity _, _ => S754_nan
  | _, S754_zero _ => S754_nan
  | S754_zero _, _ => x
  | S754_finite _ _ _, S754_infinity _ => x
  | S754_finite sx mx ex, S754_finite _ my ey =>
      let e := Z.min ex ey in
      let X := (Zpos mx * 2 ^ (ex - e))%Z in
      let Y := (Zpos my * 2 ^ (ey - e))%Z in
      binary_normalize prec emax (cond_Zopp sx (X mod Y)) e sx
  end.

(** The C truth value of a double: everything but the two zeros. *)
Definition nonzero (x : float) : bool :=
  match x with S754_zero _ => false | _ => true end.

(** [vx % wx] as CPython's [float_rem] computes it, for a divisor that
    is not zero (qihe.py divides by the literal 360 only). *)
Definition rem (vx wx : float) : float :=
  let m := fmod vx wx in
  if nonzero m then
    if xorb (ltb wx (S754_zero false)) (ltb m (S754_zero false))
    then add m wx else m
  else S754_zero (sign wx).

(** The integer nearest to [m * 2^e * 100], ties to even. *)
Definition cents (m : positive) (e : Z) : Z :=
  match e with
  | Zneg p =>
      let d := (2 ^ Zpos p)%Z in
      let n := (Zpos m * 100)%Z in
      let q := (n / d)%Z in
      let r := (n mod d)%Z in
      match (2 * r ?= d)%Z with
      | Lt => q
      | Gt => (q + 1)%Z
      | Eq => if Z.even q then q else (q + 1)%Z
      end
  | _ => (Zpos m * 2 ^ e * 100)%Z
  end.

Definition two_digits (n : Z) : string :=
  (if (n <? 10)%Z then "0" else "") +:+ PyStr.of_Z n.

Definition fixed2 (n : Z) : string :=
  PyStr.of_Z (n / 100) +:+ "." +:+ two_digits (n mod 100).

Definition minus (s : bool) : string := if s then "-" else "".

(** [f"{x:.2f}"]: the decimal nearest to the exact value of [x], with
    two digits after the point. *)
Definition format_2f (x : float) : string :=
  match x with
  | S754_nan => "nan"
  | S754_infinity s => minus s +:+ "inf"
  | S754_zero s => minus s +:+ "0.00"
  | S754_finite s m e => minus s +:+ fixed2 (cents m e)
  end.

End PyFloat.

(* ===================================================================== *)
(** * Python dictionaries with string keys *)
(* ===================================================================== *)

Module PyDict.

(** A dictionary keeps its keys in the order of their first insertion;
    assigning to a key that is present replaces its value in place. *)
Definition dict (V : Type) : Type := list (string * V).

Fixpoint get {V} (k : string) (d : dict V) : option V :=
  match d with
  | [] => None
  | (k', v) :: d' => if String.eqb k' k then Some v else get k d'
  end.

(** [d[k] = v] *)
Fixpoint set {V} (k : string) (v : V) (d : dict V) : dict V :=
  match d with
  | [] => [(k, v)]
  | (k', v') :: d' =>
      if String.eqb k' k then (k', v) :: d' else (k', v') :: set k v d'
  end.

(** [k in d] *)
Definition contains {V} (k : string) (d : dict V) : bool :=
  match get k d with Some _ => true | None => false end.

(** [d.get(k, default)] *)
Definition get_default {V} (k : string) (default : V) (d : dict V) : V :=
  match get k d with Some v => v | None => default end.

End PyDict.

(* ===================================================================== *)
(** * [repr] of strings and of the mapping table *)
(* ===================================================================== *)

Module PyRepr.

Definition SQUOTE : ascii := "039"%char.
Definition BACKSLASH : ascii := "092"%char.
Definition TAB : ascii := "009"%char.

Definition hex_digit (n : N) : ascii :=
  ascii_of_N (if (n <? 10)%N then 48 + n else 87 + n).

Definition hex2 (c : ascii) : string :=
  let n := N_of_ascii c in
  String (hex_digit (n / 16)) (String (hex_digit (n mod 16)) "").

(** The code points below 256 that [repr] writes as they are. *)
Definition printable (c : ascii) : bool :=
  let n := N_of_ascii c in
  ((32 <=? n) && (n <? 127) || (161 <=? n) && negb (n =? 173))%N.

Definition repr_char (q c : ascii) : string :=
  if Ascii.eqb c q || Ascii.eqb c BACKSLASH then String BACKSLASH (String c "")
  else if Ascii.eqb c TAB then String BACKSLASH "t"
  else if Ascii.eqb c PyStr.LF then String BACKSLASH "n"
  else if Ascii.eqb c PyStr.CR then String BACKSLASH "r"
  else if printable c then String c ""
  else String BACKSLASH "x" +:+ hex2 c.

Fixpoint repr_body (q : ascii) (s : string) : string :=
  match s with
  | EmptyString => EmptyString
  | String c s' => repr_char q c +:+ repr_body q s'
  end.

(** [repr(s)]: single quotes, unless [s] has a single quote and no
    double quote. *)
Definition repr_str (s : string) : string :=
  let has c := existsb (Ascii.eqb c) (PyStr.chars s) in
  let q := if has SQUOTE && negb (has PyStr.DQUOTE) then PyStr.DQUOTE else SQUOTE in
  String q (repr_body q s +:+ String q "").

(** [repr] of a dictionary from strings to pairs of strings. *)
Definition repr_entry (kv : string * (string * string)) : string :=
  repr_str kv.1 +:+ ": (" +:+ repr_str kv.2.1 +:+ ", " +:+ repr_str kv.2.2 +:+ ")".

Definition repr_mapping (d : PyDict.dict (string * string)) : string :=
  "{" +:+ PyStr.join ", " (map repr_entry d) +:+ "}".

End PyRepr.

(* ===================================================================== *)
(** * The [csv] writer (excel dialect, minimal quoting) *)
(* ===================================================================== *)

Module Csv.

Definition CRLF : string := String PyStr.CR (String PyStr.LF "").

(** A field is quoted when it holds the delimiter, the quote character
    or a character of the line terminator. *)
Definition special (c : ascii) : bool :=
  Ascii.eqb c ","%char || Ascii.eqb c PyStr.DQUOTE
  || Ascii.eqb c PyStr.CR || Ascii.eqb c PyStr.LF.

Fixpoint double_quotes (s : string) : string :=
  match s with
  | EmptyString => EmptyString
  | String c s' =>
      if Ascii.eqb c PyStr.DQUOTE
      then String c (String c (double_quotes s'))
      else String c (double_quotes s')
  end.

Definition quoted (s : string) : string :=
  String PyStr.DQUOTE (double_quotes s +:+ String PyStr.DQUOTE "").

Definition field (s : string) : string :=
  if existsb special (PyStr.chars s) then quoted s else s.

(** The text [writer.writerow(row)] writes; a row made of one empty
    field is written as a pair of quotes. *)
Definition row (fields : list string) : string :=
  match fields with
  | [EmptyString] => quoted "" +:+ CRLF
  | _ => PyStr.join "," (map field fields) +:+ CRLF
  end.

(** The text of a sequence of rows. *)
Fixpoint text (rows : list (list string)) : string :=
  match rows with
  | [] => ""
  | r :: rows' => row r +:+ text rows'
  end.

End Csv.

(* ===================================================================== *)
(** * Exceptions, the world and computations *)
(* ===================================================================== *)

(** The exceptions qihe.py can meet: [split()[0]] on a value without a
    token, a pattern that is not a regular expression, and a file opened
    for reading that is not there. *)
Inductive exn : Type :=
| IndexError
| re_error (msg : string)
| FileNotFoundError (path : string).

(** [str(e)] *)
Definition str_exn (e : exn) : string :=
  match e with
  | IndexError => "list index out of range"
  | re_error msg => msg
  | FileNotFoundError path =>
      "[Errno 2] No such file or directory: " +:+ PyRepr.repr_str path
  end.

(** The files on disk and the messages given to [log_activity] so far.
    Opening a path for writing always succeeds. *)
Record world : Type := World {
  files : gmap string string;
  activity_log : list string
}.

(** A computation runs in a world and leaves a world, with an exception
    or a result; what was written before an exception stays written. *)
Definition M (A : Type) : Type := world -> (exn + A) * world.

Definition ret {A} (a : A) : M A := fun w => (inr a, w).

Definition bind {A B} (c : M A) (k : A -> M B) : M B :=
  fun w =>
    match c w with
    | (inl e, w') => (inl e, w')
    | (inr a, w') => k a w'
    end.

Notation "'let*' x ':=' c 'in' k" := (bind c (fun x => k))
  (at level 10, x name, c at level 100, k at level 200,
   format "'[v' 'let*'  x  ':='  c  'in' '/' k ']'").
Notation "c1 '>>' c2" := (bind c1 (fun _ => c2))
  (at level 100, c2 at level 200, right associativity,
   format "'[v' c1  '>>' '/' c2 ']'").

Definition raise {A} (e : exn) : M A := fun w => (inl e, w).

(** [try: c  except Exception as e: handler e] *)
Definition try_except {A} (c : M A) (handler : exn -> M A) : M A :=
  fun w =>
    match c w with
    | (inl e, w') => handler e w'
    | (inr a, w') => (inr a, w')
    end.

Definition when (b : bool) (c : M unit) : M unit := if b then c else ret tt.

(** [for x in l: body x] *)
Fixpoint forM_ {A} (l : list A) (body : A -> M unit) : M unit :=
  match l with
  | [] => ret tt
  | x :: l' => body x >> forM_ l' body
  end.

(** A loop that carries the variables it assigns. *)
Fixpoint foldM {A S} (body : S -> A -> M S) (s : S) (l : list A) : M S :=
  match l with
  | [] => ret s
  | x :: l' => let* s' := body s x in foldM body s' l'
  end.

Fixpoint mapM {A B} (f : A -> M B) (l : list A) : M (list B) :=
  match l with
  | [] => ret []
  | x :: l' => let* y := f x in let* ys := mapM f l' in ret (y :: ys)
  end.

Definition log_activity (message : string) : M unit :=
  fun w => (inr tt, World (files w) (activity_log w ++ [message])).

(** [os.path.exists(path)] *)
Definition path_exists (path : string) : M bool :=
  fun w => (inr (bool_decide (is_Some (files w !! path))), w).

(** [open(path, "w")] followed by one [write]: the file holds [s]. *)
Definition write_text (path s : string) : M unit :=
  fun w => (inr tt, World (<[path := s]> (files w)) (activity_log w)).

(** A write to a file that is open for writing: [s] goes to its end. *)
Definition append_text (path s : string) : M unit :=
  fun w =>
    (inr tt,
     World (<[path := default "" (files w !! path) +:+ s]> (files w))
           (activity_log w)).

(** [open(path, "r")] and the text read from it. *)
Definition read_text (path : string) : M string :=
  fun w =>
    match files w !! path with
    | Some s => (inr s, w)
    | None => (inl (FileNotFoundError path), w)
    end.

(** [writer.writerow(row)] on the writer of the file at [path]. *)
Definition writerow (path : string) (row : list string) : M unit :=
  append_text path (Csv.row row).

(* ===================================================================== *)
(** * The host: pcbnew, [re] and [os.path] *)
(* ===================================================================== *)

Import PyFloat.

(** A footprint as qihe.py reads it through pcbnew's accessors. *)
Record Footprint : Type := {
  GetReference : string;
  GetValue : string;
  GetPosition : Z * Z;
  GetOrientationDegrees : float;
  GetLayer : Z;
  GetAttributes : Z
}.

Record Board : Type := {
  GetFileName : string;
  GetFootprints : list Footprint
}.

(** What qihe.py imports and does not define: the search of [re] with
    [re.IGNORECASE] ([inl msg] is [re.error(msg)], [inr b] tells whether
    a match was found), the constants of pcbnew, the loaded board, the
    directory of the plugin and the functions of [os.path]. *)
Class Host : Type := {
  re_search : string -> string -> string + bool;
  FP_EXCLUDE_FROM_POS_FILES : Z;
  FP_EXCLUDE_FROM_BOM : Z;
  F_Cu : Z;
  B_Cu : Z;
  GetBoard : option Board;
  plugin_dir : string;
  path_join : string -> string -> string;
  path_dirname : string -> string;
  path_basename : string -> string;
  path_splitext : string -> string * string
}.

(** The options main.py hands to [QiHeProcess]. *)
Record Options : Type := {
  mapping_location : Z;
  process_top_layer : bool;
  process_bottom_layer : bool;
  verbosity_level : Z;
  mapping_file_name : string;
  top_fileext : string;
  bottom_fileext : string
}.

Global Instance float_eq_dec : EqDecision float.
Proof. unfold float. solve_decision. Defined.

Global Instance Footprint_eq_dec : EqDecision Footprint.
Proof. solve_decision. Defined.

(* ===================================================================== *)
(** * functions.py *)
(* ===================================================================== *)

Definition default_content_lines : list string :=
  [ "######################################";
    "# Component Mapping for QIHE PnP machine";
    "#";
    "# For more information on how to edit this file, visit:";
    "# https://github.com/jpkh/ki_qihe";
    "#";
    "# Contact: [Use GitHub issues for questions and suggestions]";
    "#";
    "# This file defines mappings for component placement and special instructions.";
    "# Each line follows one of these formats:";
    "#";
    "# Component Mapping Line:";
    "#   1 or 2, Feeder ID, Component Name(s)";
    "#   - '1 or 2' specifies the nozzle number.";
    "#   - 'Feeder ID' is the feeder location, formatted as Lxx or Bxx";
    "#      (e.g., L1, B12).";
    "#   - 'Component Name(s)' are the names of components, separated by colons (:).";
    "#     These names should match the component values in the PCB design.";
    "#   Example: 1, L1, 0n1:100nF:100nf:0.1uF:0.1uf";
    "#";
    "# Exclude Line:";
    "#   E, , Regex Pattern(s)";
    "#   - 'E' indicates this line specifies components to exclude.";
    "#   - 'Regex Pattern(s)' are patterns to match components to be excluded,";
    "#      separated by colons (:).";
    "#   Example: E, , NC:TP";
    "#";
    "# Priority Line:";
    "#   P, , Regex Pattern(s)";
    "#   - 'P' indicates this line specifies priority components.";
    "#   - 'Regex Pattern(s)' are patterns to match priority components,";
    "#      separated by colons (:).";
    "#   Example: P, , FIDUCIAL:TESTPOINT";
    "#" ].

(** The text of the template: every line above, each ended by a line feed. *)
Definition default_content : string :=
  foldr (fun l s => l +:+ PyStr.nl +:+ s) "" default_content_lines.

(** [create_default_mapping_file]; its handler logs a failed write and
    raises again, which no write does in this world. *)
Definition create_default_mapping_file (filename : string) : M unit :=
  write_text filename default_content >>
  log_activity ("Default mapping file created: " +:+ filename).

(* ===================================================================== *)
(** * qihe.py: class [QiHeProcess] *)
(* ===================================================================== *)

(** The component table: component name to (nozzle, feeder). *)
Abbreviation mapping := (PyDict.dict (string * string)).

(** What [load_component_mapping] returns. *)
Record tables : Type := Tables {
  component_mapping : mapping;
  exclude_patterns : list string;
  priority_patterns : list string
}.

(** The five lists [write_qihe_file] fills while it classifies. *)
Record groups : Type := Groups {
  priority_footprints : list Footprint;
  mapped_footprints : list Footprint;
  unmapped_footprints : list Footprint;
  excluded_by_pattern : list Footprint;
  excluded_by_attribute : list Footprint
}.

Definition header : list string :=
  ["Designator"; "NozzleNum"; "StackNum"; "Mid X"; "Mid Y";
   "Rotation"; "Height"; "Speed"; "Vision"; "Check"; "Explanation"].

(** The rows written after the data rows. *)
Definition trailer : list (list string) :=
  [[]; ["Puzzle"]]
  ++ concat (replicate 8 [["0.00"]; []])
  ++ [[]; []].

(** Insertion of a keyed element before the first element whose key is
    not smaller: [list.sort] is stable. *)
Fixpoint insert_by_key {A} (kx : string * A) (l : list (string * A))
  : list (string * A) :=
  match l with
  | [] => [kx]
  | ky :: l' =>
      if String.leb kx.1 ky.1 then kx :: l else ky :: insert_by_key kx l'
  end.

Definition sort_by_key {A} (l : list (string * A)) : list (string * A) :=
  foldr insert_by_key [] l.

(** A footprint is bound as [fp] where qihe.py says [mod]. *)
Section QiHeProcess.

Context `{Host}.
Variable options : Options.

(** [self.verbosity_level] *)
Local Abbreviation verbosity := (verbosity_level options).

(** [re.search(pattern, value, re.IGNORECASE)] in a computation. *)
Definition search (pattern value : string) : M bool :=
  match re_search pattern value with
  | inl msg => raise (re_error msg)
  | inr b => ret b
  end.

Definition get_mapping_file_path : string :=
  if (mapping_location options =? 0)%Z
  then path_join plugin_dir (mapping_file_name options)
  else path_join
         (path_dirname (from_option GetFileName "" GetBoard))
         (mapping_file_name options).

Fixpoint is_excluded (fp : Footprint) (exclude_patterns : list string)
  : M bool :=
  match exclude_patterns with
  | [] => ret false
  | pattern :: rest =>
      let* found := search pattern (GetValue fp) in
      if found then
        when (3 <=? verbosity)%Z
          (log_activity ("Excluding " +:+ GetReference fp
                         +:+ " based on pattern: " +:+ pattern)) >>
        ret true
      else is_excluded fp rest
  end.

Fixpoint is_priority (fp : Footprint) (priority_patterns : list string)
  : M bool :=
  match priority_patterns with
  | [] => ret false
  | pattern :: rest =>
      let* found := search pattern (GetValue fp) in
      if found then
        when (3 <=? verbosity)%Z
          (log_activity ("Prioritizing " +:+ GetReference fp
                         +:+ " based on pattern: " +:+ pattern)) >>
        ret true
      else is_priority fp rest
  end.

Definition get_sort_key (fp : Footprint) : M string :=
  match PyStr.split_ws (GetValue fp) with
  | [] => raise IndexError
  | key :: _ =>
      when (3 <=? verbosity)%Z
        (log_activity ("Sort key for " +:+ GetReference fp
                       +:+ " is " +:+ key)) >>
      ret key
  end.

(** The body of the loop over the lines of the mapping file. *)
Definition load_line (t : tables) (line : string) : M tables :=
  let line := PyStr.strip line in
  if String.eqb line "" || PyStr.startswith "#" line then ret t
  else
    match PyStr.split "," line with
    | p0 :: p1 :: p2 :: _ =>
        let prefix := PyStr.strip p0 in
        let param1 := PyStr.strip p1 in
        let param2 := PyStr.strip p2 in
        if String.eqb prefix "E" then
          when (1 <=? verbosity)%Z
            (log_activity ("Exclusion patterns loaded: " +:+ param2)) >>
          ret (Tables (component_mapping t)
                       (exclude_patterns t ++ PyStr.split ":" param2)
                       (priority_patterns t))
        else if String.eqb prefix "P" then
          when (1 <=? verbosity)%Z
            (log_activity ("Priority patterns loaded: " +:+ param2)) >>
          ret (Tables (component_mapping t)
                       (exclude_patterns t)
                       (priority_patterns t ++ PyStr.split ":" param2))
        else
          let* m :=
            foldM
                (fun (m : mapping) component =>
                   when (1 <=? verbosity)%Z
                     (log_activity
                        ("Component mapping loaded for: "
                         +:+ PyStr.strip component +:+ " as " +:+ prefix
                         +:+ " in " +:+ PyStr.strip param1)) >>
                   ret (PyDict.set (PyStr.strip component)
                                    (prefix, PyStr.strip param1) m))
                (component_mapping t) (PyStr.split ":" param2) in
          ret (Tables m (exclude_patterns t) (priority_patterns t))
    | _ => ret t
    end.

Definition load_component_mapping (filename : string) : M tables :=
  let* present := path_exists filename in
  when (negb present)
    (create_default_mapping_file filename >>
     log_activity ("Default mapping file created at: " +:+ filename)) >>
  let* content := read_text filename in
  let* t := foldM load_line (Tables [] [] []) (PyStr.readlines content) in
  when (1 <=? verbosity)%Z
    (log_activity ("Final mapping content: "
                   +:+ PyRepr.repr_mapping (component_mapping t))) >>
  ret t.

(** [fp.GetAttributes() & (FP_EXCLUDE_FROM_POS_FILES | FP_EXCLUDE_FROM_BOM)]
    as a truth value. *)
Definition attribute_excluded (fp : Footprint) : bool :=
  negb (Z.land (GetAttributes fp)
               (Z.lor FP_EXCLUDE_FROM_POS_FILES FP_EXCLUDE_FROM_BOM) =? 0)%Z.

Definition debug_info (fp : Footprint) : string :=
  "Processing " +:+ GetReference fp +:+ ": Layer="
  +:+ PyStr.of_Z (GetLayer fp) +:+ ", Value='" +:+ GetValue fp +:+ "'".

(** The body of the loop that classifies the footprints of the layer. *)
Definition classify_step (component_mapping : mapping)
    (exclude_patterns priority_patterns : list string)
    (g : groups) (fp : Footprint) : M groups :=
  if attribute_excluded fp then
    when (2 <=? verbosity)%Z
      (log_activity (debug_info fp +:+ " - Excluded by attribute")) >>
    ret (Groups (priority_footprints g) (mapped_footprints g)
                 (unmapped_footprints g) (excluded_by_pattern g)
                 (excluded_by_attribute g ++ [fp]))
  else
    let* excluded := is_excluded fp exclude_patterns in
    if excluded then
      when (2 <=? verbosity)%Z
        (log_activity (debug_info fp +:+ " - Excluded by pattern")) >>
      ret (Groups (priority_footprints g) (mapped_footprints g)
                   (unmapped_footprints g) (excluded_by_pattern g ++ [fp])
                   (excluded_by_attribute g))
    else
      let* priority := is_priority fp priority_patterns in
      if priority then
        when (2 <=? verbosity)%Z
          (log_activity (debug_info fp +:+ " - Priority")) >>
        ret (Groups (priority_footprints g ++ [fp]) (mapped_footprints g)
                     (unmapped_footprints g) (excluded_by_pattern g)
                     (excluded_by_attribute g))
      else
        match PyDict.get (GetValue fp) component_mapping with
        | Some (nozzle_num, feeder_location) =>
            when (2 <=? verbosity)%Z
              (log_activity (debug_info fp +:+ " - Mapped N:" +:+ nozzle_num
                             +:+ ", F:" +:+ feeder_location)) >>
            ret (Groups (priority_footprints g) (mapped_footprints g ++ [fp])
                         (unmapped_footprints g) (excluded_by_pattern g)
                         (excluded_by_attribute g))
        | None =>
            when (2 <=? verbosity)%Z
              (log_activity (debug_info fp +:+ " - Unmapped")) >>
            ret (Groups (priority_footprints g) (mapped_footprints g)
                         (unmapped_footprints g ++ [fp]) (excluded_by_pattern g)
                         (excluded_by_attribute g))
        end.

(** The loop over the footprints of the layer, from five empty lists. *)
Definition classify_footprints (component_mapping : mapping)
    (exclude_patterns priority_patterns : list string)
    (filtered_footprints : list Footprint) : M groups :=
  foldM (classify_step component_mapping exclude_patterns priority_patterns)
        (Groups [] [] [] [] []) filtered_footprints.

(** The row written for a footprint.  [mod in priority_footprints] is
    membership up to the equality of footprints, taken as the equality
    of what the accessors return. *)
Definition qihe_row (component_mapping : mapping)
    (priority_footprints : list Footprint) (X_Offset Y_Offset : float)
    (fp : Footprint) : list string :=
  let mid_x := add (div (of_Z (GetPosition fp).1) (of_Z 1000000)) X_Offset in
  let mid_y := add (div (of_Z (GetPosition fp).2) (of_Z 1000000)) Y_Offset in
  let rotation := rem (add (GetOrientationDegrees fp) (of_Z 270)) (of_Z 360) in
  let value := GetValue fp in
  let '(nozzle_num, stack_num) :=
    PyDict.get_default value ("1/2", "None") component_mapping in
  let explanation := value +:+ " " +:+ GetReference fp in
  let explanation :=
    if bool_decide (fp ∈ priority_footprints)
    then "PRIO " +:+ explanation else explanation in
  [ GetReference fp; nozzle_num; stack_num;
    format_2f mid_x; format_2f mid_y; format_2f rotation;
    "0.00"; "100"; "None"; "True"; explanation ].

(** [group.sort(key=self.get_sort_key)]: the keys of all elements are
    taken first, in list order, then the list is sorted on them. *)
Definition sort_group (group : list Footprint) : M (list Footprint) :=
  let* ks := mapM get_sort_key group in
  ret (sort_by_key (zip ks group)).*2.

Definition write_rows (filename : string) (component_mapping : mapping)
    (priority_footprints : list Footprint) (X_Offset Y_Offset : float)
    (group : list Footprint) : M unit :=
  forM_ group
    (fun fp =>
       writerow filename
         (qihe_row component_mapping priority_footprints X_Offset Y_Offset fp)).

(** The body of [write_qihe_file] inside its [try]. *)
Definition write_qihe_body (filename : string) (footprints : list Footprint)
    (layer : Z) (X_Offset Y_Offset : float) (component_mapping : mapping)
    (exclude_patterns priority_patterns : list string) : M unit :=
  write_text filename "" >>
  writerow filename header >>
  let filtered_footprints :=
    filter (fun fp => GetLayer fp = layer) footprints in
  let* g :=
    classify_footprints component_mapping exclude_patterns priority_patterns
      filtered_footprints in
  let* priority := sort_group (priority_footprints g) in
  write_rows filename component_mapping priority X_Offset Y_Offset priority >>
  let* mapped := sort_group (mapped_footprints g) in
  write_rows filename component_mapping priority X_Offset Y_Offset mapped >>
  let* unmapped := sort_group (unmapped_footprints g) in
  write_rows filename component_mapping priority X_Offset Y_Offset unmapped >>
  let layer_name :=
    if (layer =? F_Cu)%Z then "Top layer" else "Bottom layer" in
  log_activity (PyStr.nl +:+ "###########################") >>
  log_activity (layer_name +:+ ":") >>
  log_activity ("- Total components: "
                +:+ PyStr.of_nat (length filtered_footprints)) >>
  log_activity ("- Mapped components: " +:+ PyStr.of_nat (length mapped)) >>
  log_activity ("- Priority components: " +:+ PyStr.of_nat (length priority)) >>
  log_activity ("- Excluded (pattern/attribute): "
                +:+ PyStr.of_nat (length (excluded_by_pattern g)) +:+ " / "
                +:+ PyStr.of_nat (length (excluded_by_attribute g))) >>
  log_activity ("- Unmapped components: " +:+ PyStr.of_nat (length unmapped)) >>
  forM_ trailer (writerow filename) >>
  log_activity ("Successfully written to file: " +:+ filename).

Definition write_qihe_file (filename : string) (footprints : list Footprint)
    (layer : Z) (X_Offset Y_Offset : float) (component_mapping : mapping)
    (exclude_patterns priority_patterns : list string) : M unit :=
  try_except
    (write_qihe_body filename footprints layer X_Offset Y_Offset
       component_mapping exclude_patterns priority_patterns)
    (fun e =>
       log_activity ("Error writing to file " +:+ filename +:+ ": "
                     +:+ str_exn e)).

(** [generate_qihe_files], for the tables [run] stored in [self]. *)
Definition generate_qihe_files (board : Board) (self_tables : tables)
  : M unit :=
  let board_file_path := GetFileName board in
  let board_base_name := (path_splitext (path_basename board_file_path)).1 in
  let board_dir := path_dirname board_file_path in
  let output_file_top :=
    path_join board_dir
      (board_base_name +:+ "_" +:+ top_fileext options +:+ ".csv") in
  let output_file_bottom :=
    path_join board_dir
      (board_base_name +:+ "_" +:+ bottom_fileext options +:+ ".csv") in
  log_activity ("Generating QIHE files:" +:+ PyStr.nl +:+ " ") >>
  let X_Offset := of_Z 0 in
  let Y_Offset := of_Z 0 in
  let* _ := load_component_mapping get_mapping_file_path in
  if negb (process_top_layer options) && negb (process_bottom_layer options)
  then log_activity "No layer(s) selected."
  else
    when (process_top_layer options)
      (write_qihe_file output_file_top (GetFootprints board) F_Cu
         X_Offset Y_Offset (component_mapping self_tables)
         (exclude_patterns self_tables) (priority_patterns self_tables) >>
       log_activity "Processed top layer.") >>
    when (process_bottom_layer options)
      (write_qihe_file output_file_bottom (GetFootprints board) B_Cu
         X_Offset Y_Offset (component_mapping self_tables)
         (exclude_patterns self_tables) (priority_patterns self_tables) >>
       log_activity "Processed bottom layer.").

(** [run], up to its handler: the computations of its body raise
    nothing outside [write_qihe_file], which handles its own. *)
Definition run : M unit :=
  log_activity "Starting QiHeProcess run method" >>
  match GetBoard with
  | None =>
      log_activity
        "No active board found. Please ensure a board is loaded in KiCad."
  | Some board =>
      log_activity "Board loaded successfully." >>
      let component_mapping_file := get_mapping_file_path in
      log_activity ("Using component mapping file at: "
                    +:+ component_mapping_file) >>
      let* t := load_component_mapping component_mapping_file in
      generate_qihe_files board t
  end.

End QiHeProcess.

(* ===================================================================== *)
(** * A concrete host *)
(* ===================================================================== *)

(** [re.search] with [re.IGNORECASE] on the patterns that are plain text:
    ASCII characters none of which is special in a regular expression.
    Such a pattern matches where it occurs in the value, up to the case
    of letters.  Any other pattern lies outside this host, which answers
    it with an error. *)
Module LiteralRe.

Definition special (c : ascii) : bool :=
  existsb (Ascii.eqb c) (PyStr.chars ".^$*+?{}[]\|()").

Definition plain (c : ascii) : bool :=
  (N_of_ascii c <? 128)%N && negb (special c).

Definition lower (c : ascii) : ascii :=
  let n := N_of_ascii c in
  if ((65 <=? n) && (n <=? 90))%N then ascii_of_N (n + 32) else c.

Fixpoint prefix_ci (p s : string) : bool :=
  match p, s with
  | EmptyString, _ => true
  | String _ _, EmptyString => false
  | String a p', String b s' => Ascii.eqb (lower a) (lower b) && prefix_ci p' s'
  end.

Fixpoint find_ci (p s : string) : bool :=
  prefix_ci p s
  || match s with
     | EmptyString => false
     | String _ s' => find_ci p s'
     end.

Definition search (pattern value : string) : string + bool :=
  if forallb plain (PyStr.chars pattern)
  then inr (find_ci pattern value)
  else inl ("pattern outside the plain-text fragment: " +:+ pattern).

End LiteralRe.

(** [posixpath]: [join], [dirname], [basename] and [splitext]. *)
Module PosixPath.

Definition SLASH : ascii := "/"%char.
Definition DOT : ascii := "."%char.

Definition has (c : ascii) (s : string) : bool :=
  existsb (Ascii.eqb c) (PyStr.chars s).

Fixpoint ends_with (c : ascii) (s : string) : bool :=
  match s with
  | EmptyString => false
  | String c' EmptyString => Ascii.eqb c' c
  | String _ s' => ends_with c s'
  end.

Definition join (a b : string) : string :=
  if PyStr.startswith SLASH b then b
  else if String.eqb a "" || ends_with SLASH a then a +:+ b
  else a +:+ "/" +:+ b.

(** The part up to and including the last [c], and the part after it. *)
Fixpoint head (c : ascii) (s : string) : string :=
  match s with
  | EmptyString => EmptyString
  | String c' s' =>
      if has c s' then String c' (head c s')
      else if Ascii.eqb c' c then String c' EmptyString else EmptyString
  end.

Fixpoint tail (c : ascii) (s : string) : string :=
  match s with
  | EmptyString => EmptyString
  | String c' s' =>
      if has c s' then tail c s'
      else if Ascii.eqb c' c then s' else s
  end.

Fixpoint rstrip_char (c : ascii) (s : string) : string :=
  match s with
  | EmptyString => EmptyString
  | String c' s' =>
      match rstrip_char c s' with
      | EmptyString => if Ascii.eqb c' c then EmptyString else String c' EmptyString
      | r => String c' r
      end
  end.

Definition basename (p : string) : string := tail SLASH p.

Definition dirname (p : string) : string :=
  let h := head SLASH p in
  if forallb (Ascii.eqb SLASH) (PyStr.chars h) then h else rstrip_char SLASH h.

Definition splitext (p : string) : string * string :=
  let name := basename p in
  if has DOT name then
    let stem := rstrip_char DOT (head DOT name) in
    if String.eqb stem "" then (p, "")
    else let root := head SLASH p +:+ String.substring 0 (String.length (head DOT name) - 1) (head DOT name) in
         (root, String DOT (tail DOT name))
  else (p, "").

End PosixPath.

(** KiCad's values of the pcbnew constants (up to version 8), the text
    fragment of [re] and the paths of a POSIX system. *)
Definition literal_host (board : option Board) : Host := {|
  re_search := LiteralRe.search;
  FP_EXCLUDE_FROM_POS_FILES := 4;
  FP_EXCLUDE_FROM_BOM := 8;
  F_Cu := 0;
  B_Cu := 31;
  GetBoard := board;
  plugin_dir := "/usr/share/kicad/plugins/qihe";
  path_join := PosixPath.join;
  path_dirname := PosixPath.dirname;
  path_basename := PosixPath.basename;
  path_splitext := PosixPath.splitext
|}.

(* ===================================================================== *)
(** * Notions used to state the properties *)
(* ===================================================================== *)

(** The world after more messages were logged. *)
Definition add_log (msgs : list string) (w : world) : world :=
  World (files w) (activity_log w ++ msgs).

(** [s] ends with [suffix]. *)
Definition ends_with (suffix s : string) : Prop :=
  exists pre, s = pre +:+ suffix.

(** The sort key as a function of the footprint: the first token of its
    value (the empty string when there is none). *)
Definition sort_key (fp : Footprint) : string :=
  hd "" (PyStr.split_ws (GetValue fp)).

(** A list is in the order of a key. *)
Definition sorted_on {A} (key : A -> string) (l : list A) : Prop :=
  StronglySorted (fun a b => String.le (key a) (key b)) l.

(** [l'] keeps the elements of equal key in the order they have in [l]. *)
Definition stable_on {A} (key : A -> string) (l l' : list A) : Prop :=
  forall k, filter (fun a => key a = k) l' = filter (fun a => key a = k) l.

(** A list sorted on a key of its elements. *)
Definition sort_on {A} (key : A -> string) (l : list A) : list A :=
  (sort_by_key (map (fun a => (key a, a)) l)).*2.

(** The footprints that are not excluded. *)
Definition survivors (g : groups) : list Footprint :=
  priority_footprints g ++ mapped_footprints g ++ unmapped_footprints g.

(** The entries a line of the mapping file assigns to the table, in
    order: none for a comment, an empty line, a line of fewer than three
    fields, an E line or a P line. *)
Definition mapping_entries (line : string) : list (string * (string * string)) :=
  let line := PyStr.strip line in
  if String.eqb line "" || PyStr.startswith "#" line then []
  else
    match PyStr.split "," line with
    | p0 :: p1 :: p2 :: _ =>
        let prefix := PyStr.strip p0 in
        if String.eqb prefix "E" || String.eqb prefix "P" then []
        else map (fun component => (PyStr.strip component, (prefix, PyStr.strip p1)))
                 (PyStr.split ":" (PyStr.strip p2))
    | _ => []
    end.

Section Classification.

Context `{Host}.

(** The first pattern, in list order, that is found in the value:
    patterns after it are not consulted; an error met before a match
    is the result. *)
Fixpoint first_match (patterns : list string) (value : string)
  : string + option string :=
  match patterns with
  | [] => inr None
  | pattern :: rest =>
      match re_search pattern value with
      | inl msg => inl msg
      | inr true => inr (Some pattern)
      | inr false => first_match rest value
      end
  end.

(** The five outcomes of the classifier. *)
Inductive category : Type :=
| ExcludedByAttribute
| ExcludedByPattern
| Priority
| Mapped
| Unmapped.

(** The classifier as the specification words it: five checks in a
    fixed order, the first that applies decides. *)
Definition category_of (component_mapping : mapping)
    (exclude_patterns priority_patterns : list string) (fp : Footprint)
  : string + category :=
  if attribute_excluded fp then inr ExcludedByAttribute
  else
    match first_match exclude_patterns (GetValue fp) with
    | inl msg => inl msg
    | inr (Some _) => inr ExcludedByPattern
    | inr None =>
        match first_match priority_patterns (GetValue fp) with
        | inl msg => inl msg
        | inr (Some _) => inr Priority
        | inr None =>
            if PyDict.contains (GetValue fp) component_mapping
            then inr Mapped else inr Unmapped
        end
    end.

Global Instance category_eq_dec : EqDecision category.
Proof. solve_decision. Defined.

(** The footprints of [l] that fall in category [c], in the order of [l]. *)
Definition in_category (component_mapping : mapping)
    (exclude_patterns priority_patterns : list string)
    (c : category) (l : list Footprint) : list Footprint :=
  filter (fun fp =>
            category_of component_mapping exclude_patterns priority_patterns fp
            = inr c) l.

End Classification.

(* ===================================================================== *)
(** * Outcomes without the messages *)
(* ===================================================================== *)

(** The answer of [is_excluded] and [is_priority] for a first match. *)
Definition matched (r : string + option string) : exn + bool :=
  match r with
  | inl msg => inl (re_error msg)
  | inr None => inr false
  | inr (Some _) => inr true
  end.

(** The world after the file at [path] was given the content [s]. *)
Definition set_file (path s : string) (w : world) : world :=
  World (<[path := s]> (files w)) (activity_log w).

(** A computation that touches the log only and whose outcome is [r] in
    every world. *)
Definition only_logs {A} (c : M A) (r : exn + A) : Prop :=
  forall w, exists msgs, c w = (r, add_log msgs w).

(** The footprint has no sort key. *)
Definition keyless (fp : Footprint) : bool := PyStr.blank (GetValue fp).

Section Outcome.

Context `{Host}.

(** The lists after a footprint of category [c] was classified. *)
Definition place (c : category) (fp : Footprint) (g : groups) : groups :=
  match c with
  | ExcludedByAttribute =>
      Groups (priority_footprints g) (mapped_footprints g)
             (unmapped_footprints g) (excluded_by_pattern g)
             (excluded_by_attribute g ++ [fp])
  | ExcludedByPattern =>
      Groups (priority_footprints g) (mapped_footprints g)
             (unmapped_footprints g) (excluded_by_pattern g ++ [fp])
             (excluded_by_attribute g)
  | Priority =>
      Groups (priority_footprints g ++ [fp]) (mapped_footprints g)
             (unmapped_footprints g) (excluded_by_pattern g)
             (excluded_by_attribute g)
  | Mapped =>
      Groups (priority_footprints g) (mapped_footprints g ++ [fp])
             (unmapped_footprints g) (excluded_by_pattern g)
             (excluded_by_attribute g)
  | Unmapped =>
      Groups (priority_footprints g) (mapped_footprints g)
             (unmapped_footprints g ++ [fp]) (excluded_by_pattern g)
             (excluded_by_attribute g)
  end.

(** The outcome of the classification loop, without its messages. *)
Fixpoint classified (component_mapping : mapping)
    (exclude_patterns priority_patterns : list string)
    (g : groups) (l : list Footprint) : exn + groups :=
  match l with
  | [] => inr g
  | fp :: l' =>
      match category_of component_mapping exclude_patterns priority_patterns fp with
      | inl msg => inl (re_error msg)
      | inr c =>
          classified component_mapping exclude_patterns priority_patterns
            (place c fp g) l'
      end
  end.

(** The outcome of the body of [write_qihe_file] and the rows it has
    written when it ends, for the footprints of the layer. *)
Definition exported (component_mapping : mapping)
    (exclude_patterns priority_patterns : list string)
    (X_Offset Y_Offset : float) (filtered_footprints : list Footprint)
  : (exn + unit) * list (list string) :=
  match classified component_mapping exclude_patterns priority_patterns
          (Groups [] [] [] [] []) filtered_footprints with
  | inl e => (inl e, [header])
  | inr g =>
      if existsb keyless (priority_footprints g) then (inl IndexError, [header])
      else
        let priority := sort_on sort_key (priority_footprints g) in
        let rows := map (qihe_row component_mapping priority X_Offset Y_Offset) in
        if existsb keyless (mapped_footprints g)
        then (inl IndexError, header :: rows priority)
        else
          let mapped := sort_on sort_key (mapped_footprints g) in
          if existsb keyless (unmapped_footprints g)
          then (inl IndexError, header :: rows priority ++ rows mapped)
          else
            let unmapped := sort_on sort_key (unmapped_footprints g) in
            (inr tt,
             header :: rows priority ++ rows mapped ++ rows unmapped ++ trailer)
  end.

End Outcome.

(** The table after a list of entries was assigned to it, in order. *)
Definition assign (entries : list (string * (string * string))) (d : mapping)
  : mapping :=
  fold_left (fun d e => PyDict.set e.1 e.2 d) entries d.

(** The tables after a line of the mapping file, without the messages. *)
Definition parsed_line (t : tables) (line : string) : tables :=
  let s := PyStr.strip line in
  if String.eqb s "" || PyStr.startswith "#" s then t
  else
    match PyStr.split "," s with
    | p0 :: p1 :: p2 :: _ =>
        let prefix := PyStr.strip p0 in
        let param2 := PyStr.strip p2 in
        if String.eqb prefix "E" then
          Tables (component_mapping t)
                 (exclude_patterns t ++ PyStr.split ":" param2)
                 (priority_patterns t)
        else if String.eqb prefix "P" then
          Tables (component_mapping t)
                 (exclude_patterns t)
                 (priority_patterns t ++ PyStr.split ":" param2)
        else
          Tables (assign (mapping_entries line) (component_mapping t))
                 (exclude_patterns t) (priority_patterns t)
    | _ => t
    end.

(** The tables read from the text of a mapping file. *)
Definition parsed (content : string) : tables :=
  fold_left parsed_line (PyStr.readlines content) (Tables [] [] []).

(** [s] ends with [suffix], as a test. *)
Fixpoint ends_withb (suffix s : string) : bool :=
  String.eqb s suffix
  || match s with
     | EmptyString => false
     | String _ s' => ends_withb suffix s'
     end.

(** A board and a mapping file to run the exporter on. *)
Module Sample.

Definition options (verbosity : Z) : Options := {|
  mapping_location := 1;
  process_top_layer := true;
  process_bottom_layer := true;
  verbosity_level := verbosity;
  mapping_file_name := "component_mapping.txt";
  top_fileext := "TOP-COORDS";
  bottom_fileext := "BOTTOM-COORDS"
|}.

Definition footprint (reference value : string) (x y degrees layer attributes : Z)
  : Footprint := {|
  GetReference := reference;
  GetValue := value;
  GetPosition := (x, y);
  GetOrientationDegrees := of_Z degrees;
  GetLayer := layer;
  GetAttributes := attributes
|}.

Definition C1 := footprint "C1" "100nF" 12345678 (-2500000) 90 0 2.
Definition R1 := footprint "R1" "10k 1%" 1000000 2000000 0 0 2.
Definition R2 := footprint "R2" "10k 0603" 3000000 2000000 180 0 2.
Definition R3 := footprint "R3" "4k7" 5000000 2000000 45 0 2.
Definition TP1 := footprint "TP1" "TP" 7000000 7000000 0 0 2.
Definition FID1 := footprint "FID1" "Fiducial" 0 0 0 0 2.
Definition X1 := footprint "X1" "100nF" 9000000 9000000 0 0 10.
Definition B1 := footprint "B1" "100nF" 1000000 1000000 270 31 2.
(** A footprint whose value was left empty. *)
Definition U1 := footprint "U1" "" 4000000 4000000 0 0 2.

Definition board : Board := {|
  GetFileName := "/home/user/project/board.kicad_pcb";
  GetFootprints := [C1; R1; R2; R3; TP1; FID1; X1; B1]
|}.

Definition mapping_text : string :=
  "# feeders" +:+ PyStr.nl
  +:+ "1, L1, 0n1:100nF" +:+ PyStr.nl
  +:+ "E, , NC:TP" +:+ PyStr.nl
  +:+ "P, , FIDUCIAL:TESTPOINT" +:+ PyStr.nl
  +:+ "2, B3, 100nF : 4k7" +:+ PyStr.nl.

Definition table : mapping :=
  [("0n1", ("1", "L1")); ("100nF", ("2", "B3")); ("4k7", ("2", "B3"))].

Definition empty_world : world := World ∅ [].

Definition host : Host := literal_host (Some board).

(** The five lists for the top layer of the board. *)
Definition top_groups : groups :=
  Groups [FID1] [C1; R3] [R1; R2] [TP1] [X1].

End Sample.

(* ===================================================================== *)
(** * The dialog of main.py *)
(* ===================================================================== *)

(** [get_verbosity_level] of the dialog: the position of the first
    radio button that is selected, 0 when none is.  The buttons are
    given by what their [GetValue()] returns, in the order of
    [self.verbosityRadioButtons]. *)
Fixpoint first_selected (i : Z) (buttons : list bool) : option Z :=
  match buttons with
  | [] => None
  | button :: rest => if button then Some i else first_selected (i + 1) rest
  end.

Definition get_verbosity_level (verbosityRadioButtons : list bool) : Z :=
  default 0%Z (first_selected 0 verbosityRadioButtons).

(* ===================================================================== *)
(** * Notions for the loader, the rows and the run as a whole *)
(* ===================================================================== *)

(** The patterns a line of the mapping file appends to the list of
    its tag ("E" or "P"): none for a comment, an empty line, a line of
    fewer than three fields or a line of another tag. *)
Definition pattern_values (tag line : string) : list string :=
  let s := PyStr.strip line in
  if String.eqb s "" || PyStr.startswith "#" s then []
  else
    match PyStr.split "," s with
    | p0 :: p1 :: p2 :: _ =>
        if String.eqb (PyStr.strip p0) tag
        then PyStr.split ":" (PyStr.strip p2) else []
    | _ => []
    end.

(** The loader passes over the line: it is empty, a comment, or has
    fewer than three comma-separated fields. *)
Definition skipped (line : string) : bool :=
  let s := PyStr.strip line in
  String.eqb s "" || PyStr.startswith "#" s
  || (length (PyStr.split "," s) <? 3)%nat.

(** A coordinate of [n] hundredths of a millimetre, as a decimal with
    two places. *)
Definition hundredths (n : Z) : string :=
  minus (n <? 0)%Z +:+ fixed2 (Z.abs n).

(** The first character of [s] passes the test [p]. *)
Definition first_char (p : ascii -> bool) (s : string) : bool :=
  match s with
  | EmptyString => false
  | String c _ => p c
  end.

Definition ascii_upper (c : ascii) : bool :=
  (65 <=? N_of_ascii c)%N && (N_of_ascii c <=? 90)%N.

Definition ascii_lower (c : ascii) : bool :=
  (97 <=? N_of_ascii c)%N && (N_of_ascii c <=? 122)%N.

(** The options with another verbosity level. *)
Definition set_verbosity_level (v : Z) (o : Options) : Options := {|
  mapping_location := mapping_location o;
  process_top_layer := process_top_layer o;
  process_bottom_layer := process_bottom_layer o;
  verbosity_level := v;
  mapping_file_name := mapping_file_name o;
  top_fileext := top_fileext o;
  bottom_fileext := bottom_fileext o
|}.

Section Files.

Context `{Host}.

(** The path [generate_qihe_files] gives the file of a layer. *)
Definition output_file (board : Board) (fileext : string) : string :=
  path_join (path_dirname (GetFileName board))
    ((path_splitext (path_basename (GetFileName board))).1
     +:+ "_" +:+ fileext +:+ ".csv").

(** The files after the mapping file was loaded. *)
Definition loaded_files (path : string) (fs : gmap string string)
  : gmap string string :=
  match fs !! path with
  | Some _ => fs
  | None => <[path := default_content]> fs
  end.

(** The tables loaded from the mapping file. *)
Definition loaded_tables (path : string) (fs : gmap string string) : tables :=
  parsed (default default_content (fs !! path)).

(** The text written for a layer. *)
Definition exported_text (t : tables) (footprints : list Footprint)
    (layer : Z) : string :=
  Csv.text (exported (component_mapping t) (exclude_patterns t)
              (priority_patterns t) (of_Z 0) (of_Z 0)
              (filter (fun fp => GetLayer fp = layer) footprints)).2.

(** The files after [generate_qihe_files]. *)
Definition generated_files (options : Options) (board : Board) (t : tables)
    (fs : gmap string string) : gmap string string :=
  let fs1 := loaded_files (get_mapping_file_path options) fs in
  let fs2 :=
    if process_top_layer options
    then <[output_file board (top_fileext options)
           := exported_text t (GetFootprints board) F_Cu]> fs1
    else fs1 in
  if process_bottom_layer options
  then <[output_file board (bottom_fileext options)
         := exported_text t (GetFootprints board) B_Cu]> fs2
  else fs2.

(** The files after [run]. *)
Definition run_files (options : Options) (fs : gmap string string)
  : gmap string string :=
  match GetBoard with
  | None => fs
  | Some board =>
      generated_files options board
        (loaded_tables (get_mapping_file_path options) fs) fs
  end.

End Files.

(** All footprints of the five lists. *)
Definition all_lists (g : groups) : list Footprint :=
  priority_footprints g ++ mapped_footprints g ++ unmapped_footprints g
  ++ excluded_by_pattern g ++ excluded_by_attribute g.

(** [re.search] accepts every pattern of the list on the value. *)
Definition accepted `{Host} (ps : list string) (v : string) : Prop :=
  Forall (fun q => exists b, re_search q v = inr b) ps.

(** The sample project on disk, and options for it. *)
Module Scenario.

Definition options_with (top bottom : bool) (top_suffix bottom_suffix : string)
  : Options := {|
  mapping_location := 1;
  process_top_layer := top;
  process_bottom_layer := bottom;
  verbosity_level := 0;
  mapping_file_name := "component_mapping.txt";
  top_fileext := top_suffix;
  bottom_fileext := bottom_suffix
|}.

Definition world : world :=
  World {[ "/home/user/project/component_mapping.txt" := Sample.mapping_text ]}
        [].

End Scenario.

(* ===================================================================== *)
(** * Strings *)
(* ===================================================================== *)

Section StringFacts.

Lemma append_cons (c : ascii) (s t : string) :
  String c s +:+ t = String c (s +:+ t).
Proof. reflexivity. Qed.

Lemma append_empty_l (s : string) : "" +:+ s = s.
Proof. reflexivity. Qed.

Lemma append_empty_r (s : string) : s +:+ "" = s.
Proof. induction s as [|c s IH]; [done | by rewrite append_cons, IH]. Qed.

Lemma append_assoc (a b c : string) : (a +:+ b) +:+ c = a +:+ b +:+ c.
Proof. induction a as [|x a IH]; [done | by rewrite !append_cons, IH]. Qed.

(** A value has no token exactly when it is blank. *)
Lemma split_ws_nil (s : string) :
  PyStr.split_ws s = [] <-> PyStr.blank s = true.
Proof.
  unfold PyStr.blank.
  induction s as [|c s IH]; simpl; [done|].
  destruct (PyStr.isspace c) eqn:Ec; simpl.
  - exact IH.
  - split; [|done]. destruct s as [|c' s']; [done|].
    destruct (PyStr.isspace c'); [done|].
    destruct (PyStr.split_ws (String c' s')); done.
Qed.

Lemma split_ws_blank (s : string) :
  PyStr.blank s = false -> exists k ks, PyStr.split_ws s = k :: ks.
Proof.
  intros Hb. destruct (PyStr.split_ws s) as [|k ks] eqn:E; [|eauto].
  apply split_ws_nil in E. congruence.
Qed.

Lemma text_app (r1 r2 : list (list string)) :
  Csv.text (r1 ++ r2) = Csv.text r1 +:+ Csv.text r2.
Proof.
  induction r1 as [|r r1 IH]; simpl; [done|].
  by rewrite IH, append_assoc.
Qed.

End StringFacts.

(* ===================================================================== *)
(** * The stable sort *)
(* ===================================================================== *)

Section Sorting.

Context {A : Type}.
Implicit Types (l : list (string * A)) (x : string * A).

Local Abbreviation key_le := (fun x y : string * A => String.le x.1 y.1).

Lemma leb_le (a b : string) : String.leb a b = true <-> String.le a b.
Proof. unfold String.le. by rewrite Is_true_true. Qed.

Lemma insert_by_key_perm x l : Permutation (insert_by_key x l) (x :: l).
Proof.
  induction l as [|y l IH]; simpl; [done|].
  destruct (String.leb x.1 y.1); [done|].
  rewrite IH. apply perm_swap.
Qed.

Lemma sort_by_key_perm l : Permutation (sort_by_key l) l.
Proof.
  induction l as [|x l IH]; simpl; [done|].
  rewrite insert_by_key_perm. by constructor.
Qed.

Lemma insert_by_key_sorted x l :
  StronglySorted key_le l -> StronglySorted key_le (insert_by_key x l).
Proof.
  induction 1 as [|y l Hs IH Hy]; simpl.
  - repeat constructor.
  - destruct (String.leb x.1 y.1) eqn:E.
    + apply leb_le in E. constructor; [by constructor|].
      constructor; [done|].
      eapply Forall_impl; [exact Hy|]. intros z Hz. simpl in *. by etrans.
    + constructor; [done|].
      rewrite insert_by_key_perm. constructor; [|done].
      simpl. destruct (total String.le x.1 y.1) as [Hle|Hle]; [|done].
      apply leb_le in Hle. congruence.
Qed.

Lemma sort_by_key_sorted l : StronglySorted key_le (sort_by_key l).
Proof.
  induction l as [|x l IH]; simpl; [constructor|].
  by apply insert_by_key_sorted.
Qed.

Lemma insert_by_key_stable x l (k : string) :
  filter (fun y => y.1 = k) (insert_by_key x l)
  = filter (fun y => y.1 = k) (x :: l).
Proof.
  induction l as [|y l IH]; simpl; [done|].
  destruct (String.leb x.1 y.1) eqn:E; [done|].
  rewrite !filter_cons in *. rewrite IH.
  destruct (decide (y.1 = k)) as [Hy|Hy], (decide (x.1 = k)) as [Hx|Hx]; try done.
  exfalso. assert (String.leb x.1 y.1 = true); [|congruence].
  apply leb_le. by rewrite Hx, Hy.
Qed.

Lemma sort_by_key_stable l (k : string) :
  filter (fun y => y.1 = k) (sort_by_key l) = filter (fun y => y.1 = k) l.
Proof.
  induction l as [|x l IH]; simpl; [done|].
  rewrite insert_by_key_stable, !filter_cons, IH. done.
Qed.

Variable key : A -> string.

Lemma sort_on_perm (l : list A) : Permutation (sort_on key l) l.
Proof.
  unfold sort_on. rewrite sort_by_key_perm.
  rewrite <- list_fmap_compose. simpl.
  by rewrite list_fmap_id.
Qed.

Lemma keyed_snd (l : list A) :
  Forall (fun x => x.1 = key x.2) (sort_by_key (map (fun a => (key a, a)) l)).
Proof.
  rewrite sort_by_key_perm. apply Forall_fmap, Forall_true. done.
Qed.

Lemma sort_on_sorted (l : list A) : sorted_on key (sort_on key l).
Proof.
  unfold sorted_on, sort_on.
  pose proof (keyed_snd l) as Hk.
  pose proof (sort_by_key_sorted (map (fun a => (key a, a)) l)) as Hs.
  induction Hs as [|x xs Hs IH Hx]; simpl; [constructor|].
  apply Forall_cons in Hk as [Hk1 Hk]. constructor; [by apply IH|].
  rewrite Forall_fmap. rewrite Forall_forall in Hk, Hx. apply Forall_forall.
  intros y Hy. simpl. rewrite <- Hk1, <- (Hk y Hy). by apply Hx.
Qed.

Lemma sort_on_stable (l : list A) : stable_on key l (sort_on key l).
Proof.
  intros k. unfold sort_on.
  pose proof (sort_by_key_stable (map (fun a => (key a, a)) l) k) as Hst.
  pose proof (keyed_snd l) as Hk.
  assert (forall m : list (string * A), Forall (fun x => x.1 = key x.2) m ->
            filter (fun a => key a = k) m.*2 = (filter (fun y => y.1 = k) m).*2) as Hf.
  { induction 1 as [|x m Hx _ IH]; [done|].
    rewrite fmap_cons, !filter_cons, IH. simpl. rewrite Hx.
    destruct (decide (key x.2 = k)); done. }
  rewrite Hf by done. rewrite Hst. rewrite <- Hf.
  - rewrite <- list_fmap_compose. simpl. by rewrite list_fmap_id.
  - apply Forall_fmap, Forall_true. done.
Qed.

(** Two lists in the order of the key that keep the elements of each
    key in the same order are equal: every stable sort of a list
    gives [sort_on key]. *)
Lemma sorted_stable_unique (l1 l2 : list A) :
  sorted_on key l1 -> sorted_on key l2 ->
  (forall k, filter (fun a => key a = k) l1 = filter (fun a => key a = k) l2) ->
  l1 = l2.
Proof.
  unfold sorted_on. intros Hs1. revert l2.
  induction Hs1 as [|a l1 Hs1 IH Ha]; intros l2 Hs2 Hf.
  - destruct l2 as [|b l2]; [done|].
    specialize (Hf (key b)). rewrite filter_cons in Hf.
    destruct (decide (key b = key b)); done.
  - destruct Hs2 as [|b l2 Hs2 Hb].
    { specialize (Hf (key a)). rewrite filter_cons in Hf.
      destruct (decide (key a = key a)); done. }
    assert (key a = key b) as Hk.
    { apply (anti_symm String.le).
      - assert (b ∈ a :: l1) as Hin.
        { pose proof (Hf (key b)) as Hfb.
          assert (b ∈ filter (fun c => key c = key b) (a :: l1)) as Hb'.
          { rewrite Hfb, filter_cons.
            destruct (decide (key b = key b)); [|done]. by left. }
          by apply list_elem_of_filter in Hb' as [_ ?]. }
        apply elem_of_cons in Hin as [->|Hin]; [done|].
        rewrite Forall_forall in Ha. by apply Ha.
      - assert (a ∈ b :: l2) as Hin.
        { pose proof (Hf (key a)) as Hfa.
          assert (a ∈ filter (fun c => key c = key a) (b :: l2)) as Ha'.
          { rewrite <- Hfa, filter_cons.
            destruct (decide (key a = key a)); [|done]. by left. }
          by apply list_elem_of_filter in Ha' as [_ ?]. }
        apply elem_of_cons in Hin as [->|Hin]; [done|].
        rewrite Forall_forall in Hb. by apply Hb. }
    assert (a = b) as ->.
    { pose proof (Hf (key a)) as Hfa. rewrite !filter_cons in Hfa.
      destruct (decide (key a = key a)); [|done].
      destruct (decide (key b = key a)); [|congruence].
      congruence. }
    f_equal. apply IH; [done|].
    intros k. specialize (Hf k). rewrite !filter_cons in Hf.
    destruct (decide (key b = k)); congruence.
Qed.

Lemma stable_sort_is_sort_on (l l' : list A) :
  sorted_on key l' -> stable_on key l l' -> l' = sort_on key l.
Proof.
  intros Hs Hst. apply sorted_stable_unique; [done|apply sort_on_sorted|].
  intros k. rewrite (Hst k). symmetry. apply sort_on_stable.
Qed.

End Sorting.

(* ===================================================================== *)
(** * Computations *)
(* ===================================================================== *)

Section Computations.

Lemma add_log_nil w : add_log [] w = w.
Proof. destruct w. unfold add_log. simpl. by rewrite app_nil_r. Qed.

Lemma add_log_app l1 l2 w : add_log l2 (add_log l1 w) = add_log (l1 ++ l2) w.
Proof. unfold add_log. simpl. by rewrite app_assoc. Qed.

Lemma bind_inr {A B} (c : M A) (k : A -> M B) w a w' :
  c w = (inr a, w') -> bind c k w = k a w'.
Proof. unfold bind. by intros ->. Qed.

Lemma bind_inl {A B} (c : M A) (k : A -> M B) w e w' :
  c w = (inl e, w') -> bind c k w = (inl e, w').
Proof. unfold bind. by intros ->. Qed.

Lemma log_activity_eq msg w : log_activity msg w = (inr tt, add_log [msg] w).
Proof. done. Qed.

Lemma only_logs_ret {A} (a : A) : only_logs (ret a) (inr a).
Proof. intros w. exists []. by rewrite add_log_nil. Qed.

Lemma only_logs_raise {A} e : only_logs (@raise A e) (inl e).
Proof. intros w. exists []. by rewrite add_log_nil. Qed.

Lemma only_logs_log msg : only_logs (log_activity msg) (inr tt).
Proof. intros w. by exists [msg]. Qed.

Lemma only_logs_when b c : only_logs c (inr tt) -> only_logs (when b c) (inr tt).
Proof. destruct b; [done|]. intros _. apply only_logs_ret. Qed.

Lemma only_logs_bind {A B} (c : M A) (k : A -> M B) a r :
  only_logs c (inr a) -> only_logs (k a) r -> only_logs (bind c k) r.
Proof.
  intros Hc Hk w. destruct (Hc w) as [m1 E1].
  destruct (Hk (add_log m1 w)) as [m2 E2].
  exists (m1 ++ m2). rewrite (bind_inr _ _ _ _ _ E1), E2. by rewrite add_log_app.
Qed.

Lemma only_logs_bind_inl {A B} (c : M A) (k : A -> M B) e :
  only_logs c (inl e) -> only_logs (bind c k) (inl e).
Proof.
  intros Hc w. destruct (Hc w) as [m1 E1].
  exists m1. by rewrite (bind_inl _ _ _ _ _ E1).
Qed.

(** The outcome of a computation that only logs is the same in every
    world. *)
Lemma only_logs_outcome {A} (c : M A) r w : only_logs c r -> (c w).1 = r.
Proof. intros Hc. destruct (Hc w) as [m ->]. done. Qed.

End Computations.

Section Classifier.

Context `{Host}.
Variable options : Options.

Lemma search_only_logs pattern value :
  only_logs (search pattern value)
    (match re_search pattern value with
     | inl msg => inl (re_error msg)
     | inr b => inr b
     end).
Proof.
  unfold search. destruct (re_search pattern value).
  - apply only_logs_raise.
  - apply only_logs_ret.
Qed.

Lemma is_excluded_only_logs fp ps :
  only_logs (is_excluded options fp ps) (matched (first_match ps (GetValue fp))).
Proof.
  induction ps as [|p ps IH]; simpl.
  - apply only_logs_ret.
  - pose proof (search_only_logs p (GetValue fp)) as Hs.
    destruct (re_search p (GetValue fp)) as [msg|[]]; simpl.
    + by apply only_logs_bind_inl.
    + eapply only_logs_bind; [exact Hs|]. simpl.
      eapply only_logs_bind; [|apply only_logs_ret].
      apply only_logs_when, only_logs_log.
    + eapply only_logs_bind; [exact Hs|]. exact IH.
Qed.

Lemma is_priority_only_logs fp ps :
  only_logs (is_priority options fp ps) (matched (first_match ps (GetValue fp))).
Proof.
  induction ps as [|p ps IH]; simpl.
  - apply only_logs_ret.
  - pose proof (search_only_logs p (GetValue fp)) as Hs.
    destruct (re_search p (GetValue fp)) as [msg|[]]; simpl.
    + by apply only_logs_bind_inl.
    + eapply only_logs_bind; [exact Hs|]. simpl.
      eapply only_logs_bind; [|apply only_logs_ret].
      apply only_logs_when, only_logs_log.
    + eapply only_logs_bind; [exact Hs|]. exact IH.
Qed.

Lemma classify_step_only_logs m ex pr g fp :
  only_logs (classify_step options m ex pr g fp)
    (match category_of m ex pr fp with
     | inl msg => inl (re_error msg)
     | inr c => inr (place c fp g)
     end).
Proof.
  unfold classify_step, category_of.
  destruct (attribute_excluded fp).
  { eapply only_logs_bind; [|apply only_logs_ret].
    apply only_logs_when, only_logs_log. }
  pose proof (is_excluded_only_logs fp ex) as He.
  destruct (first_match ex (GetValue fp)) as [msg|[p|]]; simpl in He.
  { by apply only_logs_bind_inl. }
  { eapply only_logs_bind; [exact He|]. simpl.
    eapply only_logs_bind; [|apply only_logs_ret].
    apply only_logs_when, only_logs_log. }
  eapply only_logs_bind; [exact He|]. simpl.
  pose proof (is_priority_only_logs fp pr) as Hp.
  destruct (first_match pr (GetValue fp)) as [msg|[p|]]; simpl in Hp.
  { by apply only_logs_bind_inl. }
  { eapply only_logs_bind; [exact Hp|]. simpl.
    eapply only_logs_bind; [|apply only_logs_ret].
    apply only_logs_when, only_logs_log. }
  eapply only_logs_bind; [exact Hp|]. simpl.
  unfold PyDict.contains.
  destruct (PyDict.get (GetValue fp) m) as [[n f]|].
  - eapply only_logs_bind; [|apply only_logs_ret].
    apply only_logs_when, only_logs_log.
  - eapply only_logs_bind; [|apply only_logs_ret].
    apply only_logs_when, only_logs_log.
Qed.

Lemma foldM_classify_only_logs m ex pr l g :
  only_logs (foldM (classify_step options m ex pr) g l) (classified m ex pr g l).
Proof.
  revert g. induction l as [|fp l IH]; intros g; simpl.
  - apply only_logs_ret.
  - pose proof (classify_step_only_logs m ex pr g fp) as Hs.
    destruct (category_of m ex pr fp) as [msg|c].
    + by apply only_logs_bind_inl.
    + eapply only_logs_bind; [exact Hs|]. apply IH.
Qed.

Lemma classify_footprints_only_logs m ex pr l :
  only_logs (classify_footprints options m ex pr l)
    (classified m ex pr (Groups [] [] [] [] []) l).
Proof. apply foldM_classify_only_logs. Qed.

(** The loop sorts the footprints into the five lists by category,
    each list in the order of the input. *)
Lemma classified_groups m ex pr l g0 g :
  classified m ex pr g0 l = inr g ->
  priority_footprints g = priority_footprints g0 ++ in_category m ex pr Priority l
  /\ mapped_footprints g = mapped_footprints g0 ++ in_category m ex pr Mapped l
  /\ unmapped_footprints g = unmapped_footprints g0 ++ in_category m ex pr Unmapped l
  /\ excluded_by_pattern g
     = excluded_by_pattern g0 ++ in_category m ex pr ExcludedByPattern l
  /\ excluded_by_attribute g
     = excluded_by_attribute g0 ++ in_category m ex pr ExcludedByAttribute l.
Proof.
  unfold in_category.
  revert g0. induction l as [|fp l IH]; intros g0; simpl.
  - intros [= <-]. by rewrite !app_nil_r.
  - destruct (category_of m ex pr fp) as [msg|c] eqn:Ec; [done|].
    intros Hg. apply IH in Hg. rewrite !filter_cons, Ec.
    destruct Hg as (-> & -> & -> & -> & ->).
    destruct c; simpl;
      repeat (destruct (decide _) as [?|?]; try congruence);
      by rewrite <- ?app_assoc.
Qed.

End Classifier.

Section Emitter.

Context `{Host}.
Variable options : Options.

Lemma get_sort_key_only_logs fp :
  only_logs (get_sort_key options fp)
    (if keyless fp then inl IndexError else inr (sort_key fp)).
Proof.
  unfold get_sort_key, keyless, sort_key.
  destruct (PyStr.split_ws (GetValue fp)) as [|k ks] eqn:E.
  - apply split_ws_nil in E as ->. apply only_logs_raise.
  - destruct (PyStr.blank (GetValue fp)) eqn:Eb.
    { apply split_ws_nil in Eb. congruence. }
    simpl. eapply only_logs_bind; [|apply only_logs_ret].
    apply only_logs_when, only_logs_log.
Qed.

Lemma mapM_get_sort_key_only_logs group :
  only_logs (mapM (get_sort_key options) group)
    (if existsb keyless group then inl IndexError
     else inr (map sort_key group)).
Proof.
  induction group as [|fp group IH]; simpl.
  - apply only_logs_ret.
  - pose proof (get_sort_key_only_logs fp) as Hk.
    destruct (keyless fp); simpl.
    + by apply only_logs_bind_inl.
    + eapply only_logs_bind; [exact Hk|].
      destruct (existsb keyless group).
      * by apply only_logs_bind_inl.
      * eapply only_logs_bind; [exact IH|]. apply only_logs_ret.
Qed.

Lemma zip_keys {A} (key : A -> string) (l : list A) :
  zip (map key l) l = map (fun a => (key a, a)) l.
Proof. induction l as [|a l IH]; simpl; [done | by rewrite IH]. Qed.

Lemma sort_group_only_logs group :
  only_logs (sort_group options group)
    (if existsb keyless group then inl IndexError
     else inr (sort_on sort_key group)).
Proof.
  unfold sort_group.
  pose proof (mapM_get_sort_key_only_logs group) as Hk.
  destruct (existsb keyless group).
  - by apply only_logs_bind_inl.
  - eapply only_logs_bind; [exact Hk|].
    rewrite zip_keys. apply only_logs_ret.
Qed.

End Emitter.

(** ** Writing to the output file *)

Section Writer.

Implicit Types (f c : string) (w : world).

Lemma set_file_add_log f c msgs w :
  set_file f c (add_log msgs w) = add_log msgs (set_file f c w).
Proof. done. Qed.

Lemma write_text_eq f c w : write_text f c w = (inr tt, set_file f c w).
Proof. done. Qed.

Lemma append_text_written f c s msgs w :
  append_text f s (add_log msgs (set_file f c w))
  = (inr tt, add_log msgs (set_file f (c +:+ s) w)).
Proof.
  unfold append_text, add_log, set_file. simpl.
  rewrite lookup_insert_eq, insert_insert_eq. done.
Qed.

Lemma writerow_written f c r msgs w :
  writerow f r (add_log msgs (set_file f c w))
  = (inr tt, add_log msgs (set_file f (c +:+ Csv.row r) w)).
Proof. apply append_text_written. Qed.

Lemma forM_writerow_written f c rows msgs w :
  forM_ rows (writerow f) (add_log msgs (set_file f c w))
  = (inr tt, add_log msgs (set_file f (c +:+ Csv.text rows) w)).
Proof.
  revert c. induction rows as [|r rows IH]; intros c; simpl.
  - by rewrite append_empty_r.
  - erewrite bind_inr by apply writerow_written.
    rewrite IH. by rewrite append_assoc.
Qed.

Lemma write_rows_written f m p X Y group c msgs w :
  write_rows f m p X Y group (add_log msgs (set_file f c w))
  = (inr tt,
     add_log msgs (set_file f (c +:+ Csv.text (map (qihe_row m p X Y) group)) w)).
Proof.
  unfold write_rows.
  revert c. induction group as [|fp group IH]; intros c; simpl.
  - by rewrite append_empty_r.
  - erewrite bind_inr by apply writerow_written.
    rewrite IH. by rewrite append_assoc.
Qed.

(** A computation that only logs, run after the file was written. *)
Lemma only_logs_written {A} (k : M A) r f c msgs w :
  only_logs k r ->
  exists msgs', k (add_log msgs (set_file f c w))
                = (r, add_log msgs' (set_file f c w)).
Proof.
  intros Hk. destruct (Hk (add_log msgs (set_file f c w))) as [m ->].
  exists (msgs ++ m). by rewrite add_log_app.
Qed.

End Writer.

Section ExportedFile.

Context `{Host}.
Variable options : Options.

(** The body of [write_qihe_file] ends with the outcome and the rows
    that [exported] gives; besides the output file it touches the log
    only. *)
Lemma write_qihe_body_exported f fps layer X Y m ex pr w :
  let r := exported m ex pr X Y (filter (fun fp => GetLayer fp = layer) fps) in
  exists msgs,
    write_qihe_body options f fps layer X Y m ex pr w
    = (r.1, add_log msgs (set_file f (Csv.text r.2) w)).
Proof.
  cbv zeta. unfold write_qihe_body, exported.
  set (l := filter _ fps).
  erewrite bind_inr by apply write_text_eq.
  rewrite <- (add_log_nil (set_file f "" w)).
  erewrite bind_inr by apply writerow_written.
  rewrite append_empty_l.
  replace (Csv.row header) with (Csv.text [header])
    by (simpl; by rewrite append_empty_r).
  generalize (@nil string) as msgs.
  intros msgs.
  destruct (only_logs_written _ _ f (Csv.text [header]) msgs w
              (classify_footprints_only_logs options m ex pr l)) as [m1 E1].
  destruct (classified m ex pr (Groups [] [] [] [] []) l) as [e|g].
  { exists m1. by rewrite (bind_inl _ _ _ _ _ E1). }
  rewrite (bind_inr _ _ _ _ _ E1). clear E1 msgs.
  (* priority *)
  destruct (only_logs_written _ _ f (Csv.text [header]) m1 w
              (sort_group_only_logs options (priority_footprints g))) as [m2 E2].
  destruct (existsb keyless (priority_footprints g)).
  { exists m2. by rewrite (bind_inl _ _ _ _ _ E2). }
  rewrite (bind_inr _ _ _ _ _ E2). clear E2 m1.
  set (P := sort_on sort_key (priority_footprints g)).
  erewrite bind_inr by apply write_rows_written.
  rewrite <- text_app.
  (* mapped *)
  destruct (only_logs_written _ _ f
              (Csv.text ([header] ++ map (qihe_row m P X Y) P)) m2 w
              (sort_group_only_logs options (mapped_footprints g))) as [m3 E3].
  destruct (existsb keyless (mapped_footprints g)).
  { exists m3. by rewrite (bind_inl _ _ _ _ _ E3). }
  rewrite (bind_inr _ _ _ _ _ E3). clear E3 m2.
  set (Mp := sort_on sort_key (mapped_footprints g)).
  erewrite bind_inr by apply write_rows_written.
  rewrite <- text_app.
  (* unmapped *)
  destruct (only_logs_written _ _ f
              (Csv.text (([header] ++ map (qihe_row m P X Y) P)
                         ++ map (qihe_row m P X Y) Mp)) m3 w
              (sort_group_only_logs options (unmapped_footprints g))) as [m4 E4].
  destruct (existsb keyless (unmapped_footprints g)).
  { exists m4. rewrite (bind_inl _ _ _ _ _ E4). by rewrite <- app_assoc. }
  rewrite (bind_inr _ _ _ _ _ E4). clear E4 m3.
  set (U := sort_on sort_key (unmapped_footprints g)).
  erewrite bind_inr by apply write_rows_written.
  rewrite <- text_app.
  do 7 (erewrite bind_inr by apply log_activity_eq; rewrite add_log_app).
  erewrite bind_inr by apply forM_writerow_written.
  rewrite <- text_app.
  rewrite log_activity_eq, add_log_app.
  eexists. cbn [fst snd]. by rewrite <- !app_assoc.
Qed.

(** [write_qihe_file] returns normally; after an exception its last
    message is the error message. *)
Lemma write_qihe_file_exported f fps layer X Y m ex pr w :
  let r := exported m ex pr X Y (filter (fun fp => GetLayer fp = layer) fps) in
  exists msgs,
    write_qihe_file options f fps layer X Y m ex pr w
    = (inr tt,
       add_log (msgs ++ match r.1 with
                        | inl e => ["Error writing to file " +:+ f +:+ ": "
                                    +:+ str_exn e]
                        | inr _ => []
                        end)
               (set_file f (Csv.text r.2) w)).
Proof.
  cbv zeta. unfold write_qihe_file, try_except.
  destruct (write_qihe_body_exported f fps layer X Y m ex pr w) as [msgs ->].
  exists msgs. cbn [fst snd].
  destruct (exported _ _ _ _ _ _).1 as [e|[]].
  - by rewrite log_activity_eq, add_log_app.
  - by rewrite app_nil_r.
Qed.

End ExportedFile.

Section Strip.

Lemma lstrip_idem s : PyStr.lstrip (PyStr.lstrip s) = PyStr.lstrip s.
Proof.
  induction s as [|c s IH]; simpl; [done|].
  destruct (PyStr.isspace c) eqn:E; [done|]. simpl. by rewrite E.
Qed.

Lemma rstrip_idem s : PyStr.rstrip (PyStr.rstrip s) = PyStr.rstrip s.
Proof.
  induction s as [|c s IH]; simpl; [done|].
  destruct (PyStr.rstrip s) as [|c' r] eqn:Er.
  - destruct (PyStr.isspace c) eqn:E; simpl; [done | by rewrite E].
  - simpl in *. by rewrite IH.
Qed.

Lemma rstrip_lstrip s :
  PyStr.rstrip (PyStr.lstrip s) = PyStr.lstrip (PyStr.rstrip s).
Proof.
  induction s as [|c s IH]; simpl; [done|].
  destruct (PyStr.isspace c) eqn:E.
  - rewrite IH. destruct (PyStr.rstrip s) as [|c' r]; simpl; [done|].
    by rewrite E.
  - simpl. destruct (PyStr.rstrip s) as [|c' r]; simpl; by rewrite E.
Qed.

(** Stripping a stripped string changes nothing. *)
Lemma strip_idem s : PyStr.strip (PyStr.strip s) = PyStr.strip s.
Proof.
  unfold PyStr.strip.
  by rewrite rstrip_lstrip, rstrip_idem, lstrip_idem.
Qed.

End Strip.

Section Dict.

Context {V : Type}.
Implicit Types (d : PyDict.dict V) (k : string) (v : V).

Lemma get_set_eq k v d : PyDict.get k (PyDict.set k v d) = Some v.
Proof.
  induction d as [|[k' v'] d IH]; simpl.
  - by rewrite String.eqb_refl.
  - destruct (String.eqb k' k) eqn:E; simpl; rewrite E; done.
Qed.

Lemma get_set_ne k k' v d :
  k <> k' -> PyDict.get k' (PyDict.set k v d) = PyDict.get k' d.
Proof.
  intros Hne. induction d as [|[k0 v0] d IH]; simpl.
  - apply String.eqb_neq in Hne. by rewrite Hne.
  - destruct (String.eqb k0 k) eqn:E; simpl.
    + apply String.eqb_eq in E as ->.
      apply String.eqb_neq in Hne. by rewrite Hne.
    + by rewrite IH.
Qed.

End Dict.

Section Assign.

Implicit Types (d : mapping) (es : list (string * (string * string))).

Lemma assign_app es1 es2 d : assign (es1 ++ es2) d = assign es2 (assign es1 d).
Proof. apply fold_left_app. Qed.

(** Entries under other names leave a name as it was. *)
Lemma get_assign_other n es d :
  n ∉ es.*1 -> PyDict.get n (assign es d) = PyDict.get n d.
Proof.
  revert d. induction es as [|[k v] es IH]; intros d Hn; simpl; [done|].
  rewrite fmap_cons, not_elem_of_cons in Hn. destruct Hn as [Hk Hn].
  rewrite IH by done. apply get_set_ne. simpl in Hk. congruence.
Qed.

(** The last entry under a name decides; when all entries under the
    name carry the same pair, that pair is found. *)
Lemma get_assign_same n v es d :
  n ∈ es.*1 -> (forall e, e ∈ es -> e.1 = n -> e.2 = v) ->
  PyDict.get n (assign es d) = Some v.
Proof.
  induction es as [|[k u] es IH] using rev_ind; intros Hn Hv.
  - by apply elem_of_nil in Hn.
  - rewrite assign_app. simpl.
    destruct (decide (k = n)) as [->|Hk].
    + assert (u = v) as ->; [|apply get_set_eq].
      apply (Hv (n, u)); [|done].
      apply elem_of_app. right. by apply list_elem_of_singleton.
    + rewrite get_set_ne by done. apply IH.
      * rewrite fmap_app, elem_of_app in Hn. destruct Hn as [Hn|Hn]; [done|].
        apply list_elem_of_singleton in Hn. simpl in Hn. congruence.
      * intros e He. apply Hv. apply elem_of_app. by left.
Qed.

End Assign.

Section Loader.

Context `{Host}.
Variable options : Options.

Lemma foldM_set_only_logs prefix param1 (values : list string) (m : mapping) :
  only_logs
    (foldM
       (fun (m : mapping) component =>
          when (1 <=? verbosity_level options)%Z
            (log_activity
               ("Component mapping loaded for: "
                +:+ PyStr.strip component +:+ " as " +:+ prefix
                +:+ " in " +:+ PyStr.strip param1)) >>
          ret (PyDict.set (PyStr.strip component)
                          (prefix, PyStr.strip param1) m))
       m values)
    (inr (assign (map (fun component =>
                         (PyStr.strip component, (prefix, PyStr.strip param1)))
                      values) m)).
Proof.
  revert m. induction values as [|c values IH]; intros m; simpl.
  - apply only_logs_ret.
  - eapply only_logs_bind; [|apply IH].
    eapply only_logs_bind; [|apply only_logs_ret].
    apply only_logs_when, only_logs_log.
Qed.

Lemma load_line_only_logs t line :
  only_logs (load_line options t line) (inr (parsed_line t line)).
Proof.
  unfold load_line, parsed_line, mapping_entries.
  destruct (_ || _); [apply only_logs_ret|].
  destruct (PyStr.split "," (PyStr.strip line)) as [|p0 [|p1 [|p2 rest]]];
    try apply only_logs_ret.
  destruct (String.eqb (PyStr.strip p0) "E") eqn:EE; simpl.
  { eapply only_logs_bind; [|apply only_logs_ret].
    apply only_logs_when, only_logs_log. }
  destruct (String.eqb (PyStr.strip p0) "P") eqn:EP; simpl.
  { eapply only_logs_bind; [|apply only_logs_ret].
    apply only_logs_when, only_logs_log. }
  eapply only_logs_bind; [apply foldM_set_only_logs|].
  rewrite strip_idem. apply only_logs_ret.
Qed.

Lemma foldM_load_line_only_logs lines t :
  only_logs (foldM (load_line options) t lines)
            (inr (fold_left parsed_line lines t)).
Proof.
  revert t. induction lines as [|l lines IH]; intros t; simpl.
  - apply only_logs_ret.
  - eapply only_logs_bind; [apply load_line_only_logs|]. apply IH.
Qed.

(** What was read from the file, once it is known to be there. *)
Lemma read_and_parse_only_logs content :
  only_logs
    (let* t := foldM (load_line options) (Tables [] [] [])
                     (PyStr.readlines content) in
     when (1 <=? verbosity_level options)%Z
       (log_activity ("Final mapping content: "
                      +:+ PyRepr.repr_mapping (component_mapping t))) >>
     ret t)
    (inr (parsed content)).
Proof.
  eapply only_logs_bind; [apply foldM_load_line_only_logs|].
  eapply only_logs_bind; [|apply only_logs_ret].
  apply only_logs_when, only_logs_log.
Qed.

(** Loading a file that is present reads it and touches the log only. *)
Lemma load_present filename content w :
  files w !! filename = Some content ->
  exists msgs,
    load_component_mapping options filename w
    = (inr (parsed content), add_log msgs w).
Proof.
  intros Hf. unfold load_component_mapping.
  assert (path_exists filename w = (inr true, w)) as E1.
  { unfold path_exists. rewrite Hf. by rewrite bool_decide_eq_true_2. }
  rewrite (bind_inr _ _ _ _ _ E1). simpl.
  assert (read_text filename w = (inr content, w)) as E2.
  { unfold read_text. by rewrite Hf. }
  unfold bind at 1. unfold ret at 1.
  rewrite (bind_inr _ _ _ _ _ E2).
  apply read_and_parse_only_logs.
Qed.

(** Loading where no file is present writes the template first, then
    reads it. *)
Lemma load_absent filename w :
  files w !! filename = None ->
  exists msgs,
    load_component_mapping options filename w
    = (inr (parsed default_content),
       add_log msgs (set_file filename default_content w)).
Proof.
  intros Hf. unfold load_component_mapping.
  assert (path_exists filename w = (inr false, w)) as E1.
  { unfold path_exists. rewrite Hf. rewrite bool_decide_eq_false_2; [done|].
    by intros [? ?]. }
  rewrite (bind_inr _ _ _ _ _ E1). simpl.
  unfold create_default_mapping_file.
  erewrite bind_inr; cycle 1.
  { erewrite bind_inr; cycle 1.
    { erewrite bind_inr by apply write_text_eq. apply log_activity_eq. }
    rewrite log_activity_eq, add_log_app. reflexivity. }
  assert (read_text filename
            (add_log (["Default mapping file created: " +:+ filename]
                      ++ ["Default mapping file created at: " +:+ filename])
               (set_file filename default_content w))
          = (inr default_content,
             add_log (["Default mapping file created: " +:+ filename]
                      ++ ["Default mapping file created at: " +:+ filename])
               (set_file filename default_content w))) as E2.
  { unfold read_text. simpl. by rewrite lookup_insert_eq. }
  rewrite (bind_inr _ _ _ _ _ E2).
  destruct (read_and_parse_only_logs default_content
              (add_log (["Default mapping file created: " +:+ filename]
                        ++ ["Default mapping file created at: " +:+ filename])
                 (set_file filename default_content w))) as [m ->].
  eexists. by rewrite add_log_app.
Qed.

(** The template holds comments only: nothing is read from it. *)
Lemma parsed_default_content : parsed default_content = Tables [] [] [].
Proof. vm_compute. reflexivity. Qed.

Lemma readlines_default_content :
  PyStr.readlines default_content
  = map (fun l => l +:+ PyStr.nl) default_content_lines.
Proof. vm_compute. reflexivity. Qed.

(** The table read from a file is the table after all entries of its
    lines, in order. *)
Lemma component_mapping_parsed_line t line :
  component_mapping (parsed_line t line)
  = assign (mapping_entries line) (component_mapping t).
Proof.
  unfold parsed_line, mapping_entries.
  destruct (_ || _); [done|].
  destruct (PyStr.split "," (PyStr.strip line)) as [|p0 [|p1 [|p2 rest]]];
    try done.
  destruct (String.eqb (PyStr.strip p0) "E"); [done|].
  destruct (String.eqb (PyStr.strip p0) "P"); done.
Qed.

Lemma component_mapping_fold lines t :
  component_mapping (fold_left parsed_line lines t)
  = assign (concat (map mapping_entries lines)) (component_mapping t).
Proof.
  revert t. induction lines as [|l lines IH]; intros t; simpl; [done|].
  by rewrite IH, component_mapping_parsed_line, assign_app.
Qed.

(** All entries of one line carry the same pair. *)
Lemma mapping_entries_same line e e' :
  e ∈ mapping_entries line -> e' ∈ mapping_entries line -> e.2 = e'.2.
Proof.
  unfold mapping_entries.
  destruct (_ || _); [by intros ?%elem_of_nil|].
  destruct (PyStr.split "," (PyStr.strip line)) as [|p0 [|p1 [|p2 rest]]];
    try by intros ?%elem_of_nil.
  destruct (_ || _); [by intros ?%elem_of_nil|].
  intros (c & -> & _)%list_elem_of_fmap (c' & -> & _)%list_elem_of_fmap. done.
Qed.

End Loader.

Section WrittenRows.

Context `{Host}.
Variable options : Options.

Lemma survivor_not_attribute_excluded m ex pr fp :
  category_of m ex pr fp = inr Priority
  \/ category_of m ex pr fp = inr Mapped
  \/ category_of m ex pr fp = inr Unmapped ->
  attribute_excluded fp = false.
Proof.
  unfold category_of. destruct (attribute_excluded fp); [|done].
  intros [?|[?|?]]; congruence.
Qed.

Lemma elem_of_in_category m ex pr c l fp :
  fp ∈ in_category m ex pr c l <-> fp ∈ l /\ category_of m ex pr fp = inr c.
Proof. unfold in_category. rewrite list_elem_of_filter. tauto. Qed.

Lemma elem_of_sort_on {A} (key : A -> string) (l : list A) (a : A) :
  a ∈ sort_on key l <-> a ∈ l.
Proof. by rewrite sort_on_perm. Qed.

Lemma classified_from_empty m ex pr l g :
  classified m ex pr (Groups [] [] [] [] []) l = inr g ->
  priority_footprints g = in_category m ex pr Priority l
  /\ mapped_footprints g = in_category m ex pr Mapped l
  /\ unmapped_footprints g = in_category m ex pr Unmapped l
  /\ excluded_by_pattern g = in_category m ex pr ExcludedByPattern l
  /\ excluded_by_attribute g = in_category m ex pr ExcludedByAttribute l.
Proof. intros Hg. by apply classified_groups in Hg. Qed.

Lemma elem_of_survivors m ex pr l g fp :
  classified m ex pr (Groups [] [] [] [] []) l = inr g ->
  fp ∈ survivors g <->
  fp ∈ l /\ (category_of m ex pr fp = inr Priority
             \/ category_of m ex pr fp = inr Mapped
             \/ category_of m ex pr fp = inr Unmapped).
Proof.
  intros (Hp & Hm & Hu & _)%classified_from_empty.
  unfold survivors. rewrite Hp, Hm, Hu, !elem_of_app, !elem_of_in_category.
  tauto.
Qed.

(** The rows of [exported]: the header, the rows of footprints that
    survived the classification, and the trailer exactly when no
    exception was raised. *)
Lemma exported_written m ex pr X Y l :
  exists written priority rest,
    (exported m ex pr X Y l).2
    = header :: map (qihe_row m priority X Y) written ++ rest
    /\ ((exported m ex pr X Y l).1 = inr tt /\ rest = trailer
        \/ (exists e, (exported m ex pr X Y l).1 = inl e) /\ rest = [])
    /\ forall fp, fp ∈ written ->
         fp ∈ l /\ (category_of m ex pr fp = inr Priority
                    \/ category_of m ex pr fp = inr Mapped
                    \/ category_of m ex pr fp = inr Unmapped).
Proof.
  unfold exported.
  destruct (classified m ex pr (Groups [] [] [] [] []) l) as [e|g] eqn:Eg.
  { exists [], [], []. split; [done|]. split; [right; eauto|].
    by intros fp ?%elem_of_nil. }
  pose proof (fun fp => elem_of_survivors m ex pr l g fp Eg) as Hs.
  assert (forall written : list Footprint,
            (forall fp, fp ∈ written -> fp ∈ survivors g) ->
            forall fp, fp ∈ written ->
              fp ∈ l /\ (category_of m ex pr fp = inr Priority
                         \/ category_of m ex pr fp = inr Mapped
                         \/ category_of m ex pr fp = inr Unmapped)) as Hw.
  { intros written Hsub fp Hfp. apply Hs. by apply Hsub. }
  set (P := sort_on sort_key (priority_footprints g)).
  set (Mp := sort_on sort_key (mapped_footprints g)).
  set (U := sort_on sort_key (unmapped_footprints g)).
  destruct (existsb keyless (priority_footprints g)).
  { exists [], [], []. split; [done|]. split; [right; eauto|].
    by intros fp ?%elem_of_nil. }
  destruct (existsb keyless (mapped_footprints g)).
  { exists P, P, []. cbn [fst snd]. rewrite app_nil_r.
    split; [done|]. split; [right; eauto|]. apply Hw.
    intros fp Hfp. unfold survivors, P in *.
    rewrite elem_of_sort_on in Hfp. rewrite !elem_of_app. tauto. }
  destruct (existsb keyless (unmapped_footprints g)).
  { exists (P ++ Mp), P, []. cbn [fst snd]. rewrite app_nil_r, map_app.
    split; [done|]. split; [right; eauto|]. apply Hw.
    intros fp Hfp. unfold survivors, P, Mp in *.
    rewrite elem_of_app, !elem_of_sort_on in Hfp. rewrite !elem_of_app. tauto. }
  exists (P ++ Mp ++ U), P, trailer. cbn [fst snd].
  rewrite !map_app, <- !app_assoc.
  split; [done|]. split; [left; eauto|]. apply Hw.
  intros fp Hfp. unfold survivors, P, Mp, U in *.
  rewrite !elem_of_app, !elem_of_sort_on in Hfp. rewrite !elem_of_app. tauto.
Qed.

(** What [write_qihe_file] leaves in the output file, in every case. *)
Lemma write_qihe_file_written f fps layer X Y m ex pr w :
  exists written priority rest w',
    write_qihe_file options f fps layer X Y m ex pr w = (inr tt, w')
    /\ files w' !! f
       = Some (Csv.text (header :: map (qihe_row m priority X Y) written ++ rest))
    /\ (rest = trailer \/ rest = [])
    /\ forall fp, fp ∈ written ->
         fp ∈ fps /\ GetLayer fp = layer /\ attribute_excluded fp = false.
Proof.
  destruct (write_qihe_file_exported options f fps layer X Y m ex pr w)
    as [msgs ->].
  destruct (exported_written m ex pr X Y
              (filter (fun fp => GetLayer fp = layer) fps))
    as (written & priority & rest & -> & Hrest & Hw).
  exists written, priority, rest. eexists. split; [done|].
  split; [simpl; by rewrite lookup_insert_eq|].
  split; [destruct Hrest as [[_ ->]|[_ ->]]; auto|].
  intros fp Hfp. destruct (Hw fp Hfp) as [Hl Hc].
  apply list_elem_of_filter in Hl as [Hl1 Hl2].
  split; [done|]. split; [done|].
  by eapply survivor_not_attribute_excluded.
Qed.

End WrittenRows.

(* ===================================================================== *)
(** * The classifier *)
(* ===================================================================== *)

Section FirstMatch.

Context `{Host}.
Variable options : Options.

(** Patterns that do not match are passed over; the first that matches
    is the answer, whatever comes after it. *)
Lemma first_match_app before p after value :
  Forall (fun q => re_search q value = inr false) before ->
  re_search p value = inr true ->
  first_match (before ++ p :: after) value = inr (Some p).
Proof.
  intros Hb Hp. induction Hb as [|q before Hq _ IH]; simpl.
  - by rewrite Hp.
  - by rewrite Hq.
Qed.

Lemma is_excluded_first before p after fp w :
  Forall (fun q => re_search q (GetValue fp) = inr false) before ->
  re_search p (GetValue fp) = inr true ->
  is_excluded options fp (before ++ p :: after) w
  = (inr true,
     add_log (if (3 <=? verbosity_level options)%Z
              then ["Excluding " +:+ GetReference fp
                    +:+ " based on pattern: " +:+ p]
              else []) w).
Proof.
  intros Hb Hp. induction Hb as [|q before Hq _ IH]; simpl.
  - unfold search. rewrite Hp.
    unfold bind at 1. unfold ret at 1.
    destruct (3 <=? verbosity_level options)%Z; simpl.
    + reflexivity.
    + by rewrite add_log_nil.
  - unfold search at 1. rewrite Hq.
    unfold bind at 1. unfold ret at 1. exact IH.
Qed.

Lemma is_priority_first before p after fp w :
  Forall (fun q => re_search q (GetValue fp) = inr false) before ->
  re_search p (GetValue fp) = inr true ->
  is_priority options fp (before ++ p :: after) w
  = (inr true,
     add_log (if (3 <=? verbosity_level options)%Z
              then ["Prioritizing " +:+ GetReference fp
                    +:+ " based on pattern: " +:+ p]
              else []) w).
Proof.
  intros Hb Hp. induction Hb as [|q before Hq _ IH]; simpl.
  - unfold search. rewrite Hp.
    unfold bind at 1. unfold ret at 1.
    destruct (3 <=? verbosity_level options)%Z; simpl.
    + reflexivity.
    + by rewrite add_log_nil.
  - unfold search at 1. rewrite Hq.
    unfold bind at 1. unfold ret at 1. exact IH.
Qed.

(** C1. The loop of [write_qihe_file] over the footprints of the
    requested layer applies the checks in the order attribute
    exclusion, pattern exclusion, priority patterns, mapping key,
    unmapped: each step ends as [category_of] says, and the five lists
    are the footprints of the layer by [category_of].  A footprint
    whose value matches an exclusion pattern is among the excluded
    ones whatever the priority patterns and the table are, and
    [is_excluded] and [is_priority] answer with the first pattern that
    matches, whatever patterns follow it. *)
Theorem classification_order
    (m : mapping) (ex pr : list string) (fps : list Footprint) (layer : Z)
    (g : groups) (w : world) :
  (classify_footprints options m ex pr
     (filter (fun fp => GetLayer fp = layer) fps) w).1 = inr g ->
  let on_layer := filter (fun fp => GetLayer fp = layer) fps in
  (forall g0 fp w0,
      (classify_step options m ex pr g0 fp w0).1
      = match category_of m ex pr fp with
        | inl msg => inl (re_error msg)
        | inr c => inr (place c fp g0)
        end)
  /\ (priority_footprints g = in_category m ex pr Priority on_layer
   /\ mapped_footprints g = in_category m ex pr Mapped on_layer
   /\ unmapped_footprints g = in_category m ex pr Unmapped on_layer
   /\ excluded_by_pattern g = in_category m ex pr ExcludedByPattern on_layer
   /\ excluded_by_attribute g
      = in_category m ex pr ExcludedByAttribute on_layer)
  /\ (forall fp p,
        fp ∈ on_layer ->
        first_match ex (GetValue fp) = inr (Some p) ->
        (fp ∉ survivors g)
        /\ (fp ∈ excluded_by_pattern g \/ fp ∈ excluded_by_attribute g)
        /\ forall m' pr',
             category_of m' ex pr' fp
             = inr (if attribute_excluded fp
                    then ExcludedByAttribute else ExcludedByPattern))
  /\ (forall fp before p after w0,
        Forall (fun q => re_search q (GetValue fp) = inr false) before ->
        re_search p (GetValue fp) = inr true ->
        first_match (before ++ p :: after) (GetValue fp) = inr (Some p)
        /\ is_excluded options fp (before ++ p :: after) w0
           = (inr true,
              add_log (if (3 <=? verbosity_level options)%Z
                       then ["Excluding " +:+ GetReference fp
                             +:+ " based on pattern: " +:+ p]
                       else []) w0)
        /\ is_priority options fp (before ++ p :: after) w0
           = (inr true,
              add_log (if (3 <=? verbosity_level options)%Z
                       then ["Prioritizing " +:+ GetReference fp
                             +:+ " based on pattern: " +:+ p]
                       else []) w0)).
Proof.
  intros Hg on_layer.
  rewrite (only_logs_outcome _ _ w
             (classify_footprints_only_logs options m ex pr _)) in Hg.
  fold on_layer in Hg.
  pose proof (classified_from_empty m ex pr on_layer g Hg) as Hlists.
  split.
  { intros g0 fp w0.
    apply (only_logs_outcome _ _ w0 (classify_step_only_logs options m ex pr g0 fp)). }
  split; [exact Hlists|]. split.
  - intros fp p Hfp Hex.
    assert (forall m' pr',
              category_of m' ex pr' fp
              = inr (if attribute_excluded fp
                     then ExcludedByAttribute else ExcludedByPattern)) as Hc.
    { intros m' pr'. unfold category_of. rewrite Hex.
      by destruct (attribute_excluded fp). }
    split; [|split; [|exact Hc]].
    + rewrite (elem_of_survivors m ex pr on_layer g fp Hg).
      intros [_ Hs]. rewrite Hc in Hs.
      destruct (attribute_excluded fp), Hs as [?|[?|?]]; congruence.
    + destruct Hlists as (_ & _ & _ & -> & ->).
      rewrite !elem_of_in_category, Hc.
      destruct (attribute_excluded fp); auto.
  - intros fp before p after w0 Hb Hp.
    split; [by apply first_match_app|].
    split; [by apply is_excluded_first | by apply is_priority_first].
Qed.

End FirstMatch.

(** C1 on the top layer of the sample board, which has a priority
    footprint, mapped and unmapped ones and both kinds of excluded ones. *)
Lemma classification_order_witness :
  (classify_footprints (H:=Sample.host) (Sample.options 0) Sample.table
     ["NC"; "TP"] ["FIDUCIAL"; "TESTPOINT"]
     (filter (fun fp => GetLayer fp = 0%Z) (GetFootprints Sample.board))
     Sample.empty_world).1 = inr Sample.top_groups
  /\ priority_footprints Sample.top_groups
     = in_category (H:=Sample.host) Sample.table ["NC"; "TP"]
         ["FIDUCIAL"; "TESTPOINT"] Priority
         (filter (fun fp => GetLayer fp = 0%Z) (GetFootprints Sample.board)).
Proof.
  assert ((classify_footprints (H:=Sample.host) (Sample.options 0) Sample.table
             ["NC"; "TP"] ["FIDUCIAL"; "TESTPOINT"]
             (filter (fun fp => GetLayer fp = 0%Z) (GetFootprints Sample.board))
             Sample.empty_world).1 = inr Sample.top_groups) as Hg.
  { vm_compute. reflexivity. }
  split; [exact Hg|].
  exact (proj1 (proj1 (proj2 (classification_order (H:=Sample.host) (Sample.options 0)
                         Sample.table ["NC"; "TP"] ["FIDUCIAL"; "TESTPOINT"]
                         (GetFootprints Sample.board) 0 Sample.top_groups
                         Sample.empty_world Hg)))).
Defined.

Section AttributeExclusion.

Context `{Host}.
Variable options : Options.

(** C2. Whatever the table and the patterns are, the data rows of the
    emitted file are the rows of footprints of the board, on the
    layer, whose attribute flags do not exclude them: a footprint that
    is flagged has no row. *)
Theorem attribute_excluded_never_written
    (f : string) (fps : list Footprint) (layer : Z) (X Y : float)
    (m : mapping) (ex pr : list string) (w : world) :
  exists written priority rest w',
    write_qihe_file options f fps layer X Y m ex pr w = (inr tt, w')
    /\ files w' !! f
       = Some (Csv.text (header :: map (qihe_row m priority X Y) written ++ rest))
    /\ (rest = trailer \/ rest = [])
    /\ (forall fp, fp ∈ written -> fp ∈ fps /\ GetLayer fp = layer)
    /\ forall fp, attribute_excluded fp = true -> fp ∉ written.
Proof.
  destruct (write_qihe_file_written options f fps layer X Y m ex pr w)
    as (written & priority & rest & w' & Hrun & Hfile & Hrest & Hw).
  exists written, priority, rest, w'.
  repeat split; try done.
  - by apply Hw.
  - by apply Hw.
  - intros fp Hflag Hfp. destruct (Hw fp Hfp) as (_ & _ & Hno). congruence.
Qed.

End AttributeExclusion.

(* ===================================================================== *)
(** * The mapping file *)
(* ===================================================================== *)

Section MappingFile.

Context `{Host}.
Variable options : Options.

(** The entries of a mapping line: one for each value of its third
    field, under the tag and the parameter of the line. *)
Lemma mapping_entries_of_line line p0 p1 p2 rest :
  PyStr.strip line <> "" ->
  PyStr.startswith "#" (PyStr.strip line) = false ->
  PyStr.split "," (PyStr.strip line) = p0 :: p1 :: p2 :: rest ->
  PyStr.strip p0 <> "E" -> PyStr.strip p0 <> "P" ->
  mapping_entries line
  = map (fun value => (PyStr.strip value, (PyStr.strip p0, PyStr.strip p1)))
        (PyStr.split ":" (PyStr.strip p2))
  /\ forall t, parsed_line t line
               = Tables (assign (mapping_entries line) (component_mapping t))
                        (exclude_patterns t) (priority_patterns t).
Proof.
  intros Hne Hc Hs HE HP.
  apply String.eqb_neq in Hne, HE, HP.
  unfold parsed_line, mapping_entries.
  rewrite Hne, Hc, Hs, HE, HP. simpl. done.
Qed.

(** C3. A line of the mapping file whose tag is neither E nor P
    assigns, for each colon-separated value of its third field, the
    pair (tag, parameter) to that value; tag, parameter and values are
    taken without the white space around them.  It changes no other
    key and no pattern list.  The line "1, L1, 0n1:100nF" gives
    exactly the two entries of "0n1" and "100nF", both ("1", "L1"). *)
Theorem mapping_line_entries :
  (forall t line p0 p1 p2 rest w,
      PyStr.strip line <> "" ->
      PyStr.startswith "#" (PyStr.strip line) = false ->
      PyStr.split "," (PyStr.strip line) = p0 :: p1 :: p2 :: rest ->
      PyStr.strip p0 <> "E" -> PyStr.strip p0 <> "P" ->
      exists t' msgs,
        load_line options t line w = (inr t', add_log msgs w)
        /\ exclude_patterns t' = exclude_patterns t
        /\ priority_patterns t' = priority_patterns t
        /\ (forall value,
              value ∈ PyStr.split ":" (PyStr.strip p2) ->
              PyDict.get (PyStr.strip value) (component_mapping t')
              = Some (PyStr.strip p0, PyStr.strip p1))
        /\ (forall k,
              k ∉ PyStr.strip <$> PyStr.split ":" (PyStr.strip p2) ->
              PyDict.get k (component_mapping t')
              = PyDict.get k (component_mapping t)))
  /\ (forall w,
        (load_line options (Tables [] [] []) "1, L1, 0n1:100nF" w).1
        = inr (Tables [("0n1", ("1", "L1")); ("100nF", ("1", "L1"))] [] []))
  /\ (forall filename w,
        files w !! filename = Some ("1, L1, 0n1:100nF" +:+ PyStr.nl) ->
        (load_component_mapping options filename w).1
        = inr (Tables [("0n1", ("1", "L1")); ("100nF", ("1", "L1"))] [] [])).
Proof.
  split; [|split].
  - intros t line p0 p1 p2 rest w Hne Hc Hs HE HP.
    destruct (mapping_entries_of_line line p0 p1 p2 rest Hne Hc Hs HE HP)
      as [Hent Hpar].
    destruct (load_line_only_logs options t line w) as [msgs Hrun].
    exists (parsed_line t line), msgs. split; [exact Hrun|].
    rewrite Hpar. cbn [component_mapping exclude_patterns priority_patterns].
    split; [done|]. split; [done|]. split.
    + intros value Hv. apply get_assign_same.
      * rewrite Hent, <- list_fmap_compose.
        apply list_elem_of_fmap. by exists value.
      * rewrite Hent. intros e (c & -> & _)%list_elem_of_fmap _. done.
    + intros k Hk. apply get_assign_other.
      by rewrite Hent, <- list_fmap_compose.
  - intros w. rewrite (only_logs_outcome _ _ w (load_line_only_logs options _ _)).
    vm_compute. reflexivity.
  - intros filename w Hf.
    destruct (load_present options filename _ w Hf) as [msgs ->].
    vm_compute. reflexivity.
Qed.

(** C8. When a component name is a value of several mapping lines,
    the table read from the file gives it the pair of the last of
    these lines: a line that assigns the name, followed by lines none
    of which assigns it, decides. *)
Theorem last_definition_wins
    (filename content : string) (w : world)
    (pre : list string) (line : string) (post : list string)
    (name : string) (pair : string * string) :
  files w !! filename = Some content ->
  PyStr.readlines content = pre ++ line :: post ->
  (name, pair) ∈ mapping_entries line ->
  (forall later, later ∈ post -> name ∉ (mapping_entries later).*1) ->
  exists t w',
    load_component_mapping options filename w = (inr t, w')
    /\ PyDict.get name (component_mapping t) = Some pair.
Proof.
  intros Hf Hlines Hin Hpost.
  destruct (load_present options filename content w Hf) as [msgs Hrun].
  exists (parsed content). eexists. split; [exact Hrun|].
  unfold parsed. rewrite component_mapping_fold, Hlines.
  rewrite map_app, concat_app. simpl. rewrite app_assoc, assign_app.
  rewrite get_assign_other.
  - rewrite assign_app. apply get_assign_same.
    + apply list_elem_of_fmap. by exists (name, pair).
    + intros e He _. by apply (mapping_entries_same line e (name, pair)).
  - intros (e & Hn & He)%list_elem_of_fmap.
    apply list_elem_of_In, in_concat in He as (es & Hes & He).
    apply in_map_iff in Hes as (later & <- & Hl).
    apply (Hpost later); [by apply list_elem_of_In|].
    apply list_elem_of_fmap. exists e. split; [done|].
    by apply list_elem_of_In.
Qed.

(** With no mapping file at its path, [run] goes on to
    [generate_qihe_files] with the template written. *)
Lemma run_without_mapping_file board w :
  GetBoard = Some board ->
  files w !! get_mapping_file_path options = None ->
  exists msgs,
    run options w
    = generate_qihe_files options board (Tables [] [] [])
        (add_log msgs
           (set_file (get_mapping_file_path options) default_content w)).
Proof.
  intros Hb Hf. unfold run. rewrite Hb.
  assert (forall msgs0,
            exists msgs,
              bind (load_component_mapping options (get_mapping_file_path options))
                   (fun t => generate_qihe_files options board t)
                   (add_log msgs0 w)
              = generate_qihe_files options board (Tables [] [] [])
                  (add_log msgs
                     (set_file (get_mapping_file_path options) default_content w)))
    as Hload.
  { intros msgs0.
    destruct (load_absent options (get_mapping_file_path options)
                (add_log msgs0 w)) as [msgs E]; [done|].
    rewrite (bind_inr _ _ _ _ _ E).
    rewrite parsed_default_content, set_file_add_log, add_log_app.
    by eexists. }
  erewrite bind_inr by apply log_activity_eq.
  erewrite bind_inr by apply log_activity_eq.
  erewrite bind_inr by apply log_activity_eq.
  rewrite !add_log_app. apply Hload.
Qed.

(** C9. When no file is at the path of the mapping file, loading
    writes the template there and then reads it; [run] classifies
    only after that.  The template describes the three kinds of lines
    — mapping lines, E lines and P lines — each with its format and
    an example; all its lines are comments, so the tables read from it
    are empty. *)
Theorem missing_mapping_file_creates_template (filename : string) (w : world) :
  files w !! filename = None ->
  (exists msgs,
      load_component_mapping options filename w
      = (inr (Tables [] [] []),
         add_log msgs (set_file filename default_content w))
      /\ files (load_component_mapping options filename w).2 !! filename
         = Some default_content)
  /\ PyStr.readlines default_content
     = map (fun l => l +:+ PyStr.nl) default_content_lines
  /\ Forall (fun l => PyStr.startswith "#" l = true) default_content_lines
  /\ ("# Component Mapping Line:" ∈ default_content_lines
      /\ "#   1 or 2, Feeder ID, Component Name(s)" ∈ default_content_lines
      /\ "#   Example: 1, L1, 0n1:100nF:100nf:0.1uF:0.1uf" ∈ default_content_lines)
  /\ ("# Exclude Line:" ∈ default_content_lines
      /\ "#   E, , Regex Pattern(s)" ∈ default_content_lines
      /\ "#   Example: E, , NC:TP" ∈ default_content_lines)
  /\ ("# Priority Line:" ∈ default_content_lines
      /\ "#   P, , Regex Pattern(s)" ∈ default_content_lines
      /\ "#   Example: P, , FIDUCIAL:TESTPOINT" ∈ default_content_lines)
  /\ (forall board,
        GetBoard = Some board ->
        filename = get_mapping_file_path options ->
        exists w1,
          run options w
          = generate_qihe_files options board (Tables [] [] []) w1
          /\ files w1 !! filename = Some default_content).
Proof.
  intros Hf.
  split.
  { destruct (load_absent options filename w Hf) as [msgs Hrun].
    rewrite parsed_default_content in Hrun.
    exists msgs. split; [exact Hrun|]. rewrite Hrun. simpl.
    by rewrite lookup_insert_eq. }
  split; [apply readlines_default_content|].
  split; [by repeat constructor|].
  split; [repeat split; apply (list_elem_of_In (A:=string)); vm_compute; tauto|].
  split; [repeat split; apply (list_elem_of_In (A:=string)); vm_compute; tauto|].
  split; [repeat split; apply (list_elem_of_In (A:=string)); vm_compute; tauto|].
  intros board Hb ->.
  destruct (run_without_mapping_file board w Hb Hf) as [msgs ->].
  eexists. split; [done|]. simpl. by rewrite lookup_insert_eq.
Qed.

End MappingFile.

(** C3 on the line "1, L1, 0n1:100nF", read into empty tables. *)
Lemma mapping_line_entries_witness :
  (PyStr.strip "1, L1, 0n1:100nF" <> ""
   /\ PyStr.startswith "#" (PyStr.strip "1, L1, 0n1:100nF") = false
   /\ PyStr.split "," (PyStr.strip "1, L1, 0n1:100nF") = ["1"; " L1"; " 0n1:100nF"]
   /\ PyStr.strip "1" <> "E" /\ PyStr.strip "1" <> "P")
  /\ exists t' msgs,
       load_line (Sample.options 1) (Tables [] [] []) "1, L1, 0n1:100nF"
         Sample.empty_world
       = (inr t', add_log msgs Sample.empty_world)
       /\ PyDict.get "100nF" (component_mapping t') = Some ("1", "L1").
Proof.
  assert (PyStr.strip "1, L1, 0n1:100nF" <> "") as H1 by (vm_compute; discriminate).
  assert (PyStr.startswith "#" (PyStr.strip "1, L1, 0n1:100nF") = false) as H2
    by (vm_compute; reflexivity).
  assert (PyStr.split "," (PyStr.strip "1, L1, 0n1:100nF")
          = ["1"; " L1"; " 0n1:100nF"]) as H3 by (vm_compute; reflexivity).
  assert (PyStr.strip "1" <> "E") as H4 by (vm_compute; discriminate).
  assert (PyStr.strip "1" <> "P") as H5 by (vm_compute; discriminate).
  split; [done|].
  destruct (proj1 (mapping_line_entries (Sample.options 1))
              (Tables [] [] []) "1, L1, 0n1:100nF" "1" " L1" " 0n1:100nF" []
              Sample.empty_world H1 H2 H3 H4 H5)
    as (t' & msgs & Hrun & _ & _ & Hget & _).
  exists t', msgs. split; [exact Hrun|].
  apply (Hget "100nF"). apply (list_elem_of_In (A:=string)). vm_compute. tauto.
Defined.

(** C8 on the sample mapping file, where "100nF" is a value of the
    second line and of the last line. *)
Lemma last_definition_wins_witness :
  (files (World {["map.txt" := Sample.mapping_text]} []) !! "map.txt"
   = Some Sample.mapping_text
   /\ PyStr.readlines Sample.mapping_text
      = ["# feeders" +:+ PyStr.nl; "1, L1, 0n1:100nF" +:+ PyStr.nl;
         "E, , NC:TP" +:+ PyStr.nl; "P, , FIDUCIAL:TESTPOINT" +:+ PyStr.nl]
        ++ ("2, B3, 100nF : 4k7" +:+ PyStr.nl) :: []
   /\ ("100nF", ("1", "L1")) ∈ mapping_entries ("1, L1, 0n1:100nF" +:+ PyStr.nl)
   /\ ("100nF", ("2", "B3")) ∈ mapping_entries ("2, B3, 100nF : 4k7" +:+ PyStr.nl))
  /\ exists t w',
       load_component_mapping (Sample.options 0) "map.txt"
         (World {["map.txt" := Sample.mapping_text]} []) = (inr t, w')
       /\ PyDict.get "100nF" (component_mapping t) = Some ("2", "B3").
Proof.
  assert (files (World {["map.txt" := Sample.mapping_text]} []) !! "map.txt"
          = Some Sample.mapping_text) as H1 by (vm_compute; reflexivity).
  assert (PyStr.readlines Sample.mapping_text
          = ["# feeders" +:+ PyStr.nl; "1, L1, 0n1:100nF" +:+ PyStr.nl;
             "E, , NC:TP" +:+ PyStr.nl; "P, , FIDUCIAL:TESTPOINT" +:+ PyStr.nl]
            ++ ("2, B3, 100nF : 4k7" +:+ PyStr.nl) :: []) as H2
    by (vm_compute; reflexivity).
  assert (("100nF", ("1", "L1")) ∈ mapping_entries ("1, L1, 0n1:100nF" +:+ PyStr.nl))
    as H0 by (apply (list_elem_of_In (A:=string * (string * string)));
              vm_compute; tauto).
  assert (("100nF", ("2", "B3")) ∈ mapping_entries ("2, B3, 100nF : 4k7" +:+ PyStr.nl))
    as H3 by (apply (list_elem_of_In (A:=string * (string * string)));
              vm_compute; tauto).
  split; [done|].
  apply (last_definition_wins (Sample.options 0) "map.txt" Sample.mapping_text
           (World {["map.txt" := Sample.mapping_text]} []) _ _ [] "100nF"
           ("2", "B3") H1 H2 H3).
  intros later Hl. by apply elem_of_nil in Hl.
Defined.

(** C9 on the sample board, whose folder has no mapping file yet. *)
Lemma missing_mapping_file_creates_template_witness :
  files Sample.empty_world
    !! get_mapping_file_path (H:=Sample.host) (Sample.options 0) = None
  /\ files (load_component_mapping (Sample.options 0)
              (get_mapping_file_path (H:=Sample.host) (Sample.options 0))
              Sample.empty_world).2
       !! "/home/user/project/component_mapping.txt"
     = Some default_content.
Proof.
  assert (files Sample.empty_world
            !! get_mapping_file_path (H:=Sample.host) (Sample.options 0) = None)
    as H1 by (vm_compute; reflexivity).
  split; [exact H1|].
  destruct (proj1 (missing_mapping_file_creates_template (H:=Sample.host)
                     (Sample.options 0) _ Sample.empty_world H1))
    as (msgs & _ & Hfile).
  exact Hfile.
Defined.

(* ===================================================================== *)
(** * The text of the output file *)
(* ===================================================================== *)

Section Text.

Lemma chars_app (a b : string) :
  PyStr.chars (a +:+ b) = PyStr.chars a ++ PyStr.chars b.
Proof.
  induction a as [|c a IH]; [done|].
  rewrite append_cons. simpl. by rewrite IH.
Qed.

Lemma ends_withb_nil (suffix : string) :
  ends_withb suffix "" = String.eqb "" suffix.
Proof. apply orb_false_r. Qed.

Lemma ends_withb_cons (suffix : string) (c : ascii) (s : string) :
  ends_withb suffix (String c s)
  = String.eqb (String c s) suffix || ends_withb suffix s.
Proof. reflexivity. Qed.

Lemma ends_withb_spec (suffix s : string) :
  ends_withb suffix s = true <-> ends_with suffix s.
Proof.
  unfold ends_with. split.
  - induction s as [|c s IH].
    + rewrite ends_withb_nil. intros ->%String.eqb_eq. by exists "".
    + rewrite ends_withb_cons.
      intros [->%String.eqb_eq|Hs]%orb_true_iff; [by exists ""|].
      destruct (IH Hs) as [pre ->]. by exists (String c pre).
  - intros [pre ->]. induction pre as [|c pre IH].
    + rewrite append_empty_l. destruct suffix.
      * reflexivity.
      * rewrite ends_withb_cons, String.eqb_refl. reflexivity.
    + rewrite append_cons, ends_withb_cons, IH. apply orb_true_r.
Qed.

(** The text of a field never ends with a line feed. *)
Lemma field_last (e : string) : last (PyStr.chars (Csv.field e)) <> Some PyStr.LF.
Proof.
  unfold Csv.field.
  destruct (existsb Csv.special (PyStr.chars e)) eqn:E.
  - unfold Csv.quoted. simpl. rewrite chars_app. simpl.
    rewrite last_cons, last_snoc. done.
  - intros Hl. apply last_Some in Hl as [l' Hl].
    assert (existsb Csv.special (PyStr.chars e) = true); [|congruence].
    rewrite Hl, existsb_app. simpl. apply orb_true_r.
Qed.

(** The text of several fields joined by commas ends with a character
    that is not a line feed. *)
Lemma join_fields_last (x y : string) (l : list string) :
  exists c, last (PyStr.chars (PyStr.join "," (map Csv.field (x :: y :: l))))
            = Some c /\ c <> PyStr.LF.
Proof.
  revert x y. induction l as [|z l IH]; intros x y.
  - cbn [map PyStr.join]. rewrite !chars_app.
    change (PyStr.chars ",") with [","%char].
    destruct (PyStr.chars (Csv.field y)) as [|c' l'] eqn:Ey using rev_ind.
    + exists ","%char. rewrite app_nil_r, last_snoc. done.
    + clear IHl'. exists c'. rewrite !app_assoc, last_snoc. split; [done|].
      intros ->. apply (field_last y). by rewrite Ey, last_snoc.
  - destruct (IH y z) as (c & Hc & Hne). exists c. split; [|done].
    change (map Csv.field (x :: y :: z :: l))
      with (Csv.field x :: map Csv.field (y :: z :: l)).
    change (PyStr.join "," (Csv.field x :: map Csv.field (y :: z :: l)))
      with (Csv.field x +:+ "," +:+ PyStr.join "," (map Csv.field (y :: z :: l))).
    rewrite !chars_app.
    apply last_Some in Hc as [l' ->].
    by rewrite !app_assoc, last_snoc.
Qed.

(** A row of two fields or more is written as a text that ends with a
    character other than a line feed, then CR LF. *)
Lemma row_tail (r : list string) :
  2 <= length r ->
  exists l c, PyStr.chars (Csv.row r) = l ++ [c; PyStr.CR; PyStr.LF]
              /\ c <> PyStr.LF.
Proof.
  destruct r as [|x [|y r]]; cbn [length]; try lia. intros _.
  destruct (join_fields_last x y r) as (c & [l Hl]%last_Some & Hne).
  exists l, c. split; [|done].
  assert (Csv.row (x :: y :: r)
          = PyStr.join "," (map Csv.field (x :: y :: r)) +:+ Csv.CRLF) as ->.
  { by destruct x. }
  rewrite chars_app, Hl. by rewrite <- app_assoc.
Qed.

Lemma trailer_tail :
  exists l, PyStr.chars (Csv.text trailer)
            = l ++ [PyStr.LF; PyStr.CR; PyStr.LF].
Proof. eexists. vm_compute. by rewrite <- (app_nil_l [_; _; _]), !app_comm_cons. Qed.

End Text.

Section NoTrailer.

(** A text whose last row has two fields or more does not end with
    the trailer. *)
Lemma data_rows_not_trailer (rows : list (list string)) :
  rows <> [] -> Forall (fun r => 2 <= length r) rows ->
  ~ ends_with (Csv.text trailer) (Csv.text rows).
Proof.
  intros Hne Hall [pre Heq].
  assert (exists rows0 r0, rows = rows0 ++ [r0]) as (rows0 & r0 & ->).
  { clear Hall Heq. induction rows as [|r0 rows0 _] using rev_ind; [done|eauto]. }
  rewrite Forall_app, Forall_singleton in Hall. destruct Hall as [_ Hr].
  destruct (row_tail r0 Hr) as (l & c & Hrow & Hc).
  destruct trailer_tail as [lt Ht].
  apply (f_equal PyStr.chars) in Heq.
  rewrite text_app, !chars_app, Ht in Heq.
  simpl in Heq. rewrite append_empty_r, Hrow in Heq.
  rewrite !app_assoc in Heq.
  change [c; PyStr.CR; PyStr.LF] with ([c] ++ [PyStr.CR; PyStr.LF]) in Heq.
  change [PyStr.LF; PyStr.CR; PyStr.LF]
    with ([PyStr.LF] ++ [PyStr.CR; PyStr.LF]) in Heq.
  rewrite !app_assoc in Heq.
  apply app_inj_2 in Heq as [Heq _]; [|done].
  apply app_inj_2 in Heq as [_ Heq]; [|done].
  congruence.
Qed.

Lemma length_qihe_row m p X Y fp : length (qihe_row m p X Y fp) = 11.
Proof.
  unfold qihe_row.
  by destruct (PyDict.get_default (GetValue fp) ("1/2", "None") m).
Qed.

(** The header followed by data rows only does not end with the
    trailer. *)
Lemma header_and_data_not_trailer m p X Y (written : list Footprint) :
  ~ ends_with (Csv.text trailer)
      (Csv.text (header :: map (qihe_row m p X Y) written)).
Proof.
  apply data_rows_not_trailer; [done|].
  constructor; [simpl; lia|].
  apply Forall_fmap, Forall_true. intros fp. simpl.
  rewrite length_qihe_row. lia.
Qed.

Lemma ends_with_trailer (rows : list (list string)) :
  ends_with (Csv.text trailer) (Csv.text (rows ++ trailer)).
Proof. exists (Csv.text rows). apply text_app. Qed.

End NoTrailer.

(* ===================================================================== *)
(** * The emitter *)
(* ===================================================================== *)

Section Emission.

Context `{Host}.
Variable options : Options.

Lemma existsb_keyless_false (l : list Footprint) :
  (forall fp, fp ∈ l -> PyStr.blank (GetValue fp) = false) ->
  existsb keyless l = false.
Proof.
  intros Hl. apply not_true_is_false. intros (fp & Hin & Hk)%existsb_exists.
  apply list_elem_of_In in Hin. unfold keyless in Hk.
  rewrite (Hl fp Hin) in Hk. done.
Qed.

Lemma existsb_keyless_true (l : list Footprint) fp :
  fp ∈ l -> PyStr.blank (GetValue fp) = true -> existsb keyless l = true.
Proof.
  intros Hin Hb. apply existsb_exists. exists fp.
  split; [by apply list_elem_of_In | done].
Qed.

(** When every surviving footprint has a key, the export is complete. *)
Lemma exported_complete m ex pr X Y l g :
  classified m ex pr (Groups [] [] [] [] []) l = inr g ->
  (forall fp, fp ∈ survivors g -> PyStr.blank (GetValue fp) = false) ->
  let priority := sort_on sort_key (priority_footprints g) in
  let rows := map (qihe_row m priority X Y) in
  exported m ex pr X Y l
  = (inr tt,
     header :: rows priority
     ++ rows (sort_on sort_key (mapped_footprints g))
     ++ rows (sort_on sort_key (unmapped_footprints g)) ++ trailer).
Proof.
  intros Hg Hk. cbv zeta. unfold exported. rewrite Hg.
  unfold survivors in Hk.
  rewrite !existsb_keyless_false; [done|..];
    intros fp Hfp; apply Hk; rewrite !elem_of_app; tauto.
Qed.

(** When a surviving footprint has no key, the export stops with an
    [IndexError] after the rows of the groups before its own; no
    footprint without a key has a row. *)
Lemma exported_keyless m ex pr X Y l g fp :
  classified m ex pr (Groups [] [] [] [] []) l = inr g ->
  fp ∈ survivors g -> PyStr.blank (GetValue fp) = true ->
  exists written priority,
    exported m ex pr X Y l
    = (inl IndexError, header :: map (qihe_row m priority X Y) written)
    /\ forall x, x ∈ written -> PyStr.blank (GetValue x) = false.
Proof.
  intros Hg Hfp Hb. unfold exported. rewrite Hg.
  assert (forall l0 : list Footprint, existsb keyless l0 = false ->
            forall x, x ∈ sort_on sort_key l0 -> PyStr.blank (GetValue x) = false)
    as Hclean.
  { intros l0 Hl0 x Hx. apply elem_of_sort_on, list_elem_of_In in Hx.
    apply not_true_is_false. intros Hbx.
    assert (existsb keyless l0 = true); [|congruence].
    apply existsb_exists. by exists x. }
  destruct (existsb keyless (priority_footprints g)) eqn:EP.
  { exists [], []. split; [done|]. by intros x ?%elem_of_nil. }
  destruct (existsb keyless (mapped_footprints g)) eqn:EM.
  { eexists _, _. split; [reflexivity|]. exact (Hclean _ EP). }
  destruct (existsb keyless (unmapped_footprints g)) eqn:EU.
  { eexists (_ ++ _), _. rewrite map_app. split; [reflexivity|].
    intros x [Hx|Hx]%elem_of_app;
      [exact (Hclean _ EP x Hx) | exact (Hclean _ EM x Hx)]. }
  exfalso. unfold survivors in Hfp.
  rewrite !elem_of_app in Hfp.
  destruct Hfp as [Hfp|[Hfp|Hfp]];
    pose proof (existsb_keyless_true _ fp Hfp Hb); congruence.
Qed.

Lemma classify_outcome m ex pr l w g :
  (classify_footprints options m ex pr l w).1 = inr g ->
  classified m ex pr (Groups [] [] [] [] []) l = inr g.
Proof.
  by rewrite (only_logs_outcome _ _ w
                (classify_footprints_only_logs options m ex pr l)).
Qed.

(** The key of a footprint with a token is its first token. *)
Lemma sort_key_first_token fp :
  PyStr.blank (GetValue fp) = false ->
  exists rest, PyStr.split_ws (GetValue fp) = sort_key fp :: rest.
Proof.
  intros (k & ks & Hk)%split_ws_blank. exists ks. unfold sort_key.
  by rewrite Hk.
Qed.

(** C4, as the code has it.  When the classification raises no
    exception and every surviving footprint has a first token, the
    data rows of the emitted file are the rows of the priority group,
    then of the mapped group, then of the unmapped group, each group
    sorted on the first white-space-delimited token of the value:
    a permutation of the group, in the order of that key, with
    footprints of equal key in their order in the group. *)
Theorem groups_sorted_and_concatenated
    (f : string) (fps : list Footprint) (layer : Z) (X Y : float)
    (m : mapping) (ex pr : list string) (w : world) (g : groups) :
  (classify_footprints options m ex pr
     (filter (fun fp => GetLayer fp = layer) fps) w).1 = inr g ->
  (forall fp, fp ∈ survivors g -> PyStr.blank (GetValue fp) = false) ->
  exists priority mapped unmapped w',
    write_qihe_file options f fps layer X Y m ex pr w = (inr tt, w')
    /\ files w' !! f
       = Some (Csv.text
                 (header :: map (qihe_row m priority X Y) priority
                  ++ map (qihe_row m priority X Y) mapped
                  ++ map (qihe_row m priority X Y) unmapped
                  ++ trailer))
    /\ (priority ≡ₚ priority_footprints g
        /\ sorted_on sort_key priority
        /\ stable_on sort_key (priority_footprints g) priority)
    /\ (mapped ≡ₚ mapped_footprints g
        /\ sorted_on sort_key mapped
        /\ stable_on sort_key (mapped_footprints g) mapped)
    /\ (unmapped ≡ₚ unmapped_footprints g
        /\ sorted_on sort_key unmapped
        /\ stable_on sort_key (unmapped_footprints g) unmapped)
    /\ forall fp, fp ∈ survivors g ->
         exists rest, PyStr.split_ws (GetValue fp) = sort_key fp :: rest.
Proof.
  intros Hg%classify_outcome Hk.
  destruct (write_qihe_file_exported options f fps layer X Y m ex pr w)
    as [msgs Hrun].
  rewrite (exported_complete m ex pr X Y _ g Hg Hk) in Hrun.
  eexists _, _, _, _. split; [exact Hrun|].
  split; [simpl; by rewrite lookup_insert_eq|].
  repeat split;
    try apply sort_on_perm; try apply sort_on_sorted; try apply sort_on_stable.
  intros fp Hfp. by apply sort_key_first_token, Hk.
Qed.



End Emission.

Section Trailer.

Context `{Host}.
Variable options : Options.

Lemma body_outcome f fps layer X Y m ex pr w :
  (write_qihe_body options f fps layer X Y m ex pr w).1
  = (exported m ex pr X Y (filter (fun fp => GetLayer fp = layer) fps)).1.
Proof.
  by destruct (write_qihe_body_exported options f fps layer X Y m ex pr w)
    as [msgs ->].
Qed.

(** A complete export comes from a classification whose survivors all
    have a key. *)
Lemma exported_ok m ex pr X Y l :
  (exported m ex pr X Y l).1 = inr tt ->
  exists g,
    classified m ex pr (Groups [] [] [] [] []) l = inr g
    /\ forall fp, fp ∈ survivors g -> PyStr.blank (GetValue fp) = false.
Proof.
  unfold exported.
  destruct (classified m ex pr (Groups [] [] [] [] []) l) as [e|g]; [done|].
  destruct (existsb keyless (priority_footprints g)) eqn:EP; [done|].
  destruct (existsb keyless (mapped_footprints g)) eqn:EM; [done|].
  destruct (existsb keyless (unmapped_footprints g)) eqn:EU; [done|].
  intros _. exists g. split; [done|].
  intros fp Hfp. apply not_true_is_false. intros Hb.
  unfold survivors in Hfp. rewrite !elem_of_app in Hfp.
  destruct Hfp as [Hfp|[Hfp|Hfp]];
    pose proof (existsb_keyless_true _ fp Hfp Hb); congruence.
Qed.

(** C6, as the code has it.  When the body of [write_qihe_file] raises
    no exception, the emitted file is the header, the rows of the
    surviving footprints and the trailer: it ends with the trailer,
    and with no surviving footprint it is the header and the trailer.
    With no footprint on the layer the body raises nothing and the
    file is exactly the header followed by the trailer.  The trailer
    is an empty row, the row "Puzzle", eight times a row "0.00" and an
    empty row, and two empty rows. *)
Theorem trailer_after_complete_export
    (f : string) (fps : list Footprint) (layer : Z) (X Y : float)
    (m : mapping) (ex pr : list string) (w : world) :
  ((write_qihe_body options f fps layer X Y m ex pr w).1 = inr tt ->
   exists g written priority w',
     (classify_footprints options m ex pr
        (filter (fun fp => GetLayer fp = layer) fps) w).1 = inr g
     /\ written ≡ₚ survivors g
     /\ write_qihe_file options f fps layer X Y m ex pr w = (inr tt, w')
     /\ files w' !! f
        = Some (Csv.text
                  (header :: map (qihe_row m priority X Y) written ++ trailer))
     /\ ends_with (Csv.text trailer)
          (Csv.text (header :: map (qihe_row m priority X Y) written ++ trailer))
     /\ (survivors g = [] ->
         files w' !! f = Some (Csv.text (header :: trailer))))
  /\ (filter (fun fp => GetLayer fp = layer) fps = [] ->
      (write_qihe_body options f fps layer X Y m ex pr w).1 = inr tt
      /\ files (write_qihe_file options f fps layer X Y m ex pr w).2 !! f
         = Some (Csv.text (header :: trailer)))
  /\ trailer
     = [[]; ["Puzzle"];
        ["0.00"]; []; ["0.00"]; []; ["0.00"]; []; ["0.00"]; [];
        ["0.00"]; []; ["0.00"]; []; ["0.00"]; []; ["0.00"]; [];
        []; []].
Proof.
  split; [|split; [|reflexivity]].
  - rewrite body_outcome. intros Hok.
    destruct (exported_ok _ _ _ _ _ _ Hok) as (g & Hg & Hk).
    destruct (write_qihe_file_exported options f fps layer X Y m ex pr w)
      as [msgs Hrun].
    rewrite (exported_complete m ex pr X Y _ g Hg Hk) in Hrun.
    cbn [fst snd] in Hrun.
    exists g,
      (sort_on sort_key (priority_footprints g)
       ++ sort_on sort_key (mapped_footprints g)
       ++ sort_on sort_key (unmapped_footprints g)),
      (sort_on sort_key (priority_footprints g)).
    eexists. split.
    { by rewrite (only_logs_outcome _ _ w
                    (classify_footprints_only_logs options m ex pr _)). }
    split; [unfold survivors; by rewrite !sort_on_perm|].
    split; [exact Hrun|].
    rewrite !map_app, <- !app_assoc.
    split; [simpl; by rewrite lookup_insert_eq|].
    split.
    { rewrite !app_assoc, app_comm_cons. apply ends_with_trailer. }
    intros Hs. unfold survivors in Hs.
    apply app_eq_nil in Hs as [-> [-> ->]%app_eq_nil].
    simpl. by rewrite lookup_insert_eq.
  - intros Hl. rewrite body_outcome.
    destruct (write_qihe_file_exported options f fps layer X Y m ex pr w)
      as [msgs ->].
    rewrite Hl. split; [reflexivity|].
    simpl. by rewrite lookup_insert_eq.
Qed.

(** C7. A footprint of the unmapped group has a value that is no key
    of the table, and the row written for it carries the nozzle "1/2"
    and the stack "None" after its designator; when the export is
    complete this row is in the emitted file. *)
Theorem unmapped_rows_default
    (f : string) (fps : list Footprint) (layer : Z) (X Y : float)
    (m : mapping) (ex pr : list string) (w : world) (g : groups)
    (fp : Footprint) :
  (classify_footprints options m ex pr
     (filter (fun fp => GetLayer fp = layer) fps) w).1 = inr g ->
  fp ∈ unmapped_footprints g ->
  PyDict.get (GetValue fp) m = None
  /\ (forall priority,
        take 3 (qihe_row m priority X Y fp) = [GetReference fp; "1/2"; "None"])
  /\ ((write_qihe_body options f fps layer X Y m ex pr w).1 = inr tt ->
      exists priority before after w',
        write_qihe_file options f fps layer X Y m ex pr w = (inr tt, w')
        /\ files w' !! f
           = Some (Csv.text
                     (header :: before ++ qihe_row m priority X Y fp :: after
                      ++ trailer))).
Proof.
  intros Hg%classify_outcome Hfp.
  assert (PyDict.get (GetValue fp) m = None) as Hnone.
  { pose proof (classified_from_empty m ex pr _ g Hg) as (_ & _ & Hu & _).
    rewrite Hu in Hfp. apply elem_of_in_category in Hfp as [_ Hc].
    unfold category_of, PyDict.contains in Hc.
    destruct (attribute_excluded fp); [done|].
    destruct (first_match ex (GetValue fp)) as [?|[?|]]; try done.
    destruct (first_match pr (GetValue fp)) as [?|[?|]]; try done.
    by destruct (PyDict.get (GetValue fp) m). }
  split; [exact Hnone|]. split.
  { intros priority. unfold qihe_row, PyDict.get_default. by rewrite Hnone. }
  rewrite body_outcome. intros Hok.
  destruct (exported_ok _ _ _ _ _ _ Hok) as (g' & Hg' & Hk).
  assert (g' = g) as -> by congruence.
  destruct (write_qihe_file_exported options f fps layer X Y m ex pr w)
    as [msgs Hrun].
  rewrite (exported_complete m ex pr X Y _ g Hg Hk) in Hrun.
  cbn [fst snd] in Hrun.
  apply (elem_of_sort_on sort_key) in Hfp.
  apply list_elem_of_split in Hfp as (u1 & u2 & Hu).
  rewrite Hu in Hrun.
  set (P := sort_on sort_key (priority_footprints g)) in *.
  set (Mp := sort_on sort_key (mapped_footprints g)) in *.
  exists P,
    (map (qihe_row m P X Y) P ++ map (qihe_row m P X Y) Mp
     ++ map (qihe_row m P X Y) u1),
    (map (qihe_row m P X Y) u2).
  eexists. split; [exact Hrun|].
  cbn [snd files add_log set_file]. rewrite lookup_insert_eq.
  rewrite map_app. cbn [map]. by rewrite <- !app_assoc.
Qed.

(** C10. A surviving footprint whose value is empty or white space has
    no first token: taking its sort key raises [IndexError], the body
    of [write_qihe_file] stops with it, and the handler logs the error
    as the last message.  The emitted file is the header and the rows
    of groups sorted before: it has no row for a footprint without a
    key and it does not end with the trailer. *)
Theorem sort_key_needs_a_token
    (f : string) (fps : list Footprint) (layer : Z) (X Y : float)
    (m : mapping) (ex pr : list string) (w : world) (g : groups)
    (fp : Footprint) :
  (classify_footprints options m ex pr
     (filter (fun fp => GetLayer fp = layer) fps) w).1 = inr g ->
  fp ∈ survivors g ->
  PyStr.blank (GetValue fp) = true ->
  PyStr.split_ws (GetValue fp) = []
  /\ (forall w0, get_sort_key options fp w0 = (inl IndexError, w0))
  /\ (write_qihe_body options f fps layer X Y m ex pr w).1 = inl IndexError
  /\ exists written priority msgs w',
       write_qihe_file options f fps layer X Y m ex pr w = (inr tt, w')
       /\ activity_log w'
          = activity_log w ++ msgs
            ++ ["Error writing to file " +:+ f
                +:+ ": list index out of range"]
       /\ files w' !! f
          = Some (Csv.text (header :: map (qihe_row m priority X Y) written))
       /\ (forall x, x ∈ written -> PyStr.blank (GetValue x) = false)
       /\ ~ ends_with (Csv.text trailer)
              (Csv.text (header :: map (qihe_row m priority X Y) written)).
Proof.
  intros Hg%classify_outcome Hfp Hb.
  assert (PyStr.split_ws (GetValue fp) = []) as Hnil by by apply split_ws_nil.
  split; [exact Hnil|]. split.
  { intros w0. unfold get_sort_key. by rewrite Hnil. }
  destruct (exported_keyless m ex pr X Y _ g fp Hg Hfp Hb)
    as (written & priority & Hexp & Hclean).
  split; [by rewrite body_outcome, Hexp|].
  destruct (write_qihe_file_exported options f fps layer X Y m ex pr w)
    as [msgs Hrun].
  rewrite Hexp in Hrun. cbn [fst snd str_exn] in Hrun.
  exists written, priority, msgs. eexists.
  split; [exact Hrun|]. split; [done|].
  split; [simpl; by rewrite lookup_insert_eq|].
  split; [exact Hclean|].
  apply header_and_data_not_trailer.
Qed.

End Trailer.

(* ===================================================================== *)
(** * The run as a whole *)
(* ===================================================================== *)

Section Run.

Context `{Host}.
Variable options : Options.

(** The body of [write_qihe_file] raises nothing exactly when the
    classification raises nothing and every survivor has a key. *)
Lemma write_qihe_body_completes f fps layer X Y m ex pr w :
  (write_qihe_body options f fps layer X Y m ex pr w).1 = inr tt
  <-> exists g,
        (classify_footprints options m ex pr
           (filter (fun fp => GetLayer fp = layer) fps) w).1 = inr g
        /\ forall fp, fp ∈ survivors g -> PyStr.blank (GetValue fp) = false.
Proof.
  rewrite body_outcome.
  rewrite (only_logs_outcome _ _ w
             (classify_footprints_only_logs options m ex pr _)).
  split.
  - apply exported_ok.
  - intros (g & Hg & Hk). by rewrite (exported_complete m ex pr X Y _ g Hg Hk).
Qed.

(** A footprint of the mapped or of the unmapped group is no member
    of the priority list, however the footprints of pcbnew compare:
    footprints that the accessors cannot tell apart fall in the same
    group. *)
Lemma not_in_priority m ex pr l g fp :
  classified m ex pr (Groups [] [] [] [] []) l = inr g ->
  fp ∈ mapped_footprints g ++ unmapped_footprints g ->
  fp ∉ sort_on sort_key (priority_footprints g).
Proof.
  intros (Hp & Hm & Hu & _)%classified_from_empty Hfp.
  rewrite elem_of_sort_on, Hp, elem_of_in_category.
  rewrite Hm, Hu, elem_of_app, !elem_of_in_category in Hfp.
  intros [_ Hc]. destruct Hfp as [[_ Hc']|[_ Hc']]; congruence.
Qed.

(** The explanation of a row: "PRIO " comes first exactly for the
    members of the priority list. *)
Lemma explanation_written m priority X Y fp :
  qihe_row m priority X Y fp !! 10
  = Some ((if bool_decide (fp ∈ priority) then "PRIO " else "")
          +:+ GetValue fp +:+ " " +:+ GetReference fp).
Proof.
  unfold qihe_row.
  destruct (PyDict.get_default (GetValue fp) ("1/2", "None") m).
  by destruct (bool_decide (fp ∈ priority)).
Qed.

Lemma load_returns filename w :
  exists t w', load_component_mapping options filename w = (inr t, w').
Proof.
  destruct (files w !! filename) as [content|] eqn:Hf.
  - destruct (load_present options filename content w Hf) as [msgs ->]. eauto.
  - destruct (load_absent options filename w Hf) as [msgs ->]. eauto.
Qed.

Lemma write_qihe_file_returns f fps layer X Y m ex pr w :
  exists w', write_qihe_file options f fps layer X Y m ex pr w = (inr tt, w').
Proof.
  destruct (write_qihe_file_exported options f fps layer X Y m ex pr w)
    as [msgs ->]. eauto.
Qed.

Lemma generate_qihe_files_returns board t w :
  exists w', generate_qihe_files options board t w = (inr tt, w').
Proof.
  unfold generate_qihe_files.
  erewrite bind_inr by apply log_activity_eq.
  destruct (load_returns (get_mapping_file_path options)
              (add_log ["Generating QIHE files:" +:+ PyStr.nl +:+ " "] w))
    as (t' & w1 & E1).
  rewrite (bind_inr _ _ _ _ _ E1).
  destruct (process_top_layer options), (process_bottom_layer options);
    cbn [negb andb when].
  - destruct (write_qihe_file_returns
                (path_join (path_dirname (GetFileName board))
                           ((path_splitext (path_basename (GetFileName board))).1
                            +:+ "_" +:+ top_fileext options +:+ ".csv"))
                (GetFootprints board) F_Cu (of_Z 0) (of_Z 0)
                (component_mapping t) (exclude_patterns t)
                (priority_patterns t) w1) as [w2 E2].
    erewrite bind_inr; cycle 1.
    { rewrite (bind_inr _ _ _ _ _ E2). apply log_activity_eq. }
    destruct (write_qihe_file_returns
                (path_join (path_dirname (GetFileName board))
                           ((path_splitext (path_basename (GetFileName board))).1
                            +:+ "_" +:+ bottom_fileext options +:+ ".csv"))
                (GetFootprints board) B_Cu (of_Z 0) (of_Z 0)
                (component_mapping t) (exclude_patterns t)
                (priority_patterns t)
                (add_log ["Processed top layer."] w2)) as [w3 E3].
    rewrite (bind_inr _ _ _ _ _ E3). rewrite log_activity_eq. eauto.
  - destruct (write_qihe_file_returns
                (path_join (path_dirname (GetFileName board))
                           ((path_splitext (path_basename (GetFileName board))).1
                            +:+ "_" +:+ top_fileext options +:+ ".csv"))
                (GetFootprints board) F_Cu (of_Z 0) (of_Z 0)
                (component_mapping t) (exclude_patterns t)
                (priority_patterns t) w1) as [w2 E2].
    erewrite bind_inr; cycle 1.
    { rewrite (bind_inr _ _ _ _ _ E2). apply log_activity_eq. }
    eauto.
  - unfold bind at 1. unfold ret at 1.
    destruct (write_qihe_file_returns
                (path_join (path_dirname (GetFileName board))
                           ((path_splitext (path_basename (GetFileName board))).1
                            +:+ "_" +:+ bottom_fileext options +:+ ".csv"))
                (GetFootprints board) B_Cu (of_Z 0) (of_Z 0)
                (component_mapping t) (exclude_patterns t)
                (priority_patterns t) w1) as [w3 E3].
    rewrite (bind_inr _ _ _ _ _ E3). rewrite log_activity_eq. eauto.
  - rewrite log_activity_eq. eauto.
Qed.

(** No exception leaves the body of [run]: its handler is not reached. *)
Lemma run_returns w : exists w', run options w = (inr tt, w').
Proof.
  unfold run.
  erewrite bind_inr by apply log_activity_eq.
  destruct GetBoard as [board|].
  - erewrite bind_inr by apply log_activity_eq.
    erewrite bind_inr by apply log_activity_eq.
    destruct (load_returns (get_mapping_file_path options)
                (add_log
                   ["Using component mapping file at: "
                    +:+ get_mapping_file_path options]
                   (add_log ["Board loaded successfully."]
                      (add_log ["Starting QiHeProcess run method"] w))))
      as (t & w1 & E1).
    rewrite (bind_inr _ _ _ _ _ E1).
    apply generate_qihe_files_returns.
  - rewrite log_activity_eq. eauto.
Qed.

End Run.

(* ===================================================================== *)
(** * The sample board *)
(* ===================================================================== *)

(** C4 on the top layer of the sample board. *)
Lemma groups_sorted_and_concatenated_witness :
  (classify_footprints (H:=Sample.host) (Sample.options 0) Sample.table
     ["NC"; "TP"] ["FIDUCIAL"; "TESTPOINT"]
     (filter (fun fp => GetLayer fp = 0%Z) (GetFootprints Sample.board))
     Sample.empty_world).1 = inr Sample.top_groups
  /\ Forall (fun fp => PyStr.blank (GetValue fp) = false)
            (survivors Sample.top_groups)
  /\ exists priority mapped unmapped w',
       write_qihe_file (H:=Sample.host) (Sample.options 0) "top.csv"
         (GetFootprints Sample.board) 0 (of_Z 0) (of_Z 0) Sample.table
         ["NC"; "TP"] ["FIDUCIAL"; "TESTPOINT"] Sample.empty_world = (inr tt, w')
       /\ files w' !! "top.csv"
          = Some (Csv.text
                    (header :: map (qihe_row Sample.table priority (of_Z 0) (of_Z 0))
                                   priority
                     ++ map (qihe_row Sample.table priority (of_Z 0) (of_Z 0)) mapped
                     ++ map (qihe_row Sample.table priority (of_Z 0) (of_Z 0))
                            unmapped
                     ++ trailer))
       /\ sorted_on sort_key unmapped
       /\ stable_on sort_key (unmapped_footprints Sample.top_groups) unmapped.
Proof.
  assert ((classify_footprints (H:=Sample.host) (Sample.options 0) Sample.table
             ["NC"; "TP"] ["FIDUCIAL"; "TESTPOINT"]
             (filter (fun fp => GetLayer fp = 0%Z) (GetFootprints Sample.board))
             Sample.empty_world).1 = inr Sample.top_groups) as H1.
  { vm_compute. reflexivity. }
  assert (Forall (fun fp => PyStr.blank (GetValue fp) = false)
                 (survivors Sample.top_groups)) as H2.
  { repeat constructor. }
  split; [exact H1|]. split; [exact H2|].
  destruct (groups_sorted_and_concatenated (H:=Sample.host) (Sample.options 0)
              "top.csv" (GetFootprints Sample.board) 0 (of_Z 0) (of_Z 0)
              Sample.table ["NC"; "TP"] ["FIDUCIAL"; "TESTPOINT"]
              Sample.empty_world Sample.top_groups H1
              (proj1 (Forall_forall _ _) H2))
    as (priority & mapped & unmapped & w' & Hrun & Hfile & _ & _ & (_ & Hs & Hst) & _).
  exists priority, mapped, unmapped, w'.
  exact (conj Hrun (conj Hfile (conj Hs Hst))).
Defined.

(** A common beginning of two texts can be taken off. *)
Lemma append_inv_head (s a b : string) : s +:+ a = s +:+ b -> a = b.
Proof.
  induction s as [|c s IH]; [by rewrite !append_empty_l|].
  rewrite !append_cons. intros [= Heq]. by apply IH.
Qed.

Lemma text_cons (r : list string) (rows : list (list string)) :
  Csv.text (r :: rows) = Csv.row r +:+ Csv.text rows.
Proof. reflexivity. Qed.

(** C4 fails as stated: on a layer with C1 and the footprint U1, whose
    value is empty, both footprints survive the classification, C1 in
    the mapped group and U1 in the unmapped group, but the emitted file
    holds the header and the row of C1 alone.  Whatever rows are taken
    to follow, the file is not the concatenation of the rows of the
    three groups: the surviving footprint U1 has no row. *)
Lemma keyless_survivor_counterexample :
  (classify_footprints (H:=Sample.host) (Sample.options 0) Sample.table
     ["NC"; "TP"] ["FIDUCIAL"; "TESTPOINT"]
     (filter (fun fp => GetLayer fp = 0%Z) [Sample.C1; Sample.U1])
     Sample.empty_world).1 = inr (Groups [] [Sample.C1] [Sample.U1] [] [])
  /\ files (write_qihe_file (H:=Sample.host) (Sample.options 0) "top.csv"
              [Sample.C1; Sample.U1] 0 (of_Z 0) (of_Z 0) Sample.table
              ["NC"; "TP"] ["FIDUCIAL"; "TESTPOINT"] Sample.empty_world).2
       !! "top.csv"
     = Some (Csv.text
               [header; qihe_row Sample.table [] (of_Z 0) (of_Z 0) Sample.C1])
  /\ ~ exists priority mapped unmapped rest,
         priority ≡ₚ [] /\ mapped ≡ₚ [Sample.C1] /\ unmapped ≡ₚ [Sample.U1]
         /\ files (write_qihe_file (H:=Sample.host) (Sample.options 0) "top.csv"
                     [Sample.C1; Sample.U1] 0 (of_Z 0) (of_Z 0) Sample.table
                     ["NC"; "TP"] ["FIDUCIAL"; "TESTPOINT"]
                     Sample.empty_world).2 !! "top.csv"
            = Some (Csv.text
                      (header
                       :: map (qihe_row Sample.table priority (of_Z 0) (of_Z 0))
                              priority
                       ++ map (qihe_row Sample.table priority (of_Z 0) (of_Z 0))
                              mapped
                       ++ map (qihe_row Sample.table priority (of_Z 0) (of_Z 0))
                              unmapped
                       ++ rest)).
Proof.
  assert (files (write_qihe_file (H:=Sample.host) (Sample.options 0) "top.csv"
                   [Sample.C1; Sample.U1] 0 (of_Z 0) (of_Z 0) Sample.table
                   ["NC"; "TP"] ["FIDUCIAL"; "TESTPOINT"] Sample.empty_world).2
            !! "top.csv"
          = Some (Csv.text
                    [header; qihe_row Sample.table [] (of_Z 0) (of_Z 0) Sample.C1]))
    as Hfile.
  { vm_compute. reflexivity. }
  split; [vm_compute; reflexivity|]. split; [exact Hfile|].
  intros (priority & mapped & unmapped & rest & Hp & Hm & Hu & Hf).
  apply Permutation_sym, Permutation_nil in Hp.
  apply Permutation_sym, Permutation_length_1_inv in Hm, Hu.
  subst priority mapped unmapped.
  assert (exists c s,
            Csv.row (qihe_row Sample.table [] (of_Z 0) (of_Z 0) Sample.U1)
            = String c s) as (c & s & Hrow).
  { vm_compute. eauto. }
  rewrite Hfile in Hf. clear Hfile.
  cbn [map app] in Hf.
  generalize dependent (qihe_row Sample.table [] (of_Z 0) (of_Z 0) Sample.U1).
  generalize (qihe_row Sample.table [] (of_Z 0) (of_Z 0) Sample.C1).
  intros rc ru Hf Hrow. apply (inj Some) in Hf.
  rewrite !text_cons in Hf.
  do 2 apply append_inv_head in Hf.
  rewrite Hrow, append_cons in Hf. discriminate Hf.
Qed.

(** C6, as the code has it, on the top layer of the sample board. *)
Lemma trailer_after_complete_export_witness :
  (write_qihe_body (H:=Sample.host) (Sample.options 0) "top.csv"
     (GetFootprints Sample.board) 0 (of_Z 0) (of_Z 0) Sample.table
     ["NC"; "TP"] ["FIDUCIAL"; "TESTPOINT"] Sample.empty_world).1 = inr tt
  /\ exists written priority w',
       write_qihe_file (H:=Sample.host) (Sample.options 0) "top.csv"
         (GetFootprints Sample.board) 0 (of_Z 0) (of_Z 0) Sample.table
         ["NC"; "TP"] ["FIDUCIAL"; "TESTPOINT"] Sample.empty_world = (inr tt, w')
       /\ files w' !! "top.csv"
          = Some (Csv.text
                    (header :: map (qihe_row Sample.table priority (of_Z 0) (of_Z 0))
                                   written ++ trailer)).
Proof.
  assert ((write_qihe_body (H:=Sample.host) (Sample.options 0) "top.csv"
             (GetFootprints Sample.board) 0 (of_Z 0) (of_Z 0) Sample.table
             ["NC"; "TP"] ["FIDUCIAL"; "TESTPOINT"] Sample.empty_world).1 = inr tt)
    as H1.
  { vm_compute. reflexivity. }
  split; [exact H1|].
  destruct (proj1 (trailer_after_complete_export (H:=Sample.host)
                     (Sample.options 0) "top.csv" (GetFootprints Sample.board) 0
                     (of_Z 0) (of_Z 0) Sample.table ["NC"; "TP"]
                     ["FIDUCIAL"; "TESTPOINT"] Sample.empty_world) H1)
    as (g & written & priority & w' & _ & _ & Hrun & Hfile & _).
  exists written, priority, w'. exact (conj Hrun Hfile).
Defined.

(** C6 fails as stated: with one footprint whose value is empty on the
    layer, the emitted file is the header alone and does not end with
    the trailer. *)
Lemma trailer_missing_counterexample :
  files (write_qihe_file (H:=Sample.host) (Sample.options 0) "top.csv"
           [Sample.U1] 0 (of_Z 0) (of_Z 0) [] [] [] Sample.empty_world).2
    !! "top.csv"
  = Some (Csv.text [header])
  /\ ~ ends_with (Csv.text trailer) (Csv.text [header])
  /\ last (activity_log
             (write_qihe_file (H:=Sample.host) (Sample.options 0) "top.csv"
                [Sample.U1] 0 (of_Z 0) (of_Z 0) [] [] [] Sample.empty_world).2)
     = Some "Error writing to file top.csv: list index out of range".
Proof.
  split; [vm_compute; reflexivity|]. split; [|vm_compute; reflexivity].
  intros Hends%ends_withb_spec. vm_compute in Hends. discriminate.
Qed.

(** C7 on the sample board: R1, whose value "10k 1%" is no key. *)
Lemma unmapped_rows_default_witness :
  (classify_footprints (H:=Sample.host) (Sample.options 0) Sample.table
     ["NC"; "TP"] ["FIDUCIAL"; "TESTPOINT"]
     (filter (fun fp => GetLayer fp = 0%Z) (GetFootprints Sample.board))
     Sample.empty_world).1 = inr Sample.top_groups
  /\ Sample.R1 ∈ unmapped_footprints Sample.top_groups
  /\ PyDict.get (GetValue Sample.R1) Sample.table = None
  /\ take 3 (qihe_row Sample.table [] (of_Z 0) (of_Z 0) Sample.R1)
     = ["R1"; "1/2"; "None"].
Proof.
  assert ((classify_footprints (H:=Sample.host) (Sample.options 0) Sample.table
             ["NC"; "TP"] ["FIDUCIAL"; "TESTPOINT"]
             (filter (fun fp => GetLayer fp = 0%Z) (GetFootprints Sample.board))
             Sample.empty_world).1 = inr Sample.top_groups) as H1.
  { vm_compute. reflexivity. }
  assert (Sample.R1 ∈ unmapped_footprints Sample.top_groups) as H2.
  { apply list_elem_of_In. simpl. tauto. }
  split; [exact H1|]. split; [exact H2|].
  destruct (unmapped_rows_default (H:=Sample.host) (Sample.options 0) "top.csv"
              (GetFootprints Sample.board) 0 (of_Z 0) (of_Z 0) Sample.table
              ["NC"; "TP"] ["FIDUCIAL"; "TESTPOINT"] Sample.empty_world
              Sample.top_groups Sample.R1 H1 H2) as (Hnone & Hrow & _).
  split; [exact Hnone | exact (Hrow [])].
Defined.

(** C10 on a layer with C1 and the footprint U1, whose value is empty:
    the row of C1 is written, then sorting the unmapped group fails. *)
Lemma sort_key_needs_a_token_witness :
  (classify_footprints (H:=Sample.host) (Sample.options 0) Sample.table
     ["NC"; "TP"] ["FIDUCIAL"; "TESTPOINT"]
     (filter (fun fp => GetLayer fp = 0%Z) [Sample.C1; Sample.U1])
     Sample.empty_world).1 = inr (Groups [] [Sample.C1] [Sample.U1] [] [])
  /\ Sample.U1 ∈ survivors (Groups [] [Sample.C1] [Sample.U1] [] [])
  /\ PyStr.blank (GetValue Sample.U1) = true
  /\ (write_qihe_body (H:=Sample.host) (Sample.options 0) "top.csv"
        [Sample.C1; Sample.U1] 0 (of_Z 0) (of_Z 0) Sample.table
        ["NC"; "TP"] ["FIDUCIAL"; "TESTPOINT"] Sample.empty_world).1
     = inl IndexError.
Proof.
  assert ((classify_footprints (H:=Sample.host) (Sample.options 0) Sample.table
             ["NC"; "TP"] ["FIDUCIAL"; "TESTPOINT"]
             (filter (fun fp => GetLayer fp = 0%Z) [Sample.C1; Sample.U1])
             Sample.empty_world).1 = inr (Groups [] [Sample.C1] [Sample.U1] [] []))
    as H1.
  { vm_compute. reflexivity. }
  assert (Sample.U1 ∈ survivors (Groups [] [Sample.C1] [Sample.U1] [] [])) as H2.
  { apply list_elem_of_In. simpl. tauto. }
  assert (PyStr.blank (GetValue Sample.U1) = true) as H3 by reflexivity.
  split; [exact H1|]. split; [exact H2|]. split; [exact H3|].
  exact (proj1 (proj2 (proj2
           (sort_key_needs_a_token (H:=Sample.host) (Sample.options 0) "top.csv"
              [Sample.C1; Sample.U1] 0 (of_Z 0) (of_Z 0) Sample.table
              ["NC"; "TP"] ["FIDUCIAL"; "TESTPOINT"] Sample.empty_world
              (Groups [] [Sample.C1] [Sample.U1] [] []) Sample.U1 H1 H2 H3)))).
Defined.

(** The whole run on the sample board, with its mapping file in the
    folder of the board: the two files written.  R1 and R2 have the key
    "10k" and keep their order, which the full values would reverse. *)
Example run_sample_board :
  let w := (run (H:=Sample.host) (Sample.options 0)
              (World {["/home/user/project/component_mapping.txt"
                       := Sample.mapping_text]} [])).2 in
  files w !! "/home/user/project/board_TOP-COORDS.csv"
  = Some (Csv.text
            ([ header;
               ["FID1"; "1/2"; "None"; "0.00"; "0.00"; "270.00";
                "0.00"; "100"; "None"; "True"; "PRIO Fiducial FID1"];
               ["C1"; "2"; "B3"; "12.35"; "-2.50"; "0.00";
                "0.00"; "100"; "None"; "True"; "100nF C1"];
               ["R3"; "2"; "B3"; "5.00"; "2.00"; "315.00";
                "0.00"; "100"; "None"; "True"; "4k7 R3"];
               ["R1"; "1/2"; "None"; "1.00"; "2.00"; "270.00";
                "0.00"; "100"; "None"; "True"; "10k 1% R1"];
               ["R2"; "1/2"; "None"; "3.00"; "2.00"; "90.00";
                "0.00"; "100"; "None"; "True"; "10k 0603 R2"] ]
             ++ trailer))
  /\ files w !! "/home/user/project/board_BOTTOM-COORDS.csv"
     = Some (Csv.text
               ([ header;
                  ["B1"; "2"; "B3"; "1.00"; "1.00"; "180.00";
                   "0.00"; "100"; "None"; "True"; "100nF B1"] ]
                ++ trailer)).
Proof. vm_compute. split; reflexivity. Qed.

Example python_strings :
  PyStr.strip "  L1 " = "L1"
  /\ PyStr.split ":" "0n1:100nF" = ["0n1"; "100nF"]
  /\ PyStr.split "," ",a," = [""; "a"; ""]
  /\ PyStr.split_ws "  10k  0603 x " = ["10k"; "0603"; "x"]
  /\ PyStr.readlines ("a" +:+ PyStr.nl +:+ "b" +:+ String PyStr.CR PyStr.nl +:+ "c")
     = ["a" +:+ PyStr.nl; "b" +:+ PyStr.nl; "c"]
  /\ PyStr.of_Z (-31) = "-31".
Proof. repeat split; reflexivity. Qed.

Example python_floats :
  format_2f (div (of_Z 1) (of_Z 8)) = "0.12"
  /\ format_2f (div (of_Z 3) (of_Z 8)) = "0.38"
  /\ format_2f (div (of_Z (-4999)) (of_Z 1000000)) = "-0.00"
  /\ format_2f (rem (of_Z (-90)) (of_Z 360)) = "270.00"
  /\ rem (of_Z (-720)) (of_Z 360) = S754_zero false.
Proof. repeat split; vm_compute; reflexivity. Qed.

Example exclude_line :
  parsed_line (Tables [] [] []) "E, , NC:TP" = Tables [] ["NC"; "TP"] [].
Proof. reflexivity. Qed.

(** A footprint of value "NC" is excluded by the pattern "NC" although
    a priority pattern matches it and the table has its value as a key. *)
Example nc_excluded_first :
  category_of (H:=Sample.host) [("NC", ("1", "L1"))] ["NC"; "TP"] ["NC"]
    (Sample.footprint "R9" "NC" 0 0 0 0 2)
  = inr ExcludedByPattern
  /\ (classify_footprints (H:=Sample.host) (Sample.options 0)
        [("NC", ("1", "L1"))] ["NC"; "TP"] ["NC"]
        [Sample.footprint "R9" "NC" 0 0 0 0 2] Sample.empty_world).1
     = inr (Groups [] [] [] [Sample.footprint "R9" "NC" 0 0 0 0 2] []).
Proof. split; vm_compute; reflexivity. Qed.

(* ===================================================================== *)
(** * The files a run leaves *)
(* ===================================================================== *)

Section FilesOfARun.

Context `{Host}.
Variable options : Options.

Lemma load_files filename w :
  exists w',
    load_component_mapping options filename w
    = (inr (loaded_tables filename (files w)), w')
    /\ files w' = loaded_files filename (files w).
Proof.
  unfold loaded_tables, loaded_files.
  destruct (files w !! filename) as [content|] eqn:Hf.
  - destruct (load_present options filename content w Hf) as [msgs ->]. eauto.
  - destruct (load_absent options filename w Hf) as [msgs ->]. eauto.
Qed.

Lemma loaded_files_idem path fs :
  loaded_files path (loaded_files path fs) = loaded_files path fs.
Proof.
  unfold loaded_files. destruct (fs !! path) eqn:E.
  - by rewrite E.
  - by rewrite lookup_insert_eq.
Qed.

Lemma loaded_tables_idem path fs :
  loaded_tables path (loaded_files path fs) = loaded_tables path fs.
Proof.
  unfold loaded_tables, loaded_files. destruct (fs !! path) eqn:E.
  - by rewrite E.
  - by rewrite lookup_insert_eq.
Qed.

Lemma write_files f fps layer X Y m ex pr w :
  exists w',
    write_qihe_file options f fps layer X Y m ex pr w = (inr tt, w')
    /\ files w'
       = <[f := Csv.text
                  (exported m ex pr X Y
                     (filter (fun fp => GetLayer fp = layer) fps)).2]>
           (files w).
Proof.
  destruct (write_qihe_file_exported options f fps layer X Y m ex pr w)
    as [msgs ->]. eauto.
Qed.

Lemma generate_files board t w :
  exists w',
    generate_qihe_files options board t w = (inr tt, w')
    /\ files w' = generated_files options board t (files w)
    /\ (process_top_layer options = false ->
        process_bottom_layer options = false ->
        last (activity_log w') = Some "No layer(s) selected.").
Proof.
  unfold generate_qihe_files, generated_files, exported_text, output_file.
  erewrite bind_inr by apply log_activity_eq.
  destruct (load_files (get_mapping_file_path options)
              (add_log ["Generating QIHE files:" +:+ PyStr.nl +:+ " "] w))
    as (w1 & E1 & F1).
  rewrite (bind_inr _ _ _ _ _ E1). cbn [files add_log] in F1. rewrite <- F1.
  destruct (process_top_layer options), (process_bottom_layer options);
    cbn [negb andb when].
  - destruct (write_files
                (path_join (path_dirname (GetFileName board))
                           ((path_splitext (path_basename (GetFileName board))).1
                            +:+ "_" +:+ top_fileext options +:+ ".csv"))
                (GetFootprints board) F_Cu (of_Z 0) (of_Z 0)
                (component_mapping t) (exclude_patterns t)
                (priority_patterns t) w1) as (w2 & E2 & F2).
    erewrite bind_inr; cycle 1.
    { rewrite (bind_inr _ _ _ _ _ E2). apply log_activity_eq. }
    destruct (write_files
                (path_join (path_dirname (GetFileName board))
                           ((path_splitext (path_basename (GetFileName board))).1
                            +:+ "_" +:+ bottom_fileext options +:+ ".csv"))
                (GetFootprints board) B_Cu (of_Z 0) (of_Z 0)
                (component_mapping t) (exclude_patterns t)
                (priority_patterns t)
                (add_log ["Processed top layer."] w2)) as (w3 & E3 & F3).
    rewrite (bind_inr _ _ _ _ _ E3). rewrite log_activity_eq.
    eexists. split; [reflexivity|]. split; [|done].
    cbn [files add_log] in *. by rewrite F3, F2.
  - destruct (write_files
                (path_join (path_dirname (GetFileName board))
                           ((path_splitext (path_basename (GetFileName board))).1
                            +:+ "_" +:+ top_fileext options +:+ ".csv"))
                (GetFootprints board) F_Cu (of_Z 0) (of_Z 0)
                (component_mapping t) (exclude_patterns t)
                (priority_patterns t) w1) as (w2 & E2 & F2).
    erewrite bind_inr; cycle 1.
    { rewrite (bind_inr _ _ _ _ _ E2). apply log_activity_eq. }
    eexists. split; [reflexivity|]. split; [|done].
    cbn [files add_log] in *. by rewrite F2.
  - unfold bind at 1. unfold ret at 1.
    destruct (write_files
                (path_join (path_dirname (GetFileName board))
                           ((path_splitext (path_basename (GetFileName board))).1
                            +:+ "_" +:+ bottom_fileext options +:+ ".csv"))
                (GetFootprints board) B_Cu (of_Z 0) (of_Z 0)
                (component_mapping t) (exclude_patterns t)
                (priority_patterns t) w1) as (w3 & E3 & F3).
    rewrite (bind_inr _ _ _ _ _ E3). rewrite log_activity_eq.
    eexists. split; [reflexivity|]. split; [|done].
    cbn [files add_log] in *. by rewrite F3.
  - rewrite log_activity_eq.
    eexists. split; [reflexivity|]. split; [done|].
    intros _ _. cbn [activity_log add_log]. apply last_snoc.
Qed.

Lemma generated_files_loaded board t fs :
  generated_files options board t
    (loaded_files (get_mapping_file_path options) fs)
  = generated_files options board t fs.
Proof. unfold generated_files. by rewrite loaded_files_idem. Qed.

Lemma run_files_eq w :
  exists w',
    run options w = (inr tt, w')
    /\ files w' = run_files options (files w)
    /\ (forall board, GetBoard = Some board ->
        process_top_layer options = false ->
        process_bottom_layer options = false ->
        last (activity_log w') = Some "No layer(s) selected.").
Proof.
  unfold run, run_files.
  erewrite bind_inr by apply log_activity_eq.
  destruct GetBoard as [board|].
  - erewrite bind_inr by apply log_activity_eq.
    erewrite bind_inr by apply log_activity_eq.
    destruct (load_files (get_mapping_file_path options)
                (add_log
                   ["Using component mapping file at: "
                    +:+ get_mapping_file_path options]
                   (add_log ["Board loaded successfully."]
                      (add_log ["Starting QiHeProcess run method"] w))))
      as (w1 & E1 & F1).
    rewrite (bind_inr _ _ _ _ _ E1). cbn [files add_log] in *.
    destruct (generate_files board
                (loaded_tables (get_mapping_file_path options) (files w)) w1)
      as (w2 & E2 & F2 & L2).
    exists w2. split; [exact E2|]. split.
    + by rewrite F2, F1, generated_files_loaded.
    + intros _ _. exact L2.
  - rewrite log_activity_eq. eexists. split; [reflexivity|]. split; [done|].
    intros board Hb. discriminate Hb.
Qed.

Lemma loaded_files_other path p fs :
  p <> path -> loaded_files path fs !! p = fs !! p.
Proof.
  intros Hp. unfold loaded_files. destruct (fs !! path); [done|].
  by rewrite lookup_insert_ne.
Qed.

Lemma generated_files_other board t p fs :
  p <> get_mapping_file_path options ->
  p <> output_file board (top_fileext options) ->
  p <> output_file board (bottom_fileext options) ->
  generated_files options board t fs !! p = fs !! p.
Proof.
  intros Hm Ht Hb. unfold generated_files.
  destruct (process_bottom_layer options), (process_top_layer options);
    rewrite ?lookup_insert_ne by done; by apply loaded_files_other.
Qed.

(** X16. With no layer selected the run writes no coordinate file: it
    loads the mapping file, creating the template when there is none,
    leaves every other file as it was, and its last message is
    "No layer(s) selected.". *)
Theorem no_layer_selected (board : Board) (w : world) :
  GetBoard = Some board ->
  process_top_layer options = false ->
  process_bottom_layer options = false ->
  exists w',
    run options w = (inr tt, w')
    /\ last (activity_log w') = Some "No layer(s) selected."
    /\ (forall content,
          files w !! get_mapping_file_path options = Some content ->
          files w' = files w)
    /\ (files w !! get_mapping_file_path options = None ->
        files w'
        = <[get_mapping_file_path options := default_content]> (files w)).
Proof.
  intros Hb Ht Hbo.
  destruct (run_files_eq w) as (w' & E & F & L).
  exists w'. split; [exact E|]. split; [by apply (L board)|].
  unfold run_files, generated_files, loaded_files in F.
  rewrite Hb, Ht, Hbo in F.
  split.
  - intros content Hc. by rewrite Hc in F.
  - intros Hc. by rewrite Hc in F.
Qed.

(** X18. A run changes at most three files: the mapping file, which it
    creates when it is missing, and the files of the two layers.  Every
    other path holds after the run what it held before. *)
Theorem run_touches_only_its_files (w : world) (p : string) :
  p <> get_mapping_file_path options ->
  (forall board, GetBoard = Some board ->
     p <> output_file board (top_fileext options)
     /\ p <> output_file board (bottom_fileext options)) ->
  exists w',
    run options w = (inr tt, w') /\ files w' !! p = files w !! p.
Proof.
  intros Hm Hout.
  destruct (run_files_eq w) as (w' & E & F & _).
  exists w'. split; [exact E|]. rewrite F. unfold run_files.
  destruct GetBoard as [board|]; [|done].
  destruct (Hout board eq_refl). by apply generated_files_other.
Qed.

(** X17. When both layers are selected and the two suffixes are equal,
    both exports go to one path and the second replaces the first: the
    file holds what [write_qihe_file] writes for the bottom layer
    alone, and nothing of the top layer's export is kept. *)
Theorem same_suffix_bottom_wins
    (board : Board) (t : tables) (w w0 : world) :
  GetBoard = Some board ->
  process_top_layer options = true ->
  process_bottom_layer options = true ->
  top_fileext options = bottom_fileext options ->
  (load_component_mapping options (get_mapping_file_path options) w).1
  = inr t ->
  exists w',
    run options w = (inr tt, w')
    /\ files w' !! output_file board (top_fileext options)
       = files (write_qihe_file options
                  (output_file board (top_fileext options))
                  (GetFootprints board) B_Cu
                  (of_Z 0) (of_Z 0) (component_mapping t)
                  (exclude_patterns t) (priority_patterns t) w0).2
         !! output_file board (top_fileext options).
Proof.
  intros Hb Ht Hbo Hext Hload.
  destruct (load_files (get_mapping_file_path options) w) as (w1 & E1 & _).
  rewrite E1 in Hload. injection Hload as <-.
  set (t := loaded_tables (get_mapping_file_path options) (files w)).
  set (f := output_file board (top_fileext options)).
  destruct (run_files_eq w) as (w' & E & F & _).
  exists w'. split; [exact E|]. rewrite F. unfold run_files, generated_files.
  rewrite Hb, Ht, Hbo. fold t. rewrite <- Hext. fold f.
  destruct (write_files f (GetFootprints board) B_Cu (of_Z 0) (of_Z 0)
              (component_mapping t) (exclude_patterns t)
              (priority_patterns t) w0) as (w2 & -> & F1).
  cbn [snd]. rewrite F1, !lookup_insert_eq. done.
Qed.

(** X15. [write_qihe_file] returns normally on every input, gives the
    file a content that starts with the header row and depends neither
    on what the file held before nor on the rest of the world, and
    leaves every other file as it was. *)
Theorem write_qihe_file_overwrites
    (f : string) (fps : list Footprint) (layer : Z) (X Y : float)
    (m : mapping) (ex pr : list string) (w : world) :
  exists content rest w',
    write_qihe_file options f fps layer X Y m ex pr w = (inr tt, w')
    /\ files w' = <[f := content]> (files w)
    /\ content = Csv.row header +:+ rest
    /\ forall w2,
         files (write_qihe_file options f fps layer X Y m ex pr w2).2 !! f
         = Some content.
Proof.
  destruct (write_files f fps layer X Y m ex pr w) as (w' & E & F).
  destruct (exported_written m ex pr X Y
              (filter (fun fp => GetLayer fp = layer) fps))
    as (written & priority & rest & Hrows & _).
  eexists _, _, w'. split; [exact E|]. split; [exact F|]. split.
  - rewrite Hrows. reflexivity.
  - intros w2.
    destruct (write_files f fps layer X Y m ex pr w2) as (w2' & -> & F2).
    cbn [snd]. by rewrite F2, lookup_insert_eq.
Qed.

End FilesOfARun.

Section Verbosity.

Context `{Host}.

(** X19. The verbosity level changes the activity log only: for every
    level the run leaves the same files with the same contents. *)
Theorem verbosity_changes_only_the_log
    (options : Options) (v : Z) (w : world) :
  files (run (set_verbosity_level v options) w).2
  = files (run options w).2.
Proof.
  destruct (run_files_eq options w) as (w1 & E1 & F1 & _).
  destruct (run_files_eq (set_verbosity_level v options) w)
    as (w2 & E2 & F2 & _).
  rewrite E1, E2. cbn [snd]. rewrite F1, F2. reflexivity.
Qed.

End Verbosity.

(* ===================================================================== *)
(** * Runs on the sample project *)
(* ===================================================================== *)

(** No layer selected, with the mapping file of the sample project in
    place. *)
Lemma no_layer_selected_witness :
  exists w',
    run (H:=Sample.host) (Scenario.options_with false false "TOP" "BOTTOM")
      Scenario.world = (inr tt, w')
    /\ last (activity_log w') = Some "No layer(s) selected."
    /\ files w' = files Scenario.world.
Proof.
  destruct (no_layer_selected (H:=Sample.host)
              (Scenario.options_with false false "TOP" "BOTTOM")
              Sample.board Scenario.world eq_refl eq_refl eq_refl)
    as (w' & Hrun & Hlast & Hsame & _).
  exists w'. split; [exact Hrun|]. split; [exact Hlast|].
  apply (Hsame Sample.mapping_text). vm_compute. reflexivity.
Defined.

(** A file of notes beside the board is left alone. *)
Lemma run_touches_only_its_files_witness :
  exists w',
    run (H:=Sample.host) (Sample.options 0) Scenario.world = (inr tt, w')
    /\ files w' !! "/home/user/project/notes.txt"
       = files Scenario.world !! "/home/user/project/notes.txt".
Proof.
  apply (run_touches_only_its_files (H:=Sample.host) (Sample.options 0)
           Scenario.world "/home/user/project/notes.txt").
  - vm_compute. discriminate.
  - intros board Hb. injection Hb as <-. split; vm_compute; discriminate.
Defined.

(** Both layers written to "board_COORDS.csv". *)
Lemma same_suffix_bottom_wins_witness :
  exists w',
    run (H:=Sample.host) (Scenario.options_with true true "COORDS" "COORDS")
      Scenario.world = (inr tt, w')
    /\ files w' !! "/home/user/project/board_COORDS.csv"
       = files (write_qihe_file (H:=Sample.host)
                  (Scenario.options_with true true "COORDS" "COORDS")
                  "/home/user/project/board_COORDS.csv"
                  (GetFootprints Sample.board) 31 (of_Z 0) (of_Z 0)
                  Sample.table ["NC"; "TP"] ["FIDUCIAL"; "TESTPOINT"]
                  Sample.empty_world).2
         !! "/home/user/project/board_COORDS.csv".
Proof.
  exact (same_suffix_bottom_wins (H:=Sample.host)
           (Scenario.options_with true true "COORDS" "COORDS")
           Sample.board
           (Tables Sample.table ["NC"; "TP"] ["FIDUCIAL"; "TESTPOINT"])
           Scenario.world Sample.empty_world
           eq_refl eq_refl eq_refl eq_refl
           ltac:(vm_compute; reflexivity)).
Defined.

(* ===================================================================== *)
(** * More on the mapping file *)
(* ===================================================================== *)

Section SplitAndJoin.

Lemma split_not_nil sep s : PyStr.split sep s <> [].
Proof.
  destruct s as [|c s]; simpl; [done|].
  destruct (Ascii.eqb c sep); [done|]. by destruct (PyStr.split sep s).
Qed.

Lemma join_cons sep x y l :
  PyStr.join sep (x :: y :: l) = x +:+ sep +:+ PyStr.join sep (y :: l).
Proof. reflexivity. Qed.

(** Joining what [split] gives with the separator gives the string
    back. *)
Lemma join_split sep s :
  PyStr.join (String sep "") (PyStr.split sep s) = s.
Proof.
  induction s as [|c s IH]; [done|]. simpl PyStr.split.
  destruct (Ascii.eqb_spec c sep) as [->|Hc].
  - pose proof (split_not_nil sep s) as Hne.
    destruct (PyStr.split sep s) as [|y l]; [done|].
    rewrite join_cons, IH. by rewrite append_empty_l, append_cons, append_empty_l.
  - pose proof (split_not_nil sep s) as Hne.
    destruct (PyStr.split sep s) as [|y l]; [done|].
    destruct l as [|z l].
    + simpl in *. by rewrite IH.
    + rewrite join_cons in *. by rewrite append_cons, IH.
Qed.

Lemma split_snoc sep s :
  PyStr.split sep (s +:+ String sep "") = PyStr.split sep s ++ [""].
Proof.
  induction s as [|c s IH].
  - rewrite append_empty_l. simpl. by rewrite Ascii.eqb_refl.
  - rewrite append_cons. simpl. destruct (Ascii.eqb c sep).
    + by rewrite IH.
    + rewrite IH. pose proof (split_not_nil sep s) as Hne.
      by destruct (PyStr.split sep s).
Qed.

End SplitAndJoin.

Section PatternLines.

Lemma eqb_E_P s : String.eqb s "E" = true -> String.eqb s "P" = false.
Proof. by intros ->%String.eqb_eq. Qed.

Lemma exclude_parsed_line t line :
  exclude_patterns (parsed_line t line)
  = exclude_patterns t ++ pattern_values "E" line.
Proof.
  unfold parsed_line, pattern_values.
  destruct (_ || _); [by rewrite app_nil_r|].
  destruct (PyStr.split "," (PyStr.strip line)) as [|p0 [|p1 [|p2 rest]]];
    try by rewrite app_nil_r.
  destruct (String.eqb (PyStr.strip p0) "E"); [done|].
  destruct (String.eqb (PyStr.strip p0) "P"); simpl; by rewrite app_nil_r.
Qed.

Lemma priority_parsed_line t line :
  priority_patterns (parsed_line t line)
  = priority_patterns t ++ pattern_values "P" line.
Proof.
  unfold parsed_line, pattern_values.
  destruct (_ || _); [by rewrite app_nil_r|].
  destruct (PyStr.split "," (PyStr.strip line)) as [|p0 [|p1 [|p2 rest]]];
    try by rewrite app_nil_r.
  destruct (String.eqb (PyStr.strip p0) "E") eqn:E.
  - rewrite (eqb_E_P _ E). simpl. by rewrite app_nil_r.
  - destruct (String.eqb (PyStr.strip p0) "P"); simpl; [done|].
    by rewrite app_nil_r.
Qed.

Lemma exclude_fold lines t :
  exclude_patterns (fold_left parsed_line lines t)
  = exclude_patterns t ++ concat (map (pattern_values "E") lines).
Proof.
  revert t. induction lines as [|line lines IH]; intros t; simpl.
  - by rewrite app_nil_r.
  - by rewrite IH, exclude_parsed_line, app_assoc.
Qed.

Lemma priority_fold lines t :
  priority_patterns (fold_left parsed_line lines t)
  = priority_patterns t ++ concat (map (pattern_values "P") lines).
Proof.
  revert t. induction lines as [|line lines IH]; intros t; simpl.
  - by rewrite app_nil_r.
  - by rewrite IH, priority_parsed_line, app_assoc.
Qed.

Lemma parsed_line_skipped t line : skipped line = true -> parsed_line t line = t.
Proof.
  unfold skipped, parsed_line. intros Hs.
  destruct (String.eqb (PyStr.strip line) ""
            || PyStr.startswith "#" (PyStr.strip line)); [done|].
  by destruct (PyStr.split "," (PyStr.strip line)) as [|p0 [|p1 [|p2 rest]]].
Qed.

Lemma fold_skipped lines t :
  fold_left parsed_line (filter (fun line => skipped line = false) lines) t
  = fold_left parsed_line lines t.
Proof.
  revert t. induction lines as [|line lines IH]; intros t; [done|].
  rewrite filter_cons. destruct (decide (skipped line = false)) as [Hs|Hs].
  - simpl. apply IH.
  - apply not_false_is_true in Hs. simpl.
    by rewrite (parsed_line_skipped _ _ Hs).
Qed.

End PatternLines.

Section TableKeys.

Implicit Types d : mapping.

Lemma get_elem_of k d v : PyDict.get k d = Some v -> k ∈ d.*1.
Proof.
  induction d as [|[k' v'] d IH]; simpl; [done|].
  destruct (String.eqb_spec k' k) as [->|Hk].
  - intros _. apply list_elem_of_here.
  - intros Hg. apply list_elem_of_further. by apply IH.
Qed.

Lemma set_keys (P : string -> Prop) k v d :
  P k -> Forall P d.*1 -> Forall P (PyDict.set k v d).*1.
Proof.
  intros Hk. induction d as [|[k' v'] d IH]; simpl.
  - intros _. by constructor.
  - intros [Hk' Hd]%Forall_cons.
    destruct (String.eqb k' k); simpl; constructor; auto.
Qed.

Lemma assign_keys (P : string -> Prop) es d :
  Forall P es.*1 -> Forall P d.*1 -> Forall P (assign es d).*1.
Proof.
  unfold assign. revert d. induction es as [|e es IH]; intros d; simpl; [done|].
  intros [He Hes]%Forall_cons Hd. apply IH; [done|]. by apply set_keys.
Qed.

Lemma mapping_entries_trimmed line :
  Forall (fun k => PyStr.strip k = k) (mapping_entries line).*1.
Proof.
  unfold mapping_entries.
  destruct (_ || _); [constructor|].
  destruct (PyStr.split "," (PyStr.strip line)) as [|p0 [|p1 [|p2 rest]]];
    try constructor.
  destruct (_ || _); [constructor|].
  apply Forall_forall. intros k Hk.
  apply list_elem_of_fmap in Hk as ([k' v] & -> & He).
  apply list_elem_of_fmap in He as (c & [= -> _] & _). simpl.
  apply strip_idem.
Qed.

Lemma parsed_keys_trimmed content :
  Forall (fun k => PyStr.strip k = k) (component_mapping (parsed content)).*1.
Proof.
  unfold parsed. rewrite component_mapping_fold.
  apply assign_keys; [|constructor].
  induction (PyStr.readlines content) as [|line lines IH]; simpl; [constructor|].
  rewrite fmap_app. apply Forall_app. split; [|done].
  apply mapping_entries_trimmed.
Qed.

End TableKeys.

Section LoadedTables.

Context `{Host}.
Variable options : Options.

(** X1. The exclusion patterns and the priority patterns of a loaded
    mapping file are the values of its E lines and of its P lines, in
    the order of the file.  The values of a line are the pieces between
    the colons of its third field, trimmed as a whole: joined by ":"
    they give that field back, so that no piece is trimmed or dropped
    and an empty piece is a pattern. *)
Theorem patterns_in_file_order (filename content : string) (w : world) :
  files w !! filename = Some content ->
  exists t w',
    load_component_mapping options filename w = (inr t, w')
    /\ exclude_patterns t
       = concat (map (pattern_values "E") (PyStr.readlines content))
    /\ priority_patterns t
       = concat (map (pattern_values "P") (PyStr.readlines content))
    /\ forall tag line p0 p1 p2 rest,
         PyStr.strip line <> "" ->
         PyStr.startswith "#" (PyStr.strip line) = false ->
         PyStr.split "," (PyStr.strip line) = p0 :: p1 :: p2 :: rest ->
         PyStr.strip p0 = tag ->
         pattern_values tag line = PyStr.split ":" (PyStr.strip p2)
         /\ PyStr.join ":" (pattern_values tag line) = PyStr.strip p2.
Proof.
  intros Hf. destruct (load_present options filename content w Hf) as [msgs E].
  eexists _, _. split; [exact E|].
  unfold parsed. rewrite exclude_fold, priority_fold. simpl.
  split; [done|]. split; [done|].
  intros tag line p0 p1 p2 rest Hne Hc Hs Htag.
  assert (pattern_values tag line = PyStr.split ":" (PyStr.strip p2)) as ->.
  { unfold pattern_values. rewrite Hs, Hc.
    destruct (String.eqb_spec (PyStr.strip line) "") as [?|_]; [done|].
    simpl. by rewrite Htag, String.eqb_refl. }
  split; [done|]. apply (join_split ":").
Qed.

(** X2. Lines that are empty, start with "#" or have fewer than three
    comma-separated fields carry nothing: a mapping file and the file
    left after such lines are removed load to the same tables. *)
Theorem skipped_lines_carry_nothing
    (f1 f2 c1 c2 : string) (w1 w2 : world) :
  files w1 !! f1 = Some c1 ->
  files w2 !! f2 = Some c2 ->
  PyStr.readlines c2
  = filter (fun line => skipped line = false) (PyStr.readlines c1) ->
  (load_component_mapping options f1 w1).1
  = (load_component_mapping options f2 w2).1.
Proof.
  intros H1 H2 Hl.
  destruct (load_present options f1 c1 w1 H1) as [m1 ->].
  destruct (load_present options f2 c2 w2 H2) as [m2 ->].
  simpl. unfold parsed. by rewrite Hl, fold_skipped.
Qed.

(** X3. Loading is repeatable: after a first load the mapping file
    exists, a second load changes no file and gives the same tables,
    and a file that was there before the first load is left as it
    was.  The tables [run] keeps are those [generate_qihe_files] loads
    again. *)
Theorem reload_same_tables (filename : string) (w : world) :
  exists t w1 w2,
    load_component_mapping options filename w = (inr t, w1)
    /\ load_component_mapping options filename w1 = (inr t, w2)
    /\ is_Some (files w1 !! filename)
    /\ files w2 = files w1
    /\ forall content,
         files w !! filename = Some content -> files w1 = files w.
Proof.
  destruct (load_files options filename w) as (w1 & E1 & F1).
  destruct (load_files options filename w1) as (w2 & E2 & F2).
  rewrite F1, loaded_tables_idem in E2.
  rewrite F1, loaded_files_idem in F2.
  eexists _, w1, w2. split; [exact E1|]. split; [exact E2|].
  split; [|split; [congruence|]].
  - rewrite F1. unfold loaded_files.
    destruct (files w !! filename) eqn:E; [by rewrite E|].
    by rewrite lookup_insert_eq.
  - intros content Hc. rewrite F1. unfold loaded_files. by rewrite Hc.
Qed.

(** X4. The names of a loaded table are trimmed, so a footprint whose
    value starts or ends with white space is never in the mapped
    group, whatever the mapping file holds. *)
Theorem padded_value_never_mapped (filename : string) (w : world) :
  exists t w',
    load_component_mapping options filename w = (inr t, w')
    /\ (forall k, PyDict.contains k (component_mapping t) = true ->
          PyStr.strip k = k)
    /\ forall ex pr fp,
         PyStr.strip (GetValue fp) <> GetValue fp ->
         category_of (component_mapping t) ex pr fp <> inr Mapped.
Proof.
  destruct (load_files options filename w) as (w' & E & _).
  eexists _, w'. split; [exact E|].
  assert (forall k,
            PyDict.contains k
              (component_mapping (loaded_tables filename (files w))) = true ->
            PyStr.strip k = k) as Hkeys.
  { intros k Hk. unfold PyDict.contains in Hk.
    destruct (PyDict.get k _) as [v|] eqn:Hg; [|done].
    apply get_elem_of in Hg.
    pose proof (parsed_keys_trimmed
                  (default default_content (files w !! filename))) as Hall.
    rewrite Forall_forall in Hall. by apply Hall. }
  split; [exact Hkeys|].
  intros ex pr fp Hpad Hc. unfold category_of in Hc.
  destruct (attribute_excluded fp); [done|].
  destruct (first_match ex (GetValue fp)) as [?|[?|]]; try done.
  destruct (first_match pr (GetValue fp)) as [?|[?|]]; try done.
  destruct (PyDict.contains (GetValue fp) _) eqn:Hin; [|done].
  by apply Hkeys in Hin.
Qed.

(** X5. [create_default_mapping_file] replaces whatever the file held
    by the template and touches nothing else; a load that follows
    finds no mapping and no pattern: writing the template over a
    mapping file discards every entry of it. *)
Theorem template_replaces_the_file (filename : string) (w : world) :
  exists w',
    create_default_mapping_file filename w = (inr tt, w')
    /\ files w' = <[filename := default_content]> (files w)
    /\ activity_log w'
       = activity_log w ++ ["Default mapping file created: " +:+ filename]
    /\ exists w'',
         load_component_mapping options filename w'
         = (inr (Tables [] [] []), w'')
         /\ files w'' = files w'.
Proof.
  eexists. split; [reflexivity|]. split; [reflexivity|]. split; [reflexivity|].
  match goal with
  | |- exists w'', load_component_mapping _ _ ?w1 = _ /\ _ =>
      destruct (load_present options filename default_content w1) as [msgs E]
  end.
  { simpl. apply lookup_insert_eq. }
  rewrite parsed_default_content in E. eexists. split; [exact E|]. done.
Qed.

End LoadedTables.

(** The mapping file of the sample project: its E line and its P line. *)
Lemma patterns_in_file_order_witness :
  exists t w',
    load_component_mapping (Sample.options 0)
      "/home/user/project/component_mapping.txt" Scenario.world = (inr t, w')
    /\ exclude_patterns t = ["NC"; "TP"]
    /\ priority_patterns t = ["FIDUCIAL"; "TESTPOINT"].
Proof.
  destruct (patterns_in_file_order (Sample.options 0)
              "/home/user/project/component_mapping.txt" Sample.mapping_text
              Scenario.world ltac:(vm_compute; reflexivity))
    as (t & w' & Hrun & He & Hp & _).
  exists t, w'. exact (conj Hrun (conj He Hp)).
Defined.

(** The sample mapping file and the same file without its comment. *)
Lemma skipped_lines_carry_nothing_witness :
  (load_component_mapping (Sample.options 0)
     "a.txt" (World {[ "a.txt" := Sample.mapping_text ]} [])).1
  = (load_component_mapping (Sample.options 0)
       "b.txt"
       (World {[ "b.txt" := "1, L1, 0n1:100nF" +:+ PyStr.nl
                            +:+ "E, , NC:TP" +:+ PyStr.nl
                            +:+ "P, , FIDUCIAL:TESTPOINT" +:+ PyStr.nl
                            +:+ "2, B3, 100nF : 4k7" +:+ PyStr.nl ]} [])).1.
Proof.
  apply (skipped_lines_carry_nothing (Sample.options 0)
           "a.txt" "b.txt" Sample.mapping_text
           ("1, L1, 0n1:100nF" +:+ PyStr.nl
            +:+ "E, , NC:TP" +:+ PyStr.nl
            +:+ "P, , FIDUCIAL:TESTPOINT" +:+ PyStr.nl
            +:+ "2, B3, 100nF : 4k7" +:+ PyStr.nl)).
  - vm_compute. reflexivity.
  - vm_compute. reflexivity.
  - vm_compute. reflexivity.
Defined.

(* ===================================================================== *)
(** * More on the classifier *)
(* ===================================================================== *)

Section Patterns.

Context `{Host}.

Lemma first_match_found ps v :
  accepted ps v ->
  Exists (fun q => re_search q v = inr true) ps ->
  exists p, first_match ps v = inr (Some p).
Proof.
  unfold accepted. induction ps as [|p ps IH]; simpl.
  - intros _ Hex. by apply Exists_nil in Hex.
  - intros [[b Hb] Hall]%Forall_cons Hex. rewrite Hb.
    destruct b; [eauto|]. apply IH; [done|].
    apply Exists_cons in Hex as [Hp|Hex]; [congruence|done].
Qed.

Lemma first_match_none ps v :
  accepted ps v ->
  ~ Exists (fun q => re_search q v = inr true) ps ->
  first_match ps v = inr None.
Proof.
  unfold accepted. induction ps as [|p ps IH]; simpl; [done|].
  intros [[b Hb] Hall]%Forall_cons Hno. rewrite Hb.
  destruct b.
  - destruct Hno. by apply Exists_cons_hd.
  - apply IH; [done|]. intros Hex. apply Hno. by apply Exists_cons_tl.
Qed.

(** With patterns that [re.search] accepts, whether one is found does
    not depend on their order. *)
Lemma matched_perm ps ps' v :
  ps ≡ₚ ps' -> accepted ps v ->
  matched (first_match ps v) = matched (first_match ps' v).
Proof.
  intros Hp Hall.
  assert (accepted ps' v) as Hall'.
  { unfold accepted. by rewrite <- Hp. }
  destruct (decide (Exists (fun q => re_search q v = inr true) ps)) as [Hf|Hf].
  - destruct (first_match_found ps v Hall Hf) as [p ->].
    rewrite Hp in Hf.
    by destruct (first_match_found ps' v Hall' Hf) as [p' ->].
  - rewrite (first_match_none ps v Hall Hf).
    rewrite (first_match_none ps' v Hall'); [done|].
    by rewrite <- Hp.
Qed.

Lemma category_of_perm m ex ex' pr pr' fp :
  ex ≡ₚ ex' -> pr ≡ₚ pr' ->
  accepted (ex ++ pr) (GetValue fp) ->
  category_of m ex pr fp = category_of m ex' pr' fp.
Proof.
  intros He Hp [Hex Hpr]%Forall_app.
  pose proof (matched_perm ex ex' _ He Hex) as Me.
  pose proof (matched_perm pr pr' _ Hp Hpr) as Mp.
  unfold category_of. destruct (attribute_excluded fp); [done|].
  destruct (first_match ex (GetValue fp)) as [?|[?|]],
           (first_match ex' (GetValue fp)) as [?|[?|]];
    simpl in Me; try discriminate; try congruence.
  destruct (first_match pr (GetValue fp)) as [?|[?|]],
           (first_match pr' (GetValue fp)) as [?|[?|]];
    simpl in Mp; try discriminate; congruence.
Qed.

Lemma classified_ext m ex ex' pr pr' g l :
  (forall fp, fp ∈ l -> category_of m ex pr fp = category_of m ex' pr' fp) ->
  classified m ex pr g l = classified m ex' pr' g l.
Proof.
  revert g. induction l as [|fp l IH]; intros g Hl; simpl; [done|].
  rewrite <- (Hl fp) by apply list_elem_of_here.
  destruct (category_of m ex pr fp); [done|].
  apply IH. intros x Hx. apply Hl. by apply list_elem_of_further.
Qed.

Lemma exported_ext m ex ex' pr pr' X Y l :
  (forall fp, fp ∈ l -> category_of m ex pr fp = category_of m ex' pr' fp) ->
  exported m ex pr X Y l = exported m ex' pr' X Y l.
Proof. intros Hl. unfold exported. by rewrite (classified_ext _ _ _ _ _ _ _ Hl). Qed.

Lemma place_perm c fp g : all_lists (place c fp g) ≡ₚ fp :: all_lists g.
Proof.
  unfold all_lists.
  destruct c; simpl; rewrite <- ?app_assoc; simpl.
  all: repeat (rewrite <- Permutation_middle); by rewrite ?app_nil_r.
Qed.

Lemma classified_perm m ex pr g0 l g :
  classified m ex pr g0 l = inr g -> all_lists g ≡ₚ all_lists g0 ++ l.
Proof.
  revert g0. induction l as [|fp l IH]; intros g0; simpl.
  - intros [= ->]. by rewrite app_nil_r.
  - destruct (category_of m ex pr fp) as [msg|c]; [done|].
    intros Hg%IH. rewrite Hg, place_perm. by rewrite <- Permutation_middle.
Qed.

Lemma classified_error m ex pr g0 l e :
  classified m ex pr g0 l = inl e ->
  exists fp msg,
    fp ∈ l /\ category_of m ex pr fp = inl msg /\ e = re_error msg.
Proof.
  revert g0. induction l as [|fp l IH]; intros g0; simpl; [done|].
  destruct (category_of m ex pr fp) as [msg|c] eqn:Hc.
  - intros [= <-]. exists fp, msg. split; [apply list_elem_of_here|done].
  - intros (x & msg & Hx & Hm)%IH. exists x, msg.
    split; [by apply list_elem_of_further|done].
Qed.

Lemma classified_total m ex pr g0 l :
  (forall fp, fp ∈ l -> exists c, category_of m ex pr fp = inr c) ->
  exists g, classified m ex pr g0 l = inr g.
Proof.
  revert g0. induction l as [|fp l IH]; intros g0 Hl; simpl; [eauto|].
  destruct (Hl fp) as [c ->]; [apply list_elem_of_here|].
  apply IH. intros x Hx. apply Hl. by apply list_elem_of_further.
Qed.

Lemma in_category_nil m ex pr c l :
  (forall fp, fp ∈ l -> category_of m ex pr fp <> inr c) ->
  in_category m ex pr c l = [].
Proof.
  intros Hl. unfold in_category.
  induction l as [|fp l IH]; [done|].
  rewrite filter_cons. destruct (decide _) as [Hc|_].
  - destruct (Hl fp); [apply list_elem_of_here|done].
  - apply IH. intros x Hx. apply Hl. by apply list_elem_of_further.
Qed.

Lemma category_error_not_flagged m ex pr fp msg :
  category_of m ex pr fp = inl msg -> attribute_excluded fp = false.
Proof. unfold category_of. by destruct (attribute_excluded fp). Qed.

End Patterns.

Section Classifying.

Context `{Host}.
Variable options : Options.

(** X6. The classifier puts every footprint of the layer in exactly
    one of its five lists: together the lists are a rearrangement of
    the layer's footprints, so the counts the activity log reports add
    up to the total. *)
Theorem five_lists_partition
    (fps : list Footprint) (layer : Z) (m : mapping) (ex pr : list string)
    (w : world) (g : groups) :
  (classify_footprints options m ex pr
     (filter (fun fp => GetLayer fp = layer) fps) w).1 = inr g ->
  priority_footprints g ++ mapped_footprints g ++ unmapped_footprints g
  ++ excluded_by_pattern g ++ excluded_by_attribute g
  ≡ₚ filter (fun fp => GetLayer fp = layer) fps
  /\ (length (priority_footprints g) + length (mapped_footprints g)
      + length (unmapped_footprints g) + length (excluded_by_pattern g)
      + length (excluded_by_attribute g)
      = length (filter (fun fp => GetLayer fp = layer) fps))%nat.
Proof.
  intros Hg%classify_outcome. apply classified_perm in Hg.
  unfold all_lists in Hg. simpl in Hg. split; [exact Hg|].
  apply Permutation_length in Hg. rewrite <- Hg, !length_app. lia.
Qed.

(** X7. When [re.search] accepts every pattern on every value of the
    layer, the order of the patterns within the exclusion list and
    within the priority list changes neither the category of a
    footprint nor the file written: only which pattern the log names. *)
Theorem pattern_order_irrelevant
    (f : string) (fps : list Footprint) (layer : Z) (X Y : float)
    (m : mapping) (ex ex' pr pr' : list string) (w : world) :
  ex ≡ₚ ex' -> pr ≡ₚ pr' ->
  (forall q fp, q ∈ ex ++ pr -> fp ∈ fps -> GetLayer fp = layer ->
     exists b, re_search q (GetValue fp) = inr b) ->
  (forall fp, fp ∈ fps -> GetLayer fp = layer ->
     category_of m ex pr fp = category_of m ex' pr' fp)
  /\ files (write_qihe_file options f fps layer X Y m ex pr w).2
     = files (write_qihe_file options f fps layer X Y m ex' pr' w).2.
Proof.
  intros He Hp Hok.
  assert (forall fp, fp ∈ fps -> GetLayer fp = layer ->
            category_of m ex pr fp = category_of m ex' pr' fp) as Hcat.
  { intros fp Hfp Hl. apply category_of_perm; [done..|].
    apply Forall_forall. intros q Hq. by apply Hok. }
  split; [exact Hcat|].
  destruct (write_files options f fps layer X Y m ex pr w) as (w1 & -> & F1).
  destruct (write_files options f fps layer X Y m ex' pr' w) as (w2 & -> & F2).
  cbn [snd]. rewrite F1, F2.
  rewrite (exported_ext m ex ex' pr pr'); [done|].
  intros fp [Hl Hfp]%list_elem_of_filter. by apply Hcat.
Qed.

(** X8. A pattern that [re.search] rejects stops the export of the
    layer at the first footprint that consults it: the exception is
    caught in [write_qihe_file], which returns normally, the file holds
    the header row alone, and the last message of the log is
    "Error writing to file ..." with the text of the error.  The
    footprint that met the error is on the layer and carries no
    exclusion flag. *)
Theorem rejected_pattern_leaves_header
    (f : string) (fps : list Footprint) (layer : Z) (X Y : float)
    (m : mapping) (ex pr : list string) (w : world) (e : exn) :
  (classify_footprints options m ex pr
     (filter (fun fp => GetLayer fp = layer) fps) w).1 = inl e ->
  exists w',
    write_qihe_file options f fps layer X Y m ex pr w = (inr tt, w')
    /\ files w' !! f = Some (Csv.text [header])
    /\ last (activity_log w')
       = Some ("Error writing to file " +:+ f +:+ ": " +:+ str_exn e)
    /\ exists fp msg,
         fp ∈ fps /\ GetLayer fp = layer /\ attribute_excluded fp = false
         /\ category_of m ex pr fp = inl msg /\ e = re_error msg.
Proof.
  rewrite (only_logs_outcome _ _ w
             (classify_footprints_only_logs options m ex pr _)).
  intros Hc.
  destruct (write_qihe_file_exported options f fps layer X Y m ex pr w)
    as [msgs Hrun].
  unfold exported in Hrun. rewrite Hc in Hrun. cbn [fst snd] in Hrun.
  eexists. split; [exact Hrun|]. split; [|split].
  - cbn [files add_log set_file]. apply lookup_insert_eq.
  - cbn [activity_log add_log set_file]. by rewrite !app_assoc, last_snoc.
  - destruct (classified_error _ _ _ _ _ _ Hc) as (fp & msg & Hfp & Hcat & ->).
    apply list_elem_of_filter in Hfp as [Hl Hfp].
    exists fp, msg. split; [done|]. split; [done|].
    split; [by eapply category_error_not_flagged|done].
Qed.

(** X9. An empty pattern in the exclusion list, as a trailing colon
    or an empty third field of an E line gives, excludes everything:
    when [re.search] finds the empty pattern in every value (as it
    does) and accepts the other exclusion patterns, no footprint of
    the layer is written and the file is the header and the trailer. *)
Theorem empty_pattern_excludes_all
    (f : string) (fps : list Footprint) (layer : Z) (X Y : float)
    (m : mapping) (ex pr : list string) (w : world) :
  (forall v, re_search "" v = inr true) ->
  "" ∈ ex ->
  (forall q fp, q ∈ ex -> fp ∈ fps -> GetLayer fp = layer ->
     exists b, re_search q (GetValue fp) = inr b) ->
  (exists w',
     write_qihe_file options f fps layer X Y m ex pr w = (inr tt, w')
     /\ files w' !! f = Some (Csv.text (header :: trailer)))
  /\ (forall fp, fp ∈ fps -> GetLayer fp = layer ->
        category_of m ex pr fp = inr ExcludedByAttribute
        \/ category_of m ex pr fp = inr ExcludedByPattern)
  /\ (forall s, "" ∈ PyStr.split ":" (s +:+ ":"))
  /\ PyStr.split ":" "" = [""].
Proof.
  intros Hempty Hin Hok.
  assert (forall fp, fp ∈ fps -> GetLayer fp = layer ->
            category_of m ex pr fp = inr ExcludedByAttribute
            \/ category_of m ex pr fp = inr ExcludedByPattern) as Hcat.
  { intros fp Hfp Hl. unfold category_of.
    destruct (attribute_excluded fp); [by left|]. right.
    destruct (first_match_found ex (GetValue fp)) as [p ->]; [| |done].
    - apply Forall_forall. intros q Hq. by apply Hok.
    - apply Exists_exists. by exists "". }
  split; [|split; [exact Hcat|split; [|done]]].
  - set (l := filter (fun fp => GetLayer fp = layer) fps).
    destruct (classified_total m ex pr (Groups [] [] [] [] []) l) as [g Hg].
    { intros fp [Hl Hfp]%list_elem_of_filter.
      destruct (Hcat fp Hfp Hl) as [->| ->]; eauto. }
    destruct (classified_from_empty m ex pr l g Hg) as (Hp & Hm & Hu & _).
    assert (forall c, c = Priority \/ c = Mapped \/ c = Unmapped ->
              in_category m ex pr c l = []) as Hnone.
    { intros c Hc. apply in_category_nil.
      intros fp [Hl Hfp]%list_elem_of_filter.
      destruct (Hcat fp Hfp Hl) as [->| ->], Hc as [->|[->| ->]]; done. }
    rewrite Hnone in Hp, Hm, Hu by auto.
    destruct (write_qihe_file_exported options f fps layer X Y m ex pr w)
      as [msgs Hrun].
    fold l in Hrun.
    rewrite (exported_complete m ex pr X Y l g Hg) in Hrun.
    + rewrite Hp, Hm, Hu in Hrun. cbn [fst snd] in Hrun.
      eexists. split; [exact Hrun|].
      cbn [files add_log set_file]. apply lookup_insert_eq.
    + intros fp. unfold survivors. rewrite Hp, Hm, Hu.
      intros Hfp. by apply elem_of_nil in Hfp.
  - intros s. rewrite split_snoc. apply elem_of_app. right.
    apply list_elem_of_here.
Qed.

End Classifying.

(* ===================================================================== *)
(** * The classifier on the sample board *)
(* ===================================================================== *)

(** The plain patterns of the sample are accepted on every value. *)
Lemma sample_patterns_accepted (q : string) (fp : Footprint) :
  q ∈ ["NC"; "TP"; "FIDUCIAL"; "TESTPOINT"; ""] ->
  exists b, re_search (Host:=Sample.host) q (GetValue fp) = inr b.
Proof.
  intros Hq. repeat (apply elem_of_cons in Hq as [->|Hq]);
    [eexists; reflexivity..|]. by apply elem_of_nil in Hq.
Qed.

(** The eight footprints of the top layer of the sample board. *)
Lemma five_lists_partition_witness :
  (classify_footprints (H:=Sample.host) (Sample.options 0) Sample.table
     ["NC"; "TP"] ["FIDUCIAL"; "TESTPOINT"]
     (filter (fun fp => GetLayer fp = 0%Z) (GetFootprints Sample.board))
     Sample.empty_world).1 = inr Sample.top_groups
  /\ (length (priority_footprints Sample.top_groups)
      + length (mapped_footprints Sample.top_groups)
      + length (unmapped_footprints Sample.top_groups)
      + length (excluded_by_pattern Sample.top_groups)
      + length (excluded_by_attribute Sample.top_groups)
      = length (filter (fun fp => GetLayer fp = 0%Z)
                       (GetFootprints Sample.board)))%nat.
Proof.
  assert ((classify_footprints (H:=Sample.host) (Sample.options 0) Sample.table
             ["NC"; "TP"] ["FIDUCIAL"; "TESTPOINT"]
             (filter (fun fp => GetLayer fp = 0%Z) (GetFootprints Sample.board))
             Sample.empty_world).1 = inr Sample.top_groups) as H1.
  { vm_compute. reflexivity. }
  split; [exact H1|].
  exact (proj2 (five_lists_partition (H:=Sample.host) (Sample.options 0)
                  (GetFootprints Sample.board) 0 Sample.table
                  ["NC"; "TP"] ["FIDUCIAL"; "TESTPOINT"]
                  Sample.empty_world Sample.top_groups H1)).
Defined.

(** The patterns of the sample in the other order. *)
Lemma pattern_order_irrelevant_witness :
  files (write_qihe_file (H:=Sample.host) (Sample.options 0) "top.csv"
           (GetFootprints Sample.board) 0 (of_Z 0) (of_Z 0) Sample.table
           ["NC"; "TP"] ["FIDUCIAL"; "TESTPOINT"] Sample.empty_world).2
  = files (write_qihe_file (H:=Sample.host) (Sample.options 0) "top.csv"
             (GetFootprints Sample.board) 0 (of_Z 0) (of_Z 0) Sample.table
             ["TP"; "NC"] ["TESTPOINT"; "FIDUCIAL"] Sample.empty_world).2.
Proof.
  refine (proj2 (pattern_order_irrelevant (H:=Sample.host) (Sample.options 0)
                   "top.csv" (GetFootprints Sample.board) 0 (of_Z 0) (of_Z 0)
                   Sample.table ["NC"; "TP"] ["TP"; "NC"]
                   ["FIDUCIAL"; "TESTPOINT"] ["TESTPOINT"; "FIDUCIAL"]
                   Sample.empty_world _ _ _)).
  - apply perm_swap.
  - apply perm_swap.
  - intros q fp Hq _ _. apply sample_patterns_accepted.
    simpl in Hq. repeat (apply elem_of_cons in Hq as [->|Hq]);
      [repeat constructor..|]. by apply elem_of_nil in Hq.
Defined.

(** A pattern with an open parenthesis, which the sample host rejects. *)
Lemma rejected_pattern_leaves_header_witness :
  exists w',
    write_qihe_file (H:=Sample.host) (Sample.options 0) "top.csv"
      (GetFootprints Sample.board) 0 (of_Z 0) (of_Z 0) Sample.table
      ["NC"; "(TP"] [] Sample.empty_world = (inr tt, w')
    /\ files w' !! "top.csv" = Some (Csv.text [header])
    /\ last (activity_log w')
       = Some ("Error writing to file top.csv: "
               +:+ "pattern outside the plain-text fragment: (TP").
Proof.
  destruct (rejected_pattern_leaves_header (H:=Sample.host) (Sample.options 0)
              "top.csv" (GetFootprints Sample.board) 0 (of_Z 0) (of_Z 0)
              Sample.table ["NC"; "(TP"] [] Sample.empty_world
              (re_error "pattern outside the plain-text fragment: (TP")
              ltac:(vm_compute; reflexivity))
    as (w' & Hrun & Hfile & Hlast & _).
  exists w'. exact (conj Hrun (conj Hfile Hlast)).
Defined.

(** An exclusion line that ends with a colon: "E, , NC:". *)
Lemma empty_pattern_excludes_all_witness :
  pattern_values "E" "E, , NC:" = ["NC"; ""]
  /\ exists w',
       write_qihe_file (H:=Sample.host) (Sample.options 0) "top.csv"
         (GetFootprints Sample.board) 0 (of_Z 0) (of_Z 0) Sample.table
         ["NC"; ""] ["FIDUCIAL"] Sample.empty_world = (inr tt, w')
       /\ files w' !! "top.csv" = Some (Csv.text (header :: trailer)).
Proof.
  split; [vm_compute; reflexivity|].
  refine (proj1 (empty_pattern_excludes_all (H:=Sample.host) (Sample.options 0)
                   "top.csv" (GetFootprints Sample.board) 0 (of_Z 0) (of_Z 0)
                   Sample.table ["NC"; ""] ["FIDUCIAL"] Sample.empty_world
                   _ _ _)).
  - intros v. by destruct v.
  - repeat constructor.
  - intros q fp Hq _ _. apply sample_patterns_accepted.
    repeat (apply elem_of_cons in Hq as [->|Hq]);
      [repeat constructor..|]. by apply elem_of_nil in Hq.
Defined.

(* ===================================================================== *)
(** * More on the rows and their order *)
(* ===================================================================== *)

Section SortKeys.

(** The first token of a value: not empty, free of white space, and
    what the value starts with once its leading white space is gone. *)
Lemma split_ws_first s k ks :
  PyStr.split_ws s = k :: ks ->
  k <> ""
  /\ forallb (fun c => negb (PyStr.isspace c)) (PyStr.chars k) = true
  /\ exists rest,
       PyStr.lstrip s = k +:+ rest
       /\ (rest = "" \/ first_char PyStr.isspace rest = true).
Proof.
  revert k ks. induction s as [|c s IH]; intros k ks; [done|].
  simpl PyStr.split_ws. simpl PyStr.lstrip.
  destruct (PyStr.isspace c) eqn:Hc; [by apply IH|].
  destruct s as [|c' s'].
  - intros [= <- <-]. split; [done|]. split; [by simpl; rewrite Hc|].
    exists "". split; [done|]. by left.
  - destruct (PyStr.isspace c') eqn:Hc'.
    + intros [= <- <-]. split; [done|]. split; [by simpl; rewrite Hc|].
      exists (String c' s'). split; [done|]. right. exact Hc'.
    + destruct (PyStr.split_ws (String c' s')) as [|w ws] eqn:Hw.
      { apply split_ws_nil in Hw. unfold PyStr.blank in Hw.
        cbn [PyStr.chars forallb] in Hw. by rewrite Hc' in Hw. }
      intros [= <- <-].
      destruct (IH w ws eq_refl) as (Hne & Hns & rest & Hl & Hrest).
      simpl in Hl. rewrite Hc' in Hl.
      split; [done|]. split; [by simpl; rewrite Hc|].
      exists rest. split; [|done]. by rewrite append_cons, <- Hl.
Qed.

(** An upper-case ASCII letter comes before every lower-case one. *)
Lemma upper_before_lower k1 k2 :
  first_char ascii_upper k1 = true -> first_char ascii_lower k2 = true ->
  ~ String.le k2 k1.
Proof.
  destruct k1 as [|c1 k1], k2 as [|c2 k2]; try done. simpl.
  unfold ascii_upper, ascii_lower.
  intros [_ H1]%andb_true_iff [H2 _]%andb_true_iff.
  apply N.leb_le in H1, H2.
  intros Hle%leb_le. unfold String.leb in Hle. simpl in Hle.
  unfold Ascii.compare in Hle.
  assert ((N_of_ascii c2 ?= N_of_ascii c1)%N = Gt) as Hgt.
  { apply N.compare_gt_iff. lia. }
  by rewrite Hgt in Hle.
Qed.

Lemma sorted_lookup {A} (R : A -> A -> Prop) l i j a b :
  StronglySorted R l -> l !! i = Some a -> l !! j = Some b ->
  (i < j)%nat -> R a b.
Proof.
  intros Hs. revert i j. induction Hs as [|x l Hs IH Hall]; intros i j; [done|].
  destruct i as [|i], j as [|j]; try lia; simpl.
  - intros [= <-] Hb _. rewrite Forall_forall in Hall. apply Hall.
    by eapply list_elem_of_lookup_2.
  - intros Ha Hb Hij. apply (IH i j); [done..|lia].
Qed.

End SortKeys.

Section Rows.

Context `{Host}.
Variable options : Options.

(** X10. The key [get_sort_key] returns is never empty and holds no
    white space: it is the value without its leading white space, up
    to the next white space or the end.  What follows the first token
    plays no part in the order of the rows. *)
Theorem sort_key_shape (fp : Footprint) (w w' : world) (key : string) :
  get_sort_key options fp w = (inr key, w') ->
  key <> ""
  /\ forallb (fun c => negb (PyStr.isspace c)) (PyStr.chars key) = true
  /\ exists rest,
       PyStr.lstrip (GetValue fp) = key +:+ rest
       /\ (rest = "" \/ first_char PyStr.isspace rest = true).
Proof.
  unfold get_sort_key.
  destruct (PyStr.split_ws (GetValue fp)) as [|k ks] eqn:Hs; [done|].
  destruct (3 <=? verbosity_level options)%Z; simpl;
    intros [= <- _]; by apply (split_ws_first _ _ ks).
Qed.

(** X11. The sort of a group compares the keys as they are, by code
    point, and folds no case: after [group.sort(key=self.get_sort_key)]
    a footprint whose key starts with an upper-case ASCII letter stands
    before every footprint whose key starts with a lower-case one. *)
Theorem sort_is_case_sensitive
    (group sorted : list Footprint) (w w' : world)
    (i j : nat) (a b : Footprint) :
  sort_group options group w = (inr sorted, w') ->
  sorted !! i = Some a -> sorted !! j = Some b ->
  first_char ascii_upper (sort_key a) = true ->
  first_char ascii_lower (sort_key b) = true ->
  sorted ≡ₚ group /\ (i < j)%nat.
Proof.
  intros Hrun Ha Hb Hup Hlow.
  destruct (sort_group_only_logs options group w) as [msgs E].
  rewrite E in Hrun.
  destruct (existsb keyless group); [done|].
  injection Hrun as <- _.
  split; [apply sort_on_perm|].
  pose proof (sort_on_sorted sort_key group) as Hs. unfold sorted_on in Hs.
  destruct (Nat.lt_trichotomy i j) as [Hlt|[->|Hgt]]; [done| |].
  - rewrite Ha in Hb. injection Hb as ->.
    destruct (sort_key b) as [|c k]; [done|]. simpl in *.
    unfold ascii_upper, ascii_lower in *.
    apply andb_true_iff in Hup as [_ H1], Hlow as [H2 _].
    apply N.leb_le in H1, H2. lia.
  - destruct (upper_before_lower _ _ Hup Hlow).
    by apply (sorted_lookup _ _ j i b a Hs).
Qed.

(** X12. In a complete export the explanation, the last field of a
    row, starts with "PRIO " exactly in the rows of the priority group:
    the rows of the mapped and of the unmapped group carry the value
    and the designator alone. *)
Theorem priority_rows_marked
    (f : string) (fps : list Footprint) (layer : Z) (X Y : float)
    (m : mapping) (ex pr : list string) (w : world) (g : groups) :
  (classify_footprints options m ex pr
     (filter (fun fp => GetLayer fp = layer) fps) w).1 = inr g ->
  (forall fp, fp ∈ survivors g -> PyStr.blank (GetValue fp) = false) ->
  exists priority others w',
    write_qihe_file options f fps layer X Y m ex pr w = (inr tt, w')
    /\ files w' !! f
       = Some (Csv.text
                 (header :: map (qihe_row m priority X Y) priority
                  ++ map (qihe_row m priority X Y) others ++ trailer))
    /\ priority ≡ₚ priority_footprints g
    /\ others ≡ₚ mapped_footprints g ++ unmapped_footprints g
    /\ (forall fp, fp ∈ priority ->
          qihe_row m priority X Y fp !! 10%nat
          = Some ("PRIO " +:+ GetValue fp +:+ " " +:+ GetReference fp))
    /\ (forall fp, fp ∈ others ->
          qihe_row m priority X Y fp !! 10%nat
          = Some (GetValue fp +:+ " " +:+ GetReference fp)).
Proof.
  intros Hg%classify_outcome Hk.
  destruct (write_qihe_file_exported options f fps layer X Y m ex pr w)
    as [msgs Hrun].
  rewrite (exported_complete m ex pr X Y _ g Hg Hk) in Hrun.
  cbn [fst snd] in Hrun.
  exists (sort_on sort_key (priority_footprints g)),
         (sort_on sort_key (mapped_footprints g)
          ++ sort_on sort_key (unmapped_footprints g)).
  eexists. split; [exact Hrun|]. split; [|split; [|split; [|split]]].
  - cbn [files add_log set_file]. rewrite lookup_insert_eq.
    by rewrite map_app, <- app_assoc.
  - apply sort_on_perm.
  - by rewrite !sort_on_perm.
  - intros fp Hfp. rewrite explanation_written.
    by rewrite bool_decide_eq_true_2.
  - intros fp Hfp. rewrite explanation_written.
    rewrite bool_decide_eq_false_2; [done|].
    apply (not_in_priority m ex pr _ g fp Hg).
    rewrite elem_of_app, !elem_of_sort_on in Hfp. by apply elem_of_app.
Qed.

(** X13. A footprint of the mapped group has a value that is a key of
    the table, and its row carries the nozzle and the feeder the table
    gives that value, after the designator. *)
Theorem mapped_rows_from_table
    (fps : list Footprint) (layer : Z) (X Y : float)
    (m : mapping) (ex pr : list string) (w : world) (g : groups)
    (fp : Footprint) :
  (classify_footprints options m ex pr
     (filter (fun fp => GetLayer fp = layer) fps) w).1 = inr g ->
  fp ∈ mapped_footprints g ->
  exists nozzle feeder,
    PyDict.get (GetValue fp) m = Some (nozzle, feeder)
    /\ forall priority,
         take 3 (qihe_row m priority X Y fp)
         = [GetReference fp; nozzle; feeder].
Proof.
  intros Hg%classify_outcome Hfp.
  pose proof (classified_from_empty m ex pr _ g Hg) as (_ & Hm & _).
  rewrite Hm in Hfp. apply elem_of_in_category in Hfp as [_ Hc].
  unfold category_of, PyDict.contains in Hc.
  destruct (attribute_excluded fp); [done|].
  destruct (first_match ex (GetValue fp)) as [?|[?|]]; try done.
  destruct (first_match pr (GetValue fp)) as [?|[?|]]; try done.
  destruct (PyDict.get (GetValue fp) m) as [[nozzle feeder]|] eqn:Hget; [|done].
  exists nozzle, feeder. split; [done|].
  intros priority. unfold qihe_row, PyDict.get_default. by rewrite Hget.
Qed.

End Rows.

Section Dialog.

Lemma first_selected_spec buttons i r :
  first_selected i buttons = Some r ->
  exists k : nat,
    r = (i + Z.of_nat k)%Z /\ buttons !! k = Some true
    /\ forall j : nat, (j < k)%nat -> buttons !! j = Some false.
Proof.
  revert i. induction buttons as [|b buttons IH]; intros i; simpl; [done|].
  destruct b.
  - intros [= <-]. exists 0%nat. split; [lia|]. split; [done|]. lia.
  - intros (k & -> & Hk & Hj)%IH. exists (S k). split; [lia|].
    split; [done|]. intros [|j] Hlt; [done|]. apply Hj. lia.
Qed.

Lemma first_selected_none buttons i :
  first_selected i buttons = None -> Forall (fun b => b = false) buttons.
Proof.
  revert i. induction buttons as [|b buttons IH]; intros i; simpl; [constructor|].
  destruct b; [done|]. intros Hn. constructor; [done|]. by eapply IH.
Qed.

(** X20. The verbosity level the dialog hands to the exporter is the
    position of the first selected radio button, and 0 when none is
    selected: never negative, and below the number of buttons. *)
Theorem verbosity_is_first_selected (buttons : list bool) :
  (0 <= get_verbosity_level buttons
   < Z.max 1 (Z.of_nat (length buttons)))%Z
  /\ (forall k : nat,
        buttons !! k = Some true ->
        (forall j : nat, (j < k)%nat -> buttons !! j = Some false) ->
        get_verbosity_level buttons = Z.of_nat k)
  /\ (Forall (fun b => b = false) buttons -> get_verbosity_level buttons = 0%Z).
Proof.
  unfold get_verbosity_level.
  destruct (first_selected 0 buttons) as [r|] eqn:Hr; simpl.
  - destruct (first_selected_spec _ _ _ Hr) as (k & -> & Hk & Hj).
    pose proof (lookup_lt_Some _ _ _ Hk) as Hlen.
    split; [lia|]. split.
    + intros k' Hk' Hj'.
      destruct (Nat.lt_trichotomy k k') as [Hlt|[->|Hgt]]; [|lia|].
      * specialize (Hj' k Hlt). congruence.
      * specialize (Hj k' Hgt). congruence.
    + intros Hall. rewrite Forall_forall in Hall.
      assert (true = false); [|done].
      apply Hall. by eapply list_elem_of_lookup_2.
  - split; [lia|]. split; [|done].
    intros k Hk _. apply first_selected_none in Hr.
    rewrite Forall_forall in Hr.
    assert (true = false); [|done].
    apply Hr. by eapply list_elem_of_lookup_2.
Qed.

End Dialog.

(* ===================================================================== *)
(** * Rows of the sample board *)
(* ===================================================================== *)

(** The key of R1, whose value is "10k 1%". *)
Lemma sort_key_shape_witness :
  get_sort_key (Sample.options 0) Sample.R1 Sample.empty_world
  = (inr "10k", Sample.empty_world)
  /\ exists rest,
       PyStr.lstrip (GetValue Sample.R1) = "10k" +:+ rest
       /\ (rest = "" \/ first_char PyStr.isspace rest = true).
Proof.
  assert (get_sort_key (Sample.options 0) Sample.R1 Sample.empty_world
          = (inr "10k", Sample.empty_world)) as H1.
  { vm_compute. reflexivity. }
  split; [exact H1|].
  exact (proj2 (proj2 (sort_key_shape (Sample.options 0) Sample.R1
                         Sample.empty_world Sample.empty_world "10k" H1))).
Defined.

(** "Bead" is sorted before "antenna". *)
Lemma sort_is_case_sensitive_witness :
  sort_group (Sample.options 0)
    [Sample.footprint "A1" "antenna" 0 0 0 0 2;
     Sample.footprint "L1" "Bead" 0 0 0 0 2] Sample.empty_world
  = (inr [Sample.footprint "L1" "Bead" 0 0 0 0 2;
          Sample.footprint "A1" "antenna" 0 0 0 0 2], Sample.empty_world)
  /\ (0 < 1)%nat.
Proof.
  assert (sort_group (Sample.options 0)
            [Sample.footprint "A1" "antenna" 0 0 0 0 2;
             Sample.footprint "L1" "Bead" 0 0 0 0 2] Sample.empty_world
          = (inr [Sample.footprint "L1" "Bead" 0 0 0 0 2;
                  Sample.footprint "A1" "antenna" 0 0 0 0 2],
             Sample.empty_world)) as H1.
  { vm_compute. reflexivity. }
  split; [exact H1|].
  exact (proj2 (sort_is_case_sensitive (Sample.options 0) _ _ _ _ 0 1
                  (Sample.footprint "L1" "Bead" 0 0 0 0 2)
                  (Sample.footprint "A1" "antenna" 0 0 0 0 2)
                  H1 eq_refl eq_refl eq_refl eq_refl)).
Defined.

(** The top layer of the sample board: FID1 is the priority row. *)
Lemma priority_rows_marked_witness :
  (classify_footprints (H:=Sample.host) (Sample.options 0) Sample.table
     ["NC"; "TP"] ["FIDUCIAL"; "TESTPOINT"]
     (filter (fun fp => GetLayer fp = 0%Z) (GetFootprints Sample.board))
     Sample.empty_world).1 = inr Sample.top_groups
  /\ exists priority others w',
       write_qihe_file (H:=Sample.host) (Sample.options 0) "top.csv"
         (GetFootprints Sample.board) 0 (of_Z 0) (of_Z 0) Sample.table
         ["NC"; "TP"] ["FIDUCIAL"; "TESTPOINT"] Sample.empty_world = (inr tt, w')
       /\ priority ≡ₚ [Sample.FID1]
       /\ others ≡ₚ [Sample.C1; Sample.R3; Sample.R1; Sample.R2]
       /\ (forall fp, fp ∈ priority ->
             qihe_row Sample.table priority (of_Z 0) (of_Z 0) fp !! 10%nat
             = Some ("PRIO " +:+ GetValue fp +:+ " " +:+ GetReference fp)).
Proof.
  assert ((classify_footprints (H:=Sample.host) (Sample.options 0) Sample.table
             ["NC"; "TP"] ["FIDUCIAL"; "TESTPOINT"]
             (filter (fun fp => GetLayer fp = 0%Z) (GetFootprints Sample.board))
             Sample.empty_world).1 = inr Sample.top_groups) as H1.
  { vm_compute. reflexivity. }
  assert (Forall (fun fp => PyStr.blank (GetValue fp) = false)
                 (survivors Sample.top_groups)) as H2.
  { repeat constructor. }
  split; [exact H1|].
  destruct (priority_rows_marked (H:=Sample.host) (Sample.options 0)
              "top.csv" (GetFootprints Sample.board) 0 (of_Z 0) (of_Z 0)
              Sample.table ["NC"; "TP"] ["FIDUCIAL"; "TESTPOINT"]
              Sample.empty_world Sample.top_groups H1
              (proj1 (Forall_forall _ _) H2))
    as (priority & others & w' & Hrun & _ & Hp & Ho & Hprio & _).
  exists priority, others, w'.
  exact (conj Hrun (conj Hp (conj Ho Hprio))).
Defined.

(** C1 of the sample board, whose value "100nF" the table gives to
    nozzle 2 and feeder B3. *)
Lemma mapped_rows_from_table_witness :
  (classify_footprints (H:=Sample.host) (Sample.options 0) Sample.table
     ["NC"; "TP"] ["FIDUCIAL"; "TESTPOINT"]
     (filter (fun fp => GetLayer fp = 0%Z) (GetFootprints Sample.board))
     Sample.empty_world).1 = inr Sample.top_groups
  /\ Sample.C1 ∈ mapped_footprints Sample.top_groups
  /\ exists nozzle feeder,
       PyDict.get (GetValue Sample.C1) Sample.table = Some (nozzle, feeder)
       /\ forall priority,
            take 3 (qihe_row Sample.table priority (of_Z 0) (of_Z 0) Sample.C1)
            = [GetReference Sample.C1; nozzle; feeder].
Proof.
  assert ((classify_footprints (H:=Sample.host) (Sample.options 0) Sample.table
             ["NC"; "TP"] ["FIDUCIAL"; "TESTPOINT"]
             (filter (fun fp => GetLayer fp = 0%Z) (GetFootprints Sample.board))
             Sample.empty_world).1 = inr Sample.top_groups) as H1.
  { vm_compute. reflexivity. }
  assert (Sample.C1 ∈ mapped_footprints Sample.top_groups) as H2.
  { apply list_elem_of_In. simpl. tauto. }
  split; [exact H1|]. split; [exact H2|].
  exact (mapped_rows_from_table (H:=Sample.host) (Sample.options 0)
           (GetFootprints Sample.board) 0 (of_Z 0) (of_Z 0) Sample.table
           ["NC"; "TP"] ["FIDUCIAL"; "TESTPOINT"] Sample.empty_world
           Sample.top_groups Sample.C1 H1 H2).
Defined.

(* ===================================================================== *)
(** * The coordinates of a row *)
(* ===================================================================== *)

Section Coordinates.

(** A position on the grid of 0.01 mm, computed for every position
    from -10 mm to 50 mm: the division by 1000000.0, the sum with a
    zero offset and the formatting give the decimal back. *)
Lemma millimetres_on_grid (n : Z) :
  (-1000 <= n <= 5000)%Z ->
  format_2f (add (div (of_Z (10000 * n)) (of_Z 1000000)) (of_Z 0))
  = hundredths n.
Proof.
  intros Hn.
  assert (forallb
            (fun n => String.eqb
                        (format_2f (add (div (of_Z (10000 * n)) (of_Z 1000000))
                                        (of_Z 0)))
                        (hundredths n))
            (seqZ (-1000) 6001) = true) as Hall.
  { vm_compute. reflexivity. }
  rewrite forallb_forall in Hall.
  apply String.eqb_eq, Hall, list_elem_of_In, elem_of_seqZ. lia.
Qed.

(** A position less than 0.005 mm below zero, computed for each of
    them. *)
Lemma millimetres_below_zero (x : Z) :
  (-4999 <= x <= -1)%Z ->
  format_2f (add (div (of_Z x) (of_Z 1000000)) (of_Z 0)) = "-0.00".
Proof.
  intros Hx.
  assert (forallb
            (fun x => String.eqb
                        (format_2f (add (div (of_Z x) (of_Z 1000000)) (of_Z 0)))
                        "-0.00")
            (seqZ (-4999) 4999) = true) as Hall.
  { vm_compute. reflexivity. }
  rewrite forallb_forall in Hall.
  apply String.eqb_eq, Hall, list_elem_of_In, elem_of_seqZ. lia.
Qed.

Lemma coordinates_written m priority X Y fp :
  qihe_row m priority X Y fp !! 3%nat
  = Some (format_2f (add (div (of_Z (GetPosition fp).1) (of_Z 1000000)) X))
  /\ qihe_row m priority X Y fp !! 4%nat
     = Some (format_2f (add (div (of_Z (GetPosition fp).2) (of_Z 1000000)) Y)).
Proof.
  unfold qihe_row.
  by destruct (PyDict.get_default (GetValue fp) ("1/2", "None") m).
Qed.

(** X14. With the zero offsets [generate_qihe_files] passes, a footprint
    whose position in nanometres lies on the grid of 0.01 mm, between
    -10 mm and 50 mm, is written with exactly that position in
    millimetres: the arithmetic of floats adds no error to Mid X and
    Mid Y, and the Y axis is not mirrored. *)
Theorem coordinates_in_millimetres
    (m : mapping) (priority : list Footprint) (fp : Footprint) (nx ny : Z) :
  (-1000 <= nx <= 5000)%Z ->
  (-1000 <= ny <= 5000)%Z ->
  GetPosition fp = ((10000 * nx)%Z, (10000 * ny)%Z) ->
  qihe_row m priority (of_Z 0) (of_Z 0) fp !! 3%nat = Some (hundredths nx)
  /\ qihe_row m priority (of_Z 0) (of_Z 0) fp !! 4%nat = Some (hundredths ny).
Proof.
  intros Hx Hy Hpos.
  destruct (coordinates_written m priority (of_Z 0) (of_Z 0) fp) as [-> ->].
  rewrite Hpos. cbn [fst snd].
  by rewrite (millimetres_on_grid nx Hx), (millimetres_on_grid ny Hy).
Qed.

(** X21. A coordinate less than 0.005 mm below zero is written "-0.00",
    with the sign of the float that rounds to zero. *)
Theorem small_negative_coordinate_keeps_sign
    (m : mapping) (priority : list Footprint) (fp : Footprint) :
  (-4999 <= (GetPosition fp).1 <= -1)%Z ->
  qihe_row m priority (of_Z 0) (of_Z 0) fp !! 3%nat = Some "-0.00".
Proof.
  intros Hx.
  destruct (coordinates_written m priority (of_Z 0) (of_Z 0) fp) as [-> _].
  by rewrite (millimetres_below_zero _ Hx).
Qed.

End Coordinates.

(** R1 of the sample board, at 1 mm and 2 mm. *)
Lemma coordinates_in_millimetres_witness :
  qihe_row Sample.table [] (of_Z 0) (of_Z 0) Sample.R1 !! 3%nat = Some "1.00"
  /\ qihe_row Sample.table [] (of_Z 0) (of_Z 0) Sample.R1 !! 4%nat = Some "2.00".
Proof.
  apply (coordinates_in_millimetres Sample.table [] Sample.R1 100 200);
    [lia | lia | reflexivity].
Defined.

(** A footprint one micrometre left of the origin. *)
Lemma small_negative_coordinate_keeps_sign_witness :
  qihe_row Sample.table [] (of_Z 0) (of_Z 0)
    (Sample.footprint "H1" "Hole" (-1000) 0 0 0 2) !! 3%nat
  = Some "-0.00".
Proof.
  apply (small_negative_coordinate_keeps_sign Sample.table []
           (Sample.footprint "H1" "Hole" (-1000) 0 0 0 2)).
  simpl. lia.
Defined.
